(** * FocusDash: the store adapter, the list mutation protocol and the timer

    A shallow embedding of [sites/focusdash_site/app.js] (the feature-complete
    script, module [Full]) and of its defensively rewritten sibling (module
    [Defensive]), with the properties the dashboard's description states about
    them.

    Conventions of the embedding.
    - A JavaScript string is a [string]; each [ascii] stands for one code unit
      below 256.
    - A JavaScript number that the script computes with is either [NaN] or an
      integer ([Int z]).  The only numbers the script ever produces are results
      of [parseInt], sums of stored minutes and second counts; every result of
      [parseInt] is compared with small integer bounds before it is used, and
      the rounding of a very long digit string to a double is monotone, so the
      comparisons come out the same on the exact integer.  Sums and decimal
      texts are those of the script as long as the numbers stay within 2^53 in
      absolute value, where a double holds every integer exactly and prints it
      in plain decimal; the theorems that read a sum or print a stored number
      say so in a hypothesis ([in_exact_range], or a bound).
    - The value stored under a key is read at the type of the collection the
      key holds ([Json]).  Stored text that is valid JSON of another shape is
      outside the embedding: on it the script's array methods throw a
      [TypeError].  The theorems that speak of whatever the store holds carry
      the hypothesis [holds_collection].
    - [localStorage], the DOM, the clock and the interval scheduler belong to
      the platform; they are modelled as explicit state. *)

From Stdlib Require Import ZArith Lia Ascii String.
From stdpp Require Import base option list gmap strings pretty.

Local Open Scope Z_scope.

(** ** JavaScript primitives used by the script *)
Module Js.

Inductive num : Type :=
| NaN
| Int (z : Z).

#[global] Instance num_eq_dec : EqDecision num.
Proof. solve_decision. Defined.

(** [a === b] on numbers: [NaN] is not equal to anything. *)
Definition strict_eq (a b : num) : bool :=
  match a, b with
  | Int x, Int y => bool_decide (x = y)
  | _, _ => false
  end.

(** [a < b] and [a > b]: every comparison with [NaN] is false. *)
Definition lt (a b : num) : bool :=
  match a, b with
  | Int x, Int y => bool_decide (x < y)
  | _, _ => false
  end.

Definition gt (a b : num) : bool := lt b a.

(** Truthiness of a number, as in [!n] and [n || d]: [NaN] and [0] are falsy. *)
Definition truthy (a : num) : bool :=
  match a with
  | NaN => false
  | Int z => negb (bool_decide (z = 0))
  end.

Definition sub (a b : num) : num :=
  match a, b with
  | Int x, Int y => Int (x - y)
  | _, _ => NaN
  end.

Definition mul (a b : num) : num :=
  match a, b with
  | Int x, Int y => Int (x * y)
  | _, _ => NaN
  end.

(** [Math.min] and [Math.max]: [NaN] as soon as one argument is [NaN]. *)
Definition min (a b : num) : num :=
  match a, b with
  | Int x, Int y => Int (Z.min x y)
  | _, _ => NaN
  end.

Definition max (a b : num) : num :=
  match a, b with
  | Int x, Int y => Int (Z.max x y)
  | _, _ => NaN
  end.

(** [Math.floor(a / b)] on integers with [b > 0], and [a % b]. *)
Definition floor_div (a b : num) : num :=
  match a, b with
  | Int x, Int y => Int (x `div` y)
  | _, _ => NaN
  end.

Definition rem (a b : num) : num :=
  match a, b with
  | Int x, Int y => if bool_decide (y = 0) then NaN else Int (x `rem` y)
  | _, _ => NaN
  end.

(** [String(n)]: plain decimal, which is what [String] gives for every
    integer below 10^21 in absolute value. *)
Definition to_string (a : num) : string :=
  match a with
  | NaN => "NaN"
  | Int z => pretty z
  end.

(** White space as [trim] and [parseInt] understand it, among the code units
    below 256: TAB, LF, VT, FF, CR, SP and NBSP. *)
Definition is_white (c : ascii) : bool :=
  match c with
  | "009" | "010" | "011" | "012" | "013" | " " | "160" => true
  | _ => false
  end%char.

Fixpoint trim_start (s : string) : string :=
  match s with
  | EmptyString => EmptyString
  | String c s' => if is_white c then trim_start s' else s
  end.

Definition trim_end (s : string) : string :=
  String.rev (trim_start (String.rev s)).

(** [s.trim()]. *)
Definition trim (s : string) : string := trim_end (trim_start s).

(** Truthiness of a string: only the empty string is falsy. *)
Definition nonempty (s : string) : bool :=
  match s with
  | EmptyString => false
  | String _ _ => true
  end.

(** [s || d] on strings. *)
Definition or_else (s d : string) : string :=
  if nonempty s then s else d.

Definition digit (c : ascii) : option Z :=
  Z.of_nat <$> Ascii.is_nat c.

(** The value of the longest prefix of decimal digits of [s], read after the
    digits accumulated in [acc]. *)
Fixpoint digits_from (acc : Z) (s : string) : Z :=
  match s with
  | EmptyString => acc
  | String c s' =>
      match digit c with
      | Some d => digits_from (10 * acc + d) s'
      | None => acc
      end
  end.

Definition unsigned_int (s : string) : num :=
  match s with
  | EmptyString => NaN
  | String c _ =>
      match digit c with
      | Some _ => Int (digits_from 0 s)
      | None => NaN
      end
  end.

Definition neg (a : num) : num :=
  match a with
  | NaN => NaN
  | Int z => Int (- z)
  end.

(** [parseInt(s, 10)]: leading white space is skipped, then an optional sign,
    then the longest run of decimal digits; [NaN] when there is no digit. *)
Definition parseInt (s : string) : num :=
  match trim_start s with
  | String "-" s' => neg (unsigned_int s')
  | String "+" s' => unsigned_int s'
  | s' => unsigned_int s'
  end.

Fixpoint zeros (n : nat) : string :=
  match n with
  | O => EmptyString
  | S n' => String "0" (zeros n')
  end.

(** [s.padStart(2, "0")]. *)
Definition padStart2 (s : string) : string :=
  zeros (2 - String.length s) +:+ s.

End Js.

(** ** Abrupt completion: what a JavaScript call does instead of returning *)
Module Completion.

Inductive Exn : Type :=
| ReferenceError
| SecurityError
| QuotaExceededError
| SyntaxError
| TypeError.

(** A call either returns a value or throws. *)
Inductive t (A : Type) : Type :=
| Normal (a : A)
| Throw (e : Exn).
Arguments Normal {A} a.
Arguments Throw {A} e.

#[global] Instance completion_ret : MRet t := @Normal.
#[global] Instance completion_bind : MBind t := λ A B f m,
  match m with
  | Normal a => f a
  | Throw e => Throw e
  end.

(** [try { body } catch (e) { handler }]. *)
Definition try_catch {A} (body : t A) (handler : Exn → t A) : t A :=
  match body with
  | Normal a => Normal a
  | Throw e => handler e
  end.

(** A parse that fails throws a [SyntaxError]. *)
Definition or_throw {A} (e : Exn) (o : option A) : t A :=
  match o with
  | Some a => Normal a
  | None => Throw e
  end.

End Completion.
Import Completion.

(** ** The platform's key-value store and JSON codec *)
Module Platform.

(** The storage area: the items it holds and, for every key and text, whether
    a write of that text under that key is accepted ([setItem] throws a
    [QuotaExceededError] otherwise). *)
Record Storage : Type := {
  items : gmap string string;
  accepts : string → string → bool;
}.

(** What the global name [localStorage] stands for on a page: nothing at all
    (reading the name throws a [ReferenceError], and [typeof] gives
    ["undefined"]), an accessor that refuses (a [SecurityError]), or a storage
    area. *)
Inductive Global : Type :=
| Absent
| Blocked
| Available (st : Storage).

(** Evaluating the expression [localStorage]. *)
Definition localStorage_ref (g : Global) : Completion.t Storage :=
  match g with
  | Absent => Throw ReferenceError
  | Blocked => Throw SecurityError
  | Available st => Normal st
  end.

(** Evaluating [typeof localStorage !== "undefined"]. *)
Definition localStorage_defined (g : Global) : Completion.t bool :=
  match g with
  | Absent => Normal false
  | Blocked => Throw SecurityError
  | Available _ => Normal true
  end.

(** [st.getItem(key)]: [None] is JavaScript's [null]. *)
Definition getItem (st : Storage) (key : string) : option string :=
  items st !! key.

(** [st.setItem(key, text)]. *)
Definition setItem (st : Storage) (key text : string) : Completion.t Storage :=
  if accepts st key text
  then Normal {| items := <[key := text]> (items st); accepts := accepts st |}
  else Throw QuotaExceededError.

(** [JSON.parse] and [JSON.stringify] at the type [V] of the values one key
    holds.  [JSON_parse raw = None] stands for a [SyntaxError]; like
    [JSON.parse], a codec rejects the empty text.  Stored text that is valid
    JSON of another shape than [V] is outside this typed model. *)
Class Json (V : Type) : Type := {
  JSON_parse : string → option V;
  JSON_stringify : V → string;
  JSON_parse_empty : JSON_parse EmptyString = None;
}.

(** [raw ? JSON.parse(raw) : fallback]. *)
Definition parse_or {V} `{Json V} (raw : option string) (fallback : V) : Completion.t V :=
  match raw with
  | Some r => if Js.nonempty r then or_throw SyntaxError (JSON_parse r) else Normal fallback
  | None => Normal fallback
  end.

End Platform.
Import Platform.

(** ** The data the three list domains keep under their storage keys *)
Module Data.

(** A field the script reads as [x.f || d] may be missing; it is an [option]. *)
Record Task : Type := {
  task_text : string;
  task_done : bool;
  task_minutes : option Z;
}.

Record Milestone : Type := {
  milestone_text : string;
  milestone_done : bool;
}.

Record Project : Type := {
  project_name : string;
  project_milestones : option (list Milestone);
}.

(** [habit_lastDone = None] is [lastDone: null]. *)
Record Habit : Type := {
  habit_name : string;
  habit_streak : option Z;
  habit_lastDone : option string;
}.

#[global] Instance task_eq_dec : EqDecision Task.
Proof. solve_decision. Defined.
#[global] Instance milestone_eq_dec : EqDecision Milestone.
Proof. solve_decision. Defined.
#[global] Instance project_eq_dec : EqDecision Project.
Proof. solve_decision. Defined.
#[global] Instance habit_eq_dec : EqDecision Habit.
Proof. solve_decision. Defined.

(** [n || d] for a numeric field: a missing field and [0] are falsy. *)
Definition num_or (n : option Z) (d : Z) : Z :=
  match n with
  | Some z => if bool_decide (z = 0) then d else z
  | None => d
  end.

(** [l || []] for a list field. *)
Definition list_or {A} (l : option (list A)) : list A :=
  match l with
  | Some xs => xs
  | None => []
  end.

(** [lastDone === today]. *)
Definition same_day (lastDone : option string) (today : string) : bool :=
  match lastDone with
  | Some d => bool_decide (d = today)
  | None => false
  end.

(** A reading of the local clock: [getFullYear()], [getMonth()] (from 0) and
    [getDate()]. *)
Record Date : Type := {
  fullYear : Z;
  month : Z;
  date : Z;
}.

(** The storage keys. *)
Definition fd_tasks : string := "fd_tasks".
Definition fd_projects : string := "fd_projects".
Definition fd_habits : string := "fd_habits".

End Data.
Import Data.

(** ** The timer: state and the code both scripts share

    The two scripts declare the same three globals and the same functions
    [renderTimer], [step], [startTimer], [pauseTimer] and [resetTimer]; they
    differ in [fmt2] and in how [setTimerFromInputs] derives the minutes from
    the two input fields.  The shared text is embedded once, over the parts
    that differ. *)
Module Timer.

(** The two values [timerMode] takes: ["focus"] and ["break"]. *)
Inductive Mode : Type :=
| focus
| break.

#[global] Instance mode_eq_dec : EqDecision Mode.
Proof. solve_decision. Defined.

(** The platform's interval scheduler: the next handle [setInterval] hands out
    (handles are positive, hence truthy) and the handles of the intervals that
    are active.  [step] is the only callback the scripts ever register. *)
Record Scheduler : Type := {
  next_handle : positive;
  active : list positive;
}.

Definition setInterval (s : Scheduler) : positive * Scheduler :=
  (next_handle s,
   {| next_handle := Pos.succ (next_handle s);
      active := active s ++ [next_handle s] |}).

Definition clearInterval (h : positive) (s : Scheduler) : Scheduler :=
  {| next_handle := next_handle s;
     active := List.filter (λ x, negb (Pos.eqb x h)) (active s) |}.

(** The globals [timerMode], [remaining] and [tick] ([None] is [null]), the
    scheduler, the [value] of the inputs [focusMin] and [breakMin] and the
    [textContent] of [timerLabel] and [timerDisplay] ([None]: the page lacks
    the element). *)
Record State : Type := {
  timerMode : Mode;
  remaining : Js.num;
  tick : option positive;
  scheduler : Scheduler;
  focusMin : option string;
  breakMin : option string;
  timerLabel : option string;
  timerDisplay : option string;
}.

Definition set_timerMode (m : Mode) (t : State) : State :=
  {| timerMode := m; remaining := remaining t; tick := tick t;
     scheduler := scheduler t; focusMin := focusMin t; breakMin := breakMin t;
     timerLabel := timerLabel t; timerDisplay := timerDisplay t |}.

Definition set_remaining (r : Js.num) (t : State) : State :=
  {| timerMode := timerMode t; remaining := r; tick := tick t;
     scheduler := scheduler t; focusMin := focusMin t; breakMin := breakMin t;
     timerLabel := timerLabel t; timerDisplay := timerDisplay t |}.

Definition set_tick (k : option positive) (s : Scheduler) (t : State) : State :=
  {| timerMode := timerMode t; remaining := remaining t; tick := k;
     scheduler := s; focusMin := focusMin t; breakMin := breakMin t;
     timerLabel := timerLabel t; timerDisplay := timerDisplay t |}.

Definition set_focusMin (v : string) (t : State) : State :=
  {| timerMode := timerMode t; remaining := remaining t; tick := tick t;
     scheduler := scheduler t; focusMin := Some v; breakMin := breakMin t;
     timerLabel := timerLabel t; timerDisplay := timerDisplay t |}.

Definition set_breakMin (v : string) (t : State) : State :=
  {| timerMode := timerMode t; remaining := remaining t; tick := tick t;
     scheduler := scheduler t; focusMin := focusMin t; breakMin := Some v;
     timerLabel := timerLabel t; timerDisplay := timerDisplay t |}.

(** [if (el) el.textContent = s] for the two display elements. *)
Definition set_texts (label display : string) (t : State) : State :=
  {| timerMode := timerMode t; remaining := remaining t; tick := tick t;
     scheduler := scheduler t; focusMin := focusMin t; breakMin := breakMin t;
     timerLabel := match timerLabel t with Some _ => Some label | None => None end;
     timerDisplay := match timerDisplay t with Some _ => Some display | None => None end |}.

(** The other mode: [timerMode==="focus" ? "break" : "focus"]. *)
Definition flip (m : Mode) : Mode :=
  match m with
  | focus => break
  | break => focus
  end.

(** The interval the script believes it owns is the only one there is. *)
Definition one_callback (t : State) : Prop :=
  active (scheduler t) = match tick t with Some h => [h] | None => [] end.

(** What the user and the platform can do to the timer: click one of the three
    buttons, edit the text of one of the two inputs without committing it (no
    handler is wired to that; the script meets the new [value] the next time
    it reads the input), commit a new value of an input (which fires its
    [change] event), or let a second pass. *)
Inductive Event : Type :=
| StartClick
| PauseClick
| ResetClick
| FocusMinInput (value : string)
| BreakMinInput (value : string)
| FocusMinChange (value : string)
| BreakMinChange (value : string)
| Second.

(** The minutes the script derives from an input are not a number, or lie
    between [lo] and [hi]. *)
Definition minutes_within (lo hi : Z) (minutes : option string → Js.num) : Prop :=
  ∀ el, minutes el = Js.NaN ∨ ∃ m, minutes el = Js.Int m ∧ lo ≤ m ≤ hi.

(** The longest a phase can last, in seconds: 90 minutes of focus, 30 of
    break. *)
Definition longest (m : Mode) : Z :=
  match m with
  | focus => 90 * 60
  | break => 30 * 60
  end.

Section Automaton.
(** The parts in which the scripts differ: [fmt2], and the minutes that
    [setTimerFromInputs] derives from the element [focusMin], respectively
    [breakMin]. *)
Variable fmt2 : Js.num → string.
Variables fmin bmin : option string → Js.num.

(** [renderTimer()]. *)
Definition renderTimer (t : State) : State :=
  let m := Js.floor_div (remaining t) (Js.Int 60) in
  let s := Js.rem (remaining t) (Js.Int 60) in
  set_texts (match timerMode t with focus => "Focus" | break => "Break" end)
            (fmt2 m +:+ ":" +:+ fmt2 s) t.

(** [setTimerFromInputs()]. *)
Definition setTimerFromInputs (t : State) : State :=
  let f := focusMin t in
  let b := breakMin t in
  renderTimer
    (set_remaining
       (Js.mul (match timerMode t with focus => fmin f | break => bmin b end)
               (Js.Int 60)) t).

(** [step()]. *)
Definition step (t : State) : State :=
  let t := set_remaining (Js.max (Js.Int 0) (Js.sub (remaining t) (Js.Int 1))) t in
  let t := renderTimer t in
  if Js.strict_eq (remaining t) (Js.Int 0)
  then setTimerFromInputs (set_timerMode (flip (timerMode t)) t)
  else t.

(** [startTimer()]. *)
Definition startTimer (t : State) : State :=
  match tick t with
  | Some _ => t
  | None =>
      let (h, s) := setInterval (scheduler t) in
      set_tick (Some h) s t
  end.

(** [pauseTimer()]. *)
Definition pauseTimer (t : State) : State :=
  match tick t with
  | None => t
  | Some h => set_tick None (clearInterval h (scheduler t)) t
  end.

(** [resetTimer()]. *)
Definition resetTimer (t : State) : State :=
  setTimerFromInputs (pauseTimer t).

(** The globals as the script's top level leaves them, on a page with the
    given elements. *)
Definition script_loaded (f b label display : option string) : State :=
  {| timerMode := focus; remaining := Js.Int (25 * 60); tick := None;
     scheduler := {| next_handle := 1; active := [] |};
     focusMin := f; breakMin := b;
     timerLabel := label; timerDisplay := display |}.

(** What the [DOMContentLoaded] handler does to the timer. *)
Definition DOMContentLoaded_timer (t : State) : State :=
  setTimerFromInputs (renderTimer t).

(** One second passes: every active interval runs its callback once. *)
Definition second (t : State) : State :=
  foldl (λ t _, step t) t (active (scheduler t)).

(** An event and the handler wired to it.  An input the page lacks cannot be
    edited. *)
Definition handle (ev : Event) (t : State) : State :=
  match ev with
  | StartClick => startTimer t
  | PauseClick => pauseTimer t
  | ResetClick => resetTimer t
  | FocusMinInput value =>
      match focusMin t with
      | Some _ => set_focusMin value t
      | None => t
      end
  | BreakMinInput value =>
      match breakMin t with
      | Some _ => set_breakMin value t
      | None => t
      end
  | FocusMinChange value =>
      match focusMin t with
      | Some _ => setTimerFromInputs (set_focusMin value t)
      | None => t
      end
  | BreakMinChange value =>
      match breakMin t with
      | Some _ => setTimerFromInputs (set_breakMin value t)
      | None => t
      end
  | Second => second t
  end.

(** The currently configured duration of the phase [m], in seconds: what
    [setTimerFromInputs] assigns to [remaining] in that phase. *)
Definition duration (m : Mode) (t : State) : Js.num :=
  Js.mul (match m with focus => fmin (focusMin t) | break => bmin (breakMin t) end)
         (Js.Int 60).

(** [remaining] is not a number, or a whole number of seconds between 1 and
    the longest the phase the timer is in can last.  (It need not lie below
    the duration the inputs hold now: the user may have edited an input since
    [remaining] was loaded.) *)
Definition in_range (t : State) : Prop :=
  match remaining t with
  | Js.NaN => True
  | Js.Int r => 1 ≤ r ≤ longest (timerMode t)
  end.

(** The states the timer can be in once the page has loaded. *)
Inductive reachable : State → Prop :=
| reachable_loaded f b label display :
    reachable (DOMContentLoaded_timer (script_loaded f b label display))
| reachable_handle ev t :
    reachable t → reachable (handle ev t).

End Automaton.

End Timer.

(** ** The feature-complete script *)
Module Full.

(** [fmt2(n)]. *)
Definition fmt2 (n : Js.num) : string := Js.padStart2 (Js.to_string n).

(** [todayISO()], at the clock reading [d]. *)
Definition todayISO (d : Date) : string :=
  Js.to_string (Js.Int (fullYear d)) +:+ "-" +:+
  fmt2 (Js.Int (month d + 1)) +:+ "-" +:+ fmt2 (Js.Int (date d)).

(** *** The store adapter *)

(** [loadJSON(key, fallback)]. *)
Definition loadJSON {V} `{Json V} (g : Global) (key : string) (fallback : V) : Completion.t V :=
  try_catch
    (st ← localStorage_ref g;
     parse_or (getItem st key) fallback)
    (λ _, Normal fallback).

(** [saveJSON(key, value)]; the result is what [localStorage] is afterwards. *)
Definition saveJSON {V} `{Json V} (g : Global) (key : string) (value : V) : Completion.t Global :=
  try_catch
    (st ← localStorage_ref g;
     st' ← setItem st key (JSON_stringify value);
     Normal (Available st'))
    (λ _, Normal g).

(** *** The page: the storage area and the elements the list code touches

    An element the page lacks ([$(id)] is [null]) is [None].  The handlers
    that one rendering pass installs share what the pass captured: the array
    [tasks] for the check boxes, the array [projects] for the milestone
    buttons, the string [today] for the habit buttons.  The position of an item
    in the rendered list is the [idx] its handler captured. *)

Record TaskItem : Type := {
  cb_checked : bool;
  sp_text : string;
  small_text : string;
}.

Record TaskList : Type := {
  tl_tasks : list Task;
  tl_items : list TaskItem;
}.

Record ProjectCard : Type := {
  pc_h3 : string;
  pc_inp : string;
}.

Record ProjectsWrap : Type := {
  pw_projects : list Project;
  pw_cards : list ProjectCard;
}.

Record HabitCard : Type := {
  hc_h3 : string;
  hc_btn_text : string;
  hc_btn_class : string;
}.

Record HabitsWrap : Type := {
  hw_today : string;
  hw_cards : list HabitCard;
}.

Record Page : Type := {
  localStorage : Global;
  todayDate : option string;
  plannedMinutes : option string;
  completedMinutes : option string;
  taskList : option TaskList;
  taskInput : option string;
  projectsWrap : option ProjectsWrap;
  projName : option string;
  habitsWrap : option HabitsWrap;
  habitName : option string;
}.

Definition set_localStorage (g : Global) (p : Page) : Page :=
  {| localStorage := g; todayDate := todayDate p;
     plannedMinutes := plannedMinutes p; completedMinutes := completedMinutes p;
     taskList := taskList p; taskInput := taskInput p;
     projectsWrap := projectsWrap p; projName := projName p;
     habitsWrap := habitsWrap p; habitName := habitName p |}.

(** [if (el) el.textContent = s]. *)
Definition set_text (s : string) (el : option string) : option string :=
  match el with
  | Some _ => Some s
  | None => None
  end.

(** Assigning [textContent] of the three KPI elements, each one if present. *)
Definition set_kpis (today planned completed : string) (p : Page) : Page :=
  {| localStorage := localStorage p; todayDate := set_text today (todayDate p);
     plannedMinutes := set_text planned (plannedMinutes p);
     completedMinutes := set_text completed (completedMinutes p);
     taskList := taskList p; taskInput := taskInput p;
     projectsWrap := projectsWrap p; projName := projName p;
     habitsWrap := habitsWrap p; habitName := habitName p |}.

Definition set_taskList (tl : TaskList) (p : Page) : Page :=
  {| localStorage := localStorage p; todayDate := todayDate p;
     plannedMinutes := plannedMinutes p; completedMinutes := completedMinutes p;
     taskList := Some tl; taskInput := taskInput p;
     projectsWrap := projectsWrap p; projName := projName p;
     habitsWrap := habitsWrap p; habitName := habitName p |}.

Definition set_taskInput (v : string) (p : Page) : Page :=
  {| localStorage := localStorage p; todayDate := todayDate p;
     plannedMinutes := plannedMinutes p; completedMinutes := completedMinutes p;
     taskList := taskList p; taskInput := Some v;
     projectsWrap := projectsWrap p; projName := projName p;
     habitsWrap := habitsWrap p; habitName := habitName p |}.

Definition set_projectsWrap (pw : ProjectsWrap) (p : Page) : Page :=
  {| localStorage := localStorage p; todayDate := todayDate p;
     plannedMinutes := plannedMinutes p; completedMinutes := completedMinutes p;
     taskList := taskList p; taskInput := taskInput p;
     projectsWrap := Some pw; projName := projName p;
     habitsWrap := habitsWrap p; habitName := habitName p |}.

Definition set_projName (v : string) (p : Page) : Page :=
  {| localStorage := localStorage p; todayDate := todayDate p;
     plannedMinutes := plannedMinutes p; completedMinutes := completedMinutes p;
     taskList := taskList p; taskInput := taskInput p;
     projectsWrap := projectsWrap p; projName := Some v;
     habitsWrap := habitsWrap p; habitName := habitName p |}.

Definition set_habitsWrap (hw : HabitsWrap) (p : Page) : Page :=
  {| localStorage := localStorage p; todayDate := todayDate p;
     plannedMinutes := plannedMinutes p; completedMinutes := completedMinutes p;
     taskList := taskList p; taskInput := taskInput p;
     projectsWrap := projectsWrap p; projName := projName p;
     habitsWrap := Some hw; habitName := habitName p |}.

Definition set_habitName (v : string) (p : Page) : Page :=
  {| localStorage := localStorage p; todayDate := todayDate p;
     plannedMinutes := plannedMinutes p; completedMinutes := completedMinutes p;
     taskList := taskList p; taskInput := taskInput p;
     projectsWrap := projectsWrap p; projName := projName p;
     habitsWrap := habitsWrap p; habitName := Some v |}.

(** *** Tasks *)
Section Lists.
Context `{JsonTasks : Json (list Task)} `{JsonProjects : Json (list Project)}
        `{JsonHabits : Json (list Habit)}.

(** [tasks.reduce((a,t)=>a+(t.minutes||0),0)], with the additions exact: they
    are the script's as long as the partial sums stay within 2^53 in absolute
    value ([Contract.in_exact_range]). *)
Definition sum_minutes (tasks : list Task) : Z :=
  foldl (λ a t, a + num_or (task_minutes t) 0) 0 tasks.

(** [updateKPIs()], at the clock reading [d].  [tasks] is what [loadJSON]
    returned, read as a task collection ([Contract.holds_collection]). *)
Definition updateKPIs (d : Date) (p : Page) : Completion.t Page :=
  tasks ← loadJSON (localStorage p) fd_tasks [];
  let planned := sum_minutes tasks in
  let done := sum_minutes (List.filter task_done tasks) in
  Normal (set_kpis (todayISO d)
            (Js.to_string (Js.Int planned) +:+ " min")
            (Js.to_string (Js.Int done) +:+ " min") p).

(** The [li] that [renderTasks] builds for the task [t]. *)
Definition task_item (t : Task) : TaskItem :=
  {| cb_checked := task_done t;
     sp_text := task_text t;
     small_text := Js.to_string (Js.Int (num_or (task_minutes t) 25)) +:+ " min" |}.

(** [renderTasks()]. *)
Definition renderTasks (p : Page) : Completion.t Page :=
  match taskList p with
  | None => Normal p
  | Some _ =>
      tasks ← loadJSON (localStorage p) fd_tasks [];
      Normal (set_taskList {| tl_tasks := tasks;
                              tl_items := task_item <$> take 3 tasks |} p)
  end.

(** [addTask()]. *)
Definition addTask (d : Date) (p : Page) : Completion.t Page :=
  match taskInput p with
  | None => Normal p
  | Some value =>
      let text := Js.trim (Js.or_else value EmptyString) in
      if negb (Js.nonempty text) then Normal p else
      tasks ← loadJSON (localStorage p) fd_tasks [];
      let tasks := {| task_text := text; task_done := false;
                      task_minutes := Some 25 |} :: tasks in
      g ← saveJSON (localStorage p) fd_tasks tasks;
      let p := set_taskInput EmptyString (set_localStorage g p) in
      p ← updateKPIs d p;
      renderTasks p
  end.

(** [tasks[idx].done = b]. *)
Definition set_done (b : bool) (t : Task) : Task :=
  {| task_text := task_text t; task_done := b; task_minutes := task_minutes t |}.

(** The [change] handler of the check box at position [idx] of the rendered
    list, fired when the user flips that box.  A list without such a box has
    no handler to run.  The handler writes to [tasks[idx]] of the array its
    rendering pass captured. *)
Definition cb_change (d : Date) (idx : nat) (p : Page) : Completion.t Page :=
  match taskList p with
  | None => Normal p
  | Some tl =>
      match tl_items tl !! idx with
      | None => Normal p
      | Some li =>
          let checked := negb (cb_checked li) in
          match tl_tasks tl !! idx with
          | None => Throw TypeError
          | Some t =>
              let tasks := <[idx := set_done checked t]> (tl_tasks tl) in
              g ← saveJSON (localStorage p) fd_tasks tasks;
              p ← updateKPIs d (set_localStorage g p);
              renderTasks p
          end
      end
  end.

(** The [click] handler of [clearDoneBtn]. *)
Definition clearDoneBtn_click (d : Date) (p : Page) : Completion.t Page :=
  loaded ← loadJSON (localStorage p) fd_tasks [];
  let tasks := List.filter (λ t, negb (task_done t)) loaded in
  g ← saveJSON (localStorage p) fd_tasks tasks;
  p ← updateKPIs d (set_localStorage g p);
  renderTasks p.

(** The [click] handler of [wipeAllBtn]. *)
Definition wipeAllBtn_click (d : Date) (p : Page) : Completion.t Page :=
  g ← saveJSON (localStorage p) fd_tasks (@nil Task);
  p ← updateKPIs d (set_localStorage g p);
  renderTasks p.

(** *** Projects *)

Definition project_card (pr : Project) : ProjectCard :=
  {| pc_h3 := project_name pr; pc_inp := EmptyString |}.

(** [renderProjects()]. *)
Definition renderProjects (p : Page) : Completion.t Page :=
  match projectsWrap p with
  | None => Normal p
  | Some _ =>
      projects ← loadJSON (localStorage p) fd_projects [];
      Normal (set_projectsWrap {| pw_projects := projects;
                                  pw_cards := project_card <$> projects |} p)
  end.

(** [projects[idx].milestones = projects[idx].milestones || [];
    projects[idx].milestones.unshift({text:txt, done:false})]. *)
Definition unshift_milestone (txt : string) (pr : Project) : Project :=
  {| project_name := project_name pr;
     project_milestones :=
       Some ({| milestone_text := txt; milestone_done := false |}
               :: list_or (project_milestones pr)) |}.

(** The [click] handler of the milestone button of the card at position
    [idx]. *)
Definition milestone_btn_click (idx : nat) (p : Page) : Completion.t Page :=
  match projectsWrap p with
  | None => Normal p
  | Some pw =>
      match pw_cards pw !! idx with
      | None => Normal p
      | Some card =>
          let txt := Js.trim (Js.or_else (pc_inp card) EmptyString) in
          if negb (Js.nonempty txt) then Normal p else
          match pw_projects pw !! idx with
          | None => Throw TypeError
          | Some pr =>
              let projects := <[idx := unshift_milestone txt pr]> (pw_projects pw) in
              g ← saveJSON (localStorage p) fd_projects projects;
              renderProjects (set_localStorage g p)
          end
      end
  end.

(** [addProject()]. *)
Definition addProject (p : Page) : Completion.t Page :=
  match projName p with
  | None => Normal p
  | Some value =>
      let name := Js.trim (Js.or_else value EmptyString) in
      if negb (Js.nonempty name) then Normal p else
      projects ← loadJSON (localStorage p) fd_projects [];
      let projects := {| project_name := name; project_milestones := Some [] |}
                        :: projects in
      g ← saveJSON (localStorage p) fd_projects projects;
      renderProjects (set_projName EmptyString (set_localStorage g p))
  end.

(** *** Habits *)

(** The card [renderHabits] builds for the habit [h] (the check mark of the
    button text stands as its UTF-8 bytes). *)
Definition habit_card (today : string) (h : Habit) : HabitCard :=
  {| hc_h3 := habit_name h;
     hc_btn_text :=
       if same_day (habit_lastDone h) today then "Done today ✓" else "Done today";
     hc_btn_class :=
       if same_day (habit_lastDone h) today then "secondary" else EmptyString |}.

(** [renderHabits()], at the clock reading [d]. *)
Definition renderHabits (d : Date) (p : Page) : Completion.t Page :=
  match habitsWrap p with
  | None => Normal p
  | Some _ =>
      habits ← loadJSON (localStorage p) fd_habits [];
      let today := todayISO d in
      Normal (set_habitsWrap {| hw_today := today;
                                hw_cards := habit_card today <$> habits |} p)
  end.

(** [hs[idx].lastDone=today; hs[idx].streak=(hs[idx].streak||0)+1]. *)
Definition mark_done (today : string) (h : Habit) : Habit :=
  {| habit_name := habit_name h;
     habit_streak := Some (num_or (habit_streak h) 0 + 1);
     habit_lastDone := Some today |}.

(** The [click] handler of the button of the habit card at position [idx],
    run at the clock reading [d].  [today] is the string its rendering pass
    captured. *)
Definition habit_btn_click (d : Date) (idx : nat) (p : Page) : Completion.t Page :=
  match habitsWrap p with
  | None => Normal p
  | Some hw =>
      match hw_cards hw !! idx with
      | None => Normal p
      | Some _ =>
          let today := hw_today hw in
          hs ← loadJSON (localStorage p) fd_habits [];
          match hs !! idx with
          | None => Throw TypeError
          | Some h =>
              if same_day (habit_lastDone h) today then Normal p else
              let hs := <[idx := mark_done today h]> hs in
              g ← saveJSON (localStorage p) fd_habits hs;
              renderHabits d (set_localStorage g p)
          end
      end
  end.

(** [addHabit()], at the clock reading [d]. *)
Definition addHabit (d : Date) (p : Page) : Completion.t Page :=
  match habitName p with
  | None => Normal p
  | Some value =>
      let name := Js.trim (Js.or_else value EmptyString) in
      if negb (Js.nonempty name) then Normal p else
      habits ← loadJSON (localStorage p) fd_habits [];
      let habits := {| habit_name := name; habit_streak := Some 0;
                       habit_lastDone := None |} :: habits in
      g ← saveJSON (localStorage p) fd_habits habits;
      renderHabits d (set_habitName EmptyString (set_localStorage g p))
  end.

(** What the [DOMContentLoaded] handler does to the lists, on a store whose
    keys hold collections ([Contract.holds_collections]). *)
Definition DOMContentLoaded_lists (d : Date) (p : Page) : Completion.t Page :=
  p ← updateKPIs d p;
  p ← renderTasks p;
  p ← renderProjects p;
  renderHabits d p.

End Lists.

(** *** The timer *)

(** [f ? Math.max(5, Math.min(90, parseInt(f.value||"25",10))) : 25]. *)
Definition fmin (f : option string) : Js.num :=
  match f with
  | Some value =>
      Js.max (Js.Int 5) (Js.min (Js.Int 90) (Js.parseInt (Js.or_else value "25")))
  | None => Js.Int 25
  end.

(** [b ? Math.max(1, Math.min(30, parseInt(b.value||"5",10))) : 5]. *)
Definition bmin (b : option string) : Js.num :=
  match b with
  | Some value =>
      Js.max (Js.Int 1) (Js.min (Js.Int 30) (Js.parseInt (Js.or_else value "5")))
  | None => Js.Int 5
  end.

Definition renderTimer : Timer.State → Timer.State := Timer.renderTimer fmt2.
Definition setTimerFromInputs : Timer.State → Timer.State :=
  Timer.setTimerFromInputs fmt2 fmin bmin.
Definition step : Timer.State → Timer.State := Timer.step fmt2 fmin bmin.
Definition startTimer : Timer.State → Timer.State := Timer.startTimer.
Definition pauseTimer : Timer.State → Timer.State := Timer.pauseTimer.
Definition resetTimer : Timer.State → Timer.State := Timer.resetTimer fmt2 fmin bmin.
Definition second : Timer.State → Timer.State := Timer.second fmt2 fmin bmin.
Definition handle : Timer.Event → Timer.State → Timer.State :=
  Timer.handle fmt2 fmin bmin.
Definition reachable : Timer.State → Prop := Timer.reachable fmt2 fmin bmin.
Definition duration : Timer.Mode → Timer.State → Js.num := Timer.duration fmin bmin.

End Full.

(** ** The defensive script

    It redefines the store adapter and the timer; its list functions are empty
    placeholders and it wires no list button, so it has no list operation to
    embed. *)
Module Defensive.

(** [fmt2(n)]: [n = Number(n) || 0; return (n < 10 ? "0" : "") + String(n)]. *)
Definition fmt2 (n : Js.num) : string :=
  let n := if Js.truthy n then n else Js.Int 0 in
  (if Js.lt n (Js.Int 10) then "0" else EmptyString) +:+ Js.to_string n.

(** [loadJSON(key, fallback)]. *)
Definition loadJSON {V} `{Json V} (g : Global) (key : string) (fallback : V) : Completion.t V :=
  try_catch
    (defined ← localStorage_defined g;
     raw ← (if defined : bool
            then st ← localStorage_ref g; Normal (getItem st key)
            else Normal None);
     parse_or raw fallback)
    (λ _, Normal fallback).

(** [saveJSON(key, value)]; the result is what [localStorage] is afterwards. *)
Definition saveJSON {V} `{Json V} (g : Global) (key : string) (value : V) : Completion.t Global :=
  try_catch
    (defined ← localStorage_defined g;
     if defined : bool
     then st ← localStorage_ref g;
          st' ← setItem st key (JSON_stringify value);
          Normal (Available st')
     else Normal g)
    (λ _, Normal g).

(** [fmin] of [setTimerFromInputs]:
    [var fmin = f ? parseInt(f.value||"25",10) : 25;
     if(!fmin || fmin<5) fmin=25; if(fmin>90) fmin=90;]. *)
Definition fmin (f : option string) : Js.num :=
  let fmin := match f with
              | Some value => Js.parseInt (Js.or_else value "25")
              | None => Js.Int 25
              end in
  let fmin := if negb (Js.truthy fmin) || Js.lt fmin (Js.Int 5)
              then Js.Int 25 else fmin in
  if Js.gt fmin (Js.Int 90) then Js.Int 90 else fmin.

(** [bmin] of [setTimerFromInputs]:
    [var bmin = b ? parseInt(b.value||"5",10) : 5;
     if(!bmin || bmin<1) bmin=5; if(bmin>30) bmin=30;]. *)
Definition bmin (b : option string) : Js.num :=
  let bmin := match b with
              | Some value => Js.parseInt (Js.or_else value "5")
              | None => Js.Int 5
              end in
  let bmin := if negb (Js.truthy bmin) || Js.lt bmin (Js.Int 1)
              then Js.Int 5 else bmin in
  if Js.gt bmin (Js.Int 30) then Js.Int 30 else bmin.

Definition renderTimer : Timer.State → Timer.State := Timer.renderTimer fmt2.
Definition setTimerFromInputs : Timer.State → Timer.State :=
  Timer.setTimerFromInputs fmt2 fmin bmin.
Definition step : Timer.State → Timer.State := Timer.step fmt2 fmin bmin.
Definition startTimer : Timer.State → Timer.State := Timer.startTimer.
Definition pauseTimer : Timer.State → Timer.State := Timer.pauseTimer.
Definition resetTimer : Timer.State → Timer.State := Timer.resetTimer fmt2 fmin bmin.
Definition second : Timer.State → Timer.State := Timer.second fmt2 fmin bmin.
Definition handle : Timer.Event → Timer.State → Timer.State :=
  Timer.handle fmt2 fmin bmin.
Definition reachable : Timer.State → Prop := Timer.reachable fmt2 fmin bmin.
Definition duration : Timer.Mode → Timer.State → Js.num := Timer.duration fmin bmin.

(** [todayISO()], at the clock reading [d]. *)
Definition todayISO (d : Date) : string :=
  Js.to_string (Js.Int (fullYear d)) +:+ "-" +:+
  fmt2 (Js.Int (month d + 1)) +:+ "-" +:+ fmt2 (Js.Int (date d)).

(** One round of the loop of [updateKPIs]:
    [planned += (tasks[i].minutes||0);
     if(tasks[i].done) done += (tasks[i].minutes||0);]. *)
Definition kpi_round (acc : Z * Z) (t : Task) : Z * Z :=
  let planned := fst acc + num_or (task_minutes t) 0 in
  let done := if task_done t then snd acc + num_or (task_minutes t) 0 else snd acc in
  (planned, done).

(** [updateKPIs()], at the clock reading [d]: the loop runs over the stored
    tasks in order, from [planned = 0, done = 0].  As in the feature-complete
    script, [tasks] is read as a task collection
    ([Contract.holds_collection]) and the additions are exact. *)
Definition updateKPIs `{Json (list Task)} (d : Date) (p : Full.Page) : Completion.t Full.Page :=
  tasks ← loadJSON (Full.localStorage p) fd_tasks [];
  let acc := foldl kpi_round (0, 0) tasks in
  Normal (Full.set_kpis (todayISO d)
            (Js.to_string (Js.Int (fst acc)) +:+ " min")
            (Js.to_string (Js.Int (snd acc)) +:+ " min") p).

End Defensive.


(** ** The adapter's contract, in the description's words *)
Module Contract.

(** The deserialized stored value, when one exists: the store is available, it
    holds text under [key], and the text deserializes. *)
Definition stored_value {V} `{Json V} (g : Global) (key : string) : option V :=
  match g with
  | Available st =>
      match items st !! key with
      | Some raw => JSON_parse raw
      | None => None
      end
  | Absent | Blocked => None
  end.

(** What a load yields: the stored value, else the fallback. *)
Definition loaded {V} `{Json V} (g : Global) (key : string) (fallback : V) : V :=
  match stored_value g key with
  | Some v => v
  | None => fallback
  end.

(** A write of [text] under [key] fails: there is no usable store, or the
    store refuses the text. *)
Definition write_fails (g : Global) (key text : string) : Prop :=
  match g with
  | Available st => accepts st key text = false
  | Absent | Blocked => True
  end.

(** What a save leaves behind: the store with [text] under [key] when the
    write is accepted, the store as it was otherwise. *)
Definition saved (g : Global) (key text : string) : Global :=
  match g with
  | Available st =>
      if accepts st key text
      then Available {| items := <[key := text]> (items st); accepts := accepts st |}
      else g
  | Absent | Blocked => g
  end.

(** The store holds nothing under [key], or the empty text, or a text that
    deserializes to a value of the key's type; a page without a usable store
    counts as holding nothing.  Text that is valid JSON of another shape
    ([null], a number, an object) is what this excludes: on such a value the
    script's array methods throw a [TypeError], which the typed codec cannot
    express, so a statement about what the script does with whatever it finds
    in the store carries this hypothesis. *)
Definition holds_collection {V} `{Json V} (g : Global) (key : string) : Prop :=
  match g with
  | Available st =>
      match items st !! key with
      | Some raw => raw = EmptyString ∨ is_Some (JSON_parse raw)
      | None => True
      end
  | Absent | Blocked => True
  end.

(** *** The KPIs, in the description's words *)

(** The minutes a task counts for in the KPIs: a task without minutes counts
    for nothing. *)
Definition counted (t : Task) : Z := default 0 (task_minutes t).

(** The minutes of the tasks of a collection, added up. *)
Fixpoint total_minutes (tasks : list Task) : Z :=
  match tasks with
  | [] => 0
  | t :: rest => counted t + total_minutes rest
  end.

(** The minutes of a collection can be added without rounding: the script's
    numbers are doubles, which hold every whole number up to 2^53 exactly, so
    sums stay exact (and print in plain decimal) as long as the absolute
    values of the addends do not add up to more. *)
Fixpoint magnitude (tasks : list Task) : Z :=
  match tasks with
  | [] => 0
  | t :: rest => Z.abs (counted t) + magnitude rest
  end.

Definition in_exact_range (tasks : list Task) : Prop := magnitude tasks ≤ 2 ^ 53.

(** The row the task list shows for a task: the box, the text, and the
    minutes, 25 when the task has none. *)
Definition row_of (t : Task) : Full.TaskItem :=
  {| Full.cb_checked := task_done t;
     Full.sp_text := task_text t;
     Full.small_text :=
       match task_minutes t with
       | Some m => if bool_decide (m = 0) then "25 min" else pretty m +:+ " min"
       | None => "25 min"
       end |}.

(** *** The list mutation protocol *)

(** The list-mutating operations of the page: the three [add] functions and
    the handlers of the check box, the two bulk buttons, the milestone button
    and the habit button (the last three take the position of the item). *)
Inductive Op : Type :=
| AddTask
| ToggleTask (idx : nat)
| ClearDone
| WipeAll
| AddProject
| AddMilestone (idx : nat)
| AddHabit
| HabitDone (idx : nat).

(** The storage key an operation writes. *)
Definition key_of (op : Op) : string :=
  match op with
  | AddTask | ToggleTask _ | ClearDone | WipeAll => fd_tasks
  | AddProject | AddMilestone _ => fd_projects
  | AddHabit | HabitDone _ => fd_habits
  end.

(** The collections as the page shows them: the task items, the project
    headings, the habit cards. *)
Definition shown_tasks (p : Full.Page) : option (list Full.TaskItem) :=
  Full.tl_items <$> Full.taskList p.

Definition shown_projects (p : Full.Page) : option (list string) :=
  (λ pw, Full.pc_h3 <$> Full.pw_cards pw) <$> Full.projectsWrap p.

Definition shown_habits (p : Full.Page) : option (list Full.HabitCard) :=
  Full.hw_cards <$> Full.habitsWrap p.

(** A text that is empty or white space only. *)
Fixpoint blank (s : string) : bool :=
  match s with
  | EmptyString => true
  | String c s' => Js.is_white c && blank s'
  end.

Section Protocol.
Context `{JsonTasks : Json (list Task)} `{JsonProjects : Json (list Project)}
        `{JsonHabits : Json (list Habit)}.

(** Running an operation at the clock reading [d]. *)
Definition run (d : Date) (op : Op) (p : Full.Page) : Completion.t Full.Page :=
  match op with
  | AddTask => Full.addTask d p
  | ToggleTask idx => Full.cb_change d idx p
  | ClearDone => Full.clearDoneBtn_click d p
  | WipeAll => Full.wipeAllBtn_click d p
  | AddProject => Full.addProject p
  | AddMilestone idx => Full.milestone_btn_click idx p
  | AddHabit => Full.addHabit d p
  | HabitDone idx => Full.habit_btn_click d idx p
  end.

(** The collections the store [g] holds. *)
Definition stored_tasks (g : Global) : list Task := loaded g fd_tasks [].
Definition stored_projects (g : Global) : list Project := loaded g fd_projects [].
Definition stored_habits (g : Global) : list Habit := loaded g fd_habits [].

(** The store holds a collection, or nothing, under each of the three keys. *)
Definition holds_collections (g : Global) : Prop :=
  holds_collection (V := list Task) g fd_tasks
  ∧ holds_collection (V := list Project) g fd_projects
  ∧ holds_collection (V := list Habit) g fd_habits.

(** A page whose lists were rendered, on the day of [d], from what its store
    holds: every list the page has shows the stored collection, and its
    handlers captured that collection and that day. *)
Definition rendered_from_store (d : Date) (p : Full.Page) : Prop :=
  (∀ tl, Full.taskList p = Some tl →
     Full.tl_tasks tl = stored_tasks (Full.localStorage p)
     ∧ Full.tl_items tl = Full.task_item <$> take 3 (stored_tasks (Full.localStorage p)))
  ∧ (∀ pw, Full.projectsWrap p = Some pw →
     Full.pw_projects pw = stored_projects (Full.localStorage p)
     ∧ Full.pc_h3 <$> Full.pw_cards pw
       = project_name <$> stored_projects (Full.localStorage p))
  ∧ (∀ hw, Full.habitsWrap p = Some hw →
     Full.hw_today hw = Full.todayISO d
     ∧ Full.hw_cards hw
       = Full.habit_card (Full.todayISO d) <$> stored_habits (Full.localStorage p)).

(** The three parts of [rendered_from_store], one per list. *)
Definition tasks_rendered (p : Full.Page) : Prop :=
  ∀ tl, Full.taskList p = Some tl →
    Full.tl_tasks tl = stored_tasks (Full.localStorage p)
    ∧ Full.tl_items tl = Full.task_item <$> take 3 (stored_tasks (Full.localStorage p)).

Definition projects_rendered (p : Full.Page) : Prop :=
  ∀ pw, Full.projectsWrap p = Some pw →
    Full.pw_projects pw = stored_projects (Full.localStorage p)
    ∧ Full.pc_h3 <$> Full.pw_cards pw
      = project_name <$> stored_projects (Full.localStorage p).

Definition habits_rendered (d : Date) (p : Full.Page) : Prop :=
  ∀ hw, Full.habitsWrap p = Some hw →
    Full.hw_today hw = Full.todayISO d
    ∧ Full.hw_cards hw
      = Full.habit_card (Full.todayISO d) <$> stored_habits (Full.localStorage p).

(** The list an operation belongs to shows the stored collection. *)
Definition shows_stored (d : Date) (op : Op) (p : Full.Page) : Prop :=
  match op with
  | AddTask | ToggleTask _ | ClearDone | WipeAll => tasks_rendered p
  | AddProject | AddMilestone _ => projects_rendered p
  | AddHabit | HabitDone _ => habits_rendered d p
  end.

(** The store holds a collection, or nothing, under the key of the
    operation. *)
Definition holds_for (op : Op) (g : Global) : Prop :=
  match op with
  | AddTask | ToggleTask _ | ClearDone | WipeAll =>
      holds_collection (V := list Task) g fd_tasks
  | AddProject | AddMilestone _ => holds_collection (V := list Project) g fd_projects
  | AddHabit | HabitDone _ => holds_collection (V := list Habit) g fd_habits
  end.

(** The store [g] with another answer to which writes it accepts. *)
Definition with_accepts (acc : string → string → bool) (g : Global) : Global :=
  match g with
  | Available st => Available {| items := items st; accepts := acc |}
  | Absent | Blocked => g
  end.

(** The text an operation writes: the text found under its key once it has
    run against a copy of the store that accepts every write, unless that is
    the text the key held before (then the operation wrote nothing, or wrote
    what was there). *)
Definition written (d : Date) (op : Op) (p : Full.Page) : option string :=
  match run d op (Full.set_localStorage
                    (with_accepts (λ _ _, true) (Full.localStorage p)) p) with
  | Normal p' =>
      match Full.localStorage p', Full.localStorage p with
      | Available st', Available st =>
          if decide (items st' !! key_of op = items st !! key_of op)
          then None
          else items st' !! key_of op
      | _, _ => None
      end
  | Throw _ => None
  end.

(** What a rendering pass builds from the store [g]. *)
Definition task_list_of (g : Global) : Full.TaskList :=
  {| Full.tl_tasks := stored_tasks g;
     Full.tl_items := Full.task_item <$> take 3 (stored_tasks g) |}.

Definition projects_wrap_of (g : Global) : Full.ProjectsWrap :=
  {| Full.pw_projects := stored_projects g;
     Full.pw_cards := Full.project_card <$> stored_projects g |}.

Definition habits_wrap_of (d : Date) (g : Global) : Full.HabitsWrap :=
  {| Full.hw_today := Full.todayISO d;
     Full.hw_cards := Full.habit_card (Full.todayISO d) <$> stored_habits g |}.

End Protocol.

End Contract.
Import Contract.

(** ** Concrete pages and states *)
Module Sample.
Import Timer.

(** A running timer in its focus phase with one second left, on a page whose
    inputs hold 50 and 10. *)
Definition last_second_of_focus : State :=
  {| timerMode := focus; remaining := Js.Int 1; tick := Some 1%positive;
     scheduler := {| next_handle := 2; active := [1%positive] |};
     focusMin := Some "50"; breakMin := Some "10";
     timerLabel := Some "Focus"; timerDisplay := Some "00:01" |}.

(** The timer of a freshly loaded page whose inputs hold [f] and [b]. *)
Definition fresh_full (f b : string) : State :=
  Timer.DOMContentLoaded_timer Full.fmt2 Full.fmin Full.bmin
    (Timer.script_loaded (Some f) (Some b) (Some "Focus") (Some "25:00")).

Definition fresh_defensive (f b : string) : State :=
  Timer.DOMContentLoaded_timer Defensive.fmt2 Defensive.fmin Defensive.bmin
    (Timer.script_loaded (Some f) (Some b) (Some "Focus") (Some "25:00")).

(** A stand-in for the platform's codec: it reads the texts listed in
    [table] as the values listed with them, rejects every other text, and
    writes a listed value as its text. *)
Section TableCodec.
Context {V : Type} `{EqDecision V}.
Variable table : list (string * V).

Definition table_parse (text : string) : option V :=
  if Js.nonempty text
  then snd <$> List.find (λ e, bool_decide (fst e = text)) table
  else None.

Definition table_stringify (v : V) : string :=
  match List.find (λ e, bool_decide (snd e = v)) table with
  | Some e => fst e
  | None => "null"
  end.

Definition table_codec : Json V :=
  {| JSON_parse := table_parse;
     JSON_stringify := table_stringify;
     JSON_parse_empty := eq_refl |}.

End TableCodec.

Definition day : Date := {| fullYear := 2026; month := 0; date := 5 |}.

Definition four_tasks : list Task :=
  [ {| task_text := "A"; task_done := false; task_minutes := Some 25 |};
    {| task_text := "B"; task_done := true; task_minutes := Some 10 |};
    {| task_text := "C"; task_done := false; task_minutes := Some 15 |};
    {| task_text := "D"; task_done := true; task_minutes := None |} ].

Definition two_habits : list Habit :=
  [ {| habit_name := "Read"; habit_streak := Some 2;
       habit_lastDone := Some "2026-01-05" |};
    {| habit_name := "Run"; habit_streak := Some 0; habit_lastDone := None |} ].

Definition tasks_codec : Json (list Task) :=
  table_codec [("[A,B,C,D]", four_tasks); ("[]", [])].
Definition projects_codec : Json (list Project) :=
  table_codec [("[]", [])].
(** The two habits once Run has been marked done on [day]. *)
Definition two_habits_done : list Habit :=
  [ {| habit_name := "Read"; habit_streak := Some 2;
       habit_lastDone := Some "2026-01-05" |};
    {| habit_name := "Run"; habit_streak := Some 1;
       habit_lastDone := Some "2026-01-05" |} ].

Definition habits_codec : Json (list Habit) :=
  table_codec [("[Read,Run]", two_habits); ("[Read,Run+1]", two_habits_done);
               ("[]", [])].

(** A store that holds the four tasks and the two habits and accepts a write
    or not as [writable] says. *)
Definition store (writable : bool) : Global :=
  Available
    {| items := <[fd_tasks := "[A,B,C,D]"]> (<[fd_habits := "[Read,Run]"]> ∅);
       accepts := λ _ _, writable |}.

(** A page with every element, nothing rendered yet. *)
Definition page (g : Global) : Full.Page :=
  {| Full.localStorage := g;
     Full.todayDate := Some EmptyString;
     Full.plannedMinutes := Some EmptyString;
     Full.completedMinutes := Some EmptyString;
     Full.taskList := Some {| Full.tl_tasks := []; Full.tl_items := [] |};
     Full.taskInput := Some EmptyString;
     Full.projectsWrap := Some {| Full.pw_projects := []; Full.pw_cards := [] |};
     Full.projName := Some EmptyString;
     Full.habitsWrap := Some {| Full.hw_today := EmptyString; Full.hw_cards := [] |};
     Full.habitName := Some EmptyString |}.

(** The page once [DOMContentLoaded] has run on [day]. *)
Definition rendered_page (g : Global) : Full.Page :=
  match @Full.DOMContentLoaded_lists tasks_codec projects_codec habits_codec
          day (page g) with
  | Normal p => p
  | Throw _ => page g
  end.

End Sample.
Import Sample.

(** ** A codec that loses nothing

    A second stand-in for the platform's codec: a value is written as the
    decimal text of its code under stdpp's [encode], and a text is read by
    [parseInt] and [decode]. *)
Module Numeral.

#[global] Instance task_countable : Countable Task.
Proof.
  refine (inj_countable'
            (λ t, (task_text t, task_done t, task_minutes t))
            (λ x, {| task_text := x.1.1; task_done := x.1.2; task_minutes := x.2 |}) _).
  by intros [].
Defined.

#[global] Instance milestone_countable : Countable Milestone.
Proof.
  refine (inj_countable'
            (λ m, (milestone_text m, milestone_done m))
            (λ x, {| milestone_text := x.1; milestone_done := x.2 |}) _).
  by intros [].
Defined.

#[global] Instance project_countable : Countable Project.
Proof.
  refine (inj_countable'
            (λ pr, (project_name pr, project_milestones pr))
            (λ x, {| project_name := x.1; project_milestones := x.2 |}) _).
  by intros [].
Defined.

#[global] Instance habit_countable : Countable Habit.
Proof.
  refine (inj_countable'
            (λ h, (habit_name h, habit_streak h, habit_lastDone h))
            (λ x, {| habit_name := x.1.1; habit_streak := x.1.2;
                     habit_lastDone := x.2 |}) _).
  by intros [].
Defined.

Section Codec.
Context {V : Type} `{Countable V}.

Definition numeral_stringify (v : V) : string :=
  Js.to_string (Js.Int (Z.pos (encode v))).

Definition numeral_parse (text : string) : option V :=
  match Js.parseInt text with
  | Js.Int (Z.pos code) => decode code
  | _ => None
  end.

Definition numeral_codec : Json V :=
  {| JSON_parse := numeral_parse;
     JSON_stringify := numeral_stringify;
     JSON_parse_empty := eq_refl |}.

End Codec.

Definition tasks_json : Json (list Task) := numeral_codec.
Definition projects_json : Json (list Project) := numeral_codec.
Definition habits_json : Json (list Habit) := numeral_codec.

(** A store that accepts every write and holds the given collections. *)
Definition store_of (tasks : list Task) (projects : list Project)
    (habits : list Habit) : Storage :=
  {| items := <[fd_tasks := numeral_stringify tasks]>
                (<[fd_projects := numeral_stringify projects]>
                   (<[fd_habits := numeral_stringify habits]> ∅));
     accepts := λ _ _, true |}.

(** A store filled to its quota: it holds the given collections and accepts
    a text only when that is no longer than the text it replaces. *)
Definition full_store (tasks : list Task) (projects : list Project)
    (habits : list Habit) : Storage :=
  {| items := items (store_of tasks projects habits);
     accepts := λ key text,
       bool_decide
         (String.length text
          ≤ String.length
              (default EmptyString (items (store_of tasks projects habits) !! key)))%nat |}.

(** The page, with every element, once [DOMContentLoaded] has run on it at
    the clock reading [d]. *)
Definition loaded_page (d : Date) (st : Storage) : Full.Page :=
  match @Full.DOMContentLoaded_lists tasks_json projects_json habits_json
          d (page (Available st)) with
  | Normal p => p
  | Throw _ => page (Available st)
  end.

Definition two_projects : list Project :=
  [ {| project_name := "Thesis"; project_milestones := Some [] |};
    {| project_name := "Garden"; project_milestones := None |} ].

(** The day after [day]. *)
Definition next_day : Date := {| fullYear := 2026; month := 0; date := 6 |}.

(** The two habits once Run has been marked done on [next_day]. *)
Definition two_habits_next_day : list Habit :=
  [ {| habit_name := "Read"; habit_streak := Some 2;
       habit_lastDone := Some "2026-01-05" |};
    {| habit_name := "Run"; habit_streak := Some 1;
       habit_lastDone := Some "2026-01-06" |} ].

(** The user types [text] into the milestone input of the card at [idx]. *)
Definition type_milestone (idx : nat) (text : string) (p : Full.Page) : Full.Page :=
  match Full.projectsWrap p with
  | Some pw =>
      Full.set_projectsWrap
        {| Full.pw_projects := Full.pw_projects pw;
           Full.pw_cards :=
             alter (λ c, {| Full.pc_h3 := Full.pc_h3 c; Full.pc_inp := text |})
               idx (Full.pw_cards pw) |} p
  | None => p
  end.

End Numeral.
Import Numeral.

(** ** The home page script

    The counter behind the button [jsBtn].  The script installs the handler
    only when the page has both the button and the output element; [clicks]
    is the variable the handler closes over. *)
Module Home.

Record State : Type := {
  jsBtn : bool;
  jsOut : option string;
  clicks : Z;
}.

(** The page as the script leaves it, with [clicks = 0]. *)
Definition started (btn : bool) (out : option string) : State :=
  {| jsBtn := btn; jsOut := out; clicks := 0 |}.

(** A click on [jsBtn]: [clicks += 1;
    out.textContent = "Clicked " + clicks + " time(s)"]. *)
Definition jsBtn_click (h : State) : State :=
  if jsBtn h then
    match jsOut h with
    | Some _ =>
        {| jsBtn := true;
           jsOut := Some ("Clicked " +:+ Js.to_string (Js.Int (clicks h + 1))
                            +:+ " time(s)");
           clicks := clicks h + 1 |}
    | None => h
    end
  else h.

End Home.

(** ** What the timer's two display elements should read *)
Module TimerView.
Import Timer.

(** The label and the display, where the page has them, read what
    [renderTimer] writes for the current [timerMode] and [remaining]. *)
Definition shows (fmt2 : Js.num → string) (t : State) : Prop :=
  (∀ label, timerLabel t = Some label →
     label = match timerMode t with focus => "Focus" | break => "Break" end)
  ∧ (∀ display, timerDisplay t = Some display →
       display = fmt2 (Js.floor_div (remaining t) (Js.Int 60)) +:+ ":" +:+
                 fmt2 (Js.rem (remaining t) (Js.Int 60))).

(** [n] seconds pass. *)
Definition seconds (second : State → State) (n : nat) (t : State) : State :=
  Nat.iter n second t.

End TimerView.
Import TimerView.

(** * Properties *)

Example parseInt_plain : Js.parseInt "25" = Js.Int 25.
Proof. reflexivity. Qed.
Example parseInt_prefix : Js.parseInt "  -12px" = Js.Int (-12).
Proof. reflexivity. Qed.
Example parseInt_words : Js.parseInt "abc" = Js.NaN.
Proof. reflexivity. Qed.
Example trim_both : Js.trim "  a b  " = "a b".
Proof. reflexivity. Qed.
Example padStart2_one : Js.padStart2 (Js.to_string (Js.Int 7)) = "07".
Proof. reflexivity. Qed.

(** ** Numbers and their decimal text *)

Lemma digit_pretty_N_char (x : N) :
  (x < 10)%N → Js.digit (pretty_N_char x) = Some (Z.of_N x).
Proof.
  intros Hx.
  assert (x = 0 ∨ x = 1 ∨ x = 2 ∨ x = 3 ∨ x = 4 ∨ x = 5 ∨ x = 6 ∨ x = 7
          ∨ x = 8 ∨ x = 9)%N as Hcases by lia.
  by repeat destruct Hcases as [->|Hcases]; [..|subst].
Qed.

(** Reading the digits that [pretty_N_go] wrote gives the number back. *)
Lemma digits_from_pretty_N_go (x : N) :
  ∀ s, ∃ k, ∀ acc,
    Js.digits_from acc (pretty_N_go x s) = Js.digits_from (acc * k + Z.of_N x) s.
Proof.
  induction (N.lt_wf_0 x) as [x _ IH]. intros s.
  destruct (decide (0 < x)%N) as [Hpos|Hzero].
  - rewrite pretty_N_go_step by done.
    destruct (IH (x `div` 10)%N) with (s := String (pretty_N_char (x `mod` 10)) s)
      as [k Hk]; [by apply N.div_lt|].
    exists (10 * k). intros acc. rewrite Hk. simpl.
    rewrite digit_pretty_N_char by (apply N.mod_lt; lia).
    f_equal.
    assert (Z.of_N x = 10 * Z.of_N (x `div` 10) + Z.of_N (x `mod` 10)) as Hx.
    { rewrite (N.div_mod x 10) at 1 by lia.
      by rewrite N2Z.inj_add, N2Z.inj_mul. }
    lia.
  - assert (x = 0%N) as -> by lia. exists 1. intros acc.
    rewrite pretty_N_go_0. f_equal. simpl. lia.
Qed.

(** The text of a positive number starts with a digit. *)
Lemma pretty_N_go_head (x : N) :
  (0 < x)%N → ∀ s, ∃ c rest d,
    pretty_N_go x s = String c rest ∧ Js.digit c = Some d.
Proof.
  induction (N.lt_wf_0 x) as [x _ IH]. intros Hpos s.
  rewrite pretty_N_go_step by done.
  destruct (decide (x `div` 10 = 0)%N) as [Hdiv|Hdiv].
  - rewrite Hdiv, pretty_N_go_0.
    eexists _, _, _. split; [done|].
    apply digit_pretty_N_char, N.mod_lt. lia.
  - apply IH; [by apply N.div_lt|]. by apply N.neq_0_lt_0.
Qed.

Lemma parseInt_starts_with_digit (c : ascii) (rest : string) (d : Z) :
  Js.digit c = Some d →
  Js.parseInt (String c rest) = Js.Int (Js.digits_from 0 (String c rest))
  ∧ Js.unsigned_int (String c rest) = Js.Int (Js.digits_from 0 (String c rest)).
Proof.
  destruct c as [[] [] [] [] [] [] [] []]; simpl; try discriminate; done.
Qed.

Lemma pretty_positive_digits (p : positive) :
  ∃ c rest d,
    pretty p = String c rest ∧ Js.digit c = Some d
    ∧ Js.digits_from 0 (String c rest) = Z.pos p.
Proof.
  unfold pretty, pretty_positive, pretty, pretty_N.
  rewrite decide_False by done.
  destruct (pretty_N_go_head (N.pos p)) with (s := EmptyString)
    as (c & rest & d & Heq & Hd); [done|].
  exists c, rest, d. split_and!; [done..|].
  destruct (digits_from_pretty_N_go (N.pos p) EmptyString) as [k Hk].
  rewrite <- Heq, Hk. simpl. lia.
Qed.

(** Reading the decimal text of an integer with [parseInt] gives the integer
    back.  (Of the script this says something up to 2^53 only, where its
    numbers are exact; beyond, the lemma is about the embedding's decimal
    texts, which the stand-in codec [numeral_codec] uses.) *)
Lemma parseInt_to_string (z : Z) :
  Js.parseInt (Js.to_string (Js.Int z)) = Js.Int z.
Proof.
  destruct z as [|p|p]; [done|..]; simpl; unfold pretty, pretty_Z.
  - destruct (pretty_positive_digits p) as (c & rest & d & -> & Hd & Hval).
    destruct (parseInt_starts_with_digit c rest d Hd) as [-> _]. by rewrite Hval.
  - destruct (pretty_positive_digits p) as (c & rest & d & -> & Hd & Hval).
    change (Js.parseInt ("-" +:+ String c rest))
      with (Js.neg (Js.unsigned_int (String c rest))).
    destruct (parseInt_starts_with_digit c rest d Hd) as [_ ->]. by rewrite Hval.
Qed.

Lemma numeral_round_trip {V} `{Countable V} (v : V) :
  numeral_parse (numeral_stringify v) = Some v.
Proof.
  unfold numeral_parse, numeral_stringify.
  rewrite parseInt_to_string. apply decode_encode.
Qed.

(** ** The store adapter *)
Section Adapter.
Context {V : Type} `{Json V}.

Lemma parse_or_caught (st : Storage) (key : string) (fallback : V) :
  try_catch (parse_or (getItem st key) fallback) (λ _, Normal fallback)
  = Normal (loaded (Available st) key fallback).
Proof.
  unfold parse_or, loaded, stored_value, getItem.
  destruct (items st !! key) as [raw|]; [|done].
  destruct raw as [|c raw]; simpl.
  - by rewrite JSON_parse_empty.
  - by destruct (JSON_parse (String c raw)).
Qed.

Lemma Full_loadJSON_loaded (g : Global) (key : string) (fallback : V) :
  Full.loadJSON g key fallback = Normal (loaded g key fallback).
Proof.
  destruct g as [| |st]; try done.
  unfold Full.loadJSON; simpl. apply parse_or_caught.
Qed.

Lemma Defensive_loadJSON_loaded (g : Global) (key : string) (fallback : V) :
  Defensive.loadJSON g key fallback = Normal (loaded g key fallback).
Proof.
  destruct g as [| |st]; try done.
  unfold Defensive.loadJSON; simpl. apply parse_or_caught.
Qed.

Lemma Full_saveJSON_saved (g : Global) (key : string) (value : V) :
  Full.saveJSON g key value = Normal (saved g key (JSON_stringify value)).
Proof.
  destruct g as [| |st]; try done.
  unfold Full.saveJSON, setItem; simpl.
  by destruct (accepts st key (JSON_stringify value)).
Qed.

Lemma Defensive_saveJSON_saved (g : Global) (key : string) (value : V) :
  Defensive.saveJSON g key value = Normal (saved g key (JSON_stringify value)).
Proof.
  destruct g as [| |st]; try done.
  unfold Defensive.saveJSON, setItem; simpl.
  by destruct (accepts st key (JSON_stringify value)).
Qed.

Lemma saved_write_fails (g : Global) (key text : string) :
  write_fails g key text → saved g key text = g.
Proof. destruct g as [| |st]; simpl; try done. by intros ->. Qed.

(** C2. [loadJSON(key, fallback)] returns the deserialized stored value when
    there is one and [fallback] on every failure (no store, a store that
    refuses access, no such key, text that does not deserialize);
    [saveJSON(key, value)] stores the serialized value when the write is
    accepted and leaves the store as it was on every failure.  Both always
    return normally, in the feature-complete script and in the defensive one,
    which agree on every input. *)
Theorem store_adapter_contract (g : Global) (key : string) (fallback value : V) :
  (∃ v, Full.loadJSON g key fallback = Normal v
        ∧ Defensive.loadJSON g key fallback = Normal v
        ∧ (∀ stored, stored_value g key = Some stored → v = stored)
        ∧ (g = Absent ∨ g = Blocked → v = fallback)
        ∧ (∀ st, g = Available st → items st !! key = None → v = fallback)
        ∧ (∀ st raw, g = Available st → items st !! key = Some raw →
             JSON_parse raw = None → v = fallback))
  ∧ (∃ g', Full.saveJSON g key value = Normal g'
        ∧ Defensive.saveJSON g key value = Normal g'
        ∧ (∀ st, g = Available st → accepts st key (JSON_stringify value) = true →
             g' = Available {| items := <[key := JSON_stringify value]> (items st);
                               accepts := accepts st |})
        ∧ (write_fails g key (JSON_stringify value) → g' = g)).
Proof.
  split.
  - exists (loaded g key fallback).
    rewrite Full_loadJSON_loaded, Defensive_loadJSON_loaded.
    unfold loaded. repeat split.
    + by intros stored ->.
    + by intros [-> | ->].
    + intros st -> Hnone. simpl. by rewrite Hnone.
    + intros st raw -> Hraw Hparse. simpl. by rewrite Hraw, Hparse.
  - exists (saved g key (JSON_stringify value)).
    rewrite Full_saveJSON_saved, Defensive_saveJSON_saved.
    repeat split.
    + intros st -> Hacc. simpl. by rewrite Hacc.
    + apply saved_write_fails.
Qed.

End Adapter.

(** ** Saving and loading *)
Section SaveLoad.
Context {V : Type} `{Json V}.

Lemma loaded_saved (st : Storage) (key : string) (value fallback : V) :
  accepts st key (JSON_stringify value) = true →
  JSON_parse (JSON_stringify value) = Some value →
  loaded (saved (Available st) key (JSON_stringify value)) key fallback = value.
Proof.
  intros Hacc Hround. unfold loaded, stored_value, saved. rewrite Hacc. simpl.
  by rewrite lookup_insert_eq, Hround.
Qed.

Lemma loaded_saved_other (g : Global) (key other text : string) (fallback : V) :
  key ≠ other →
  loaded (saved g key text) other fallback = loaded g other fallback.
Proof.
  intros Hne. destruct g as [| |st]; try done.
  unfold loaded, stored_value, saved. destruct (accepts st key text); [|done].
  simpl. by rewrite lookup_insert_ne.
Qed.

End SaveLoad.

(** ** The timer *)
Import Timer.

Section AutomatonFacts.
Variable fmt2 : Js.num → string.
Variables fmin bmin : option string → Js.num.

Local Abbreviation renderTimer := (Timer.renderTimer fmt2).
Local Abbreviation setTimerFromInputs := (Timer.setTimerFromInputs fmt2 fmin bmin).
Local Abbreviation step := (Timer.step fmt2 fmin bmin).
Local Abbreviation second := (Timer.second fmt2 fmin bmin).
Local Abbreviation handle := (Timer.handle fmt2 fmin bmin).
Local Abbreviation reachable := (Timer.reachable fmt2 fmin bmin).
Local Abbreviation duration := (Timer.duration fmin bmin).

Lemma setTimerFromInputs_fields (t : State) :
  timerMode (setTimerFromInputs t) = timerMode t
  ∧ remaining (setTimerFromInputs t) = duration (timerMode t) t
  ∧ tick (setTimerFromInputs t) = tick t
  ∧ scheduler (setTimerFromInputs t) = scheduler t
  ∧ focusMin (setTimerFromInputs t) = focusMin t
  ∧ breakMin (setTimerFromInputs t) = breakMin t.
Proof. done. Qed.

(** [step] while more than one second remains: a plain decrement. *)
Lemma step_counts_down (t : State) (r : Z) :
  remaining t = Js.Int r → 1 < r →
  timerMode (step t) = timerMode t
  ∧ remaining (step t) = Js.Int (r - 1)
  ∧ tick (step t) = tick t ∧ scheduler (step t) = scheduler t
  ∧ focusMin (step t) = focusMin t ∧ breakMin (step t) = breakMin t.
Proof.
  intros Hr Hlt. unfold Timer.step. simpl. rewrite Hr. simpl.
  rewrite Z.max_r by lia.
  rewrite bool_decide_eq_false_2 by lia. done.
Qed.

(** [step] when at most one second remains: the phase flips and [remaining]
    is reloaded. *)
Lemma step_flips (t : State) (r : Z) :
  remaining t = Js.Int r → r ≤ 1 →
  timerMode (step t) = flip (timerMode t)
  ∧ remaining (step t) = duration (flip (timerMode t)) t
  ∧ tick (step t) = tick t ∧ scheduler (step t) = scheduler t
  ∧ focusMin (step t) = focusMin t ∧ breakMin (step t) = breakMin t.
Proof.
  intros Hr Hle. unfold Timer.step. simpl. rewrite Hr. simpl.
  rewrite Z.max_l by lia. done.
Qed.

(** [step] on a [remaining] that is not a number changes nothing but the
    display. *)
Lemma step_NaN (t : State) :
  remaining t = Js.NaN →
  timerMode (step t) = timerMode t
  ∧ remaining (step t) = Js.NaN
  ∧ tick (step t) = tick t ∧ scheduler (step t) = scheduler t
  ∧ focusMin (step t) = focusMin t ∧ breakMin (step t) = breakMin t.
Proof. intros Hr. unfold Timer.step. simpl. rewrite Hr. done. Qed.

Lemma step_scheduler (t : State) :
  tick (step t) = tick t ∧ scheduler (step t) = scheduler t.
Proof.
  destruct (remaining t) as [|r] eqn:Hr.
  - by destruct (step_NaN t Hr) as (_ & _ & ? & ? & _).
  - destruct (decide (1 < r)).
    + by destruct (step_counts_down t r Hr) as (_ & _ & ? & ? & _).
    + by destruct (step_flips t r Hr) as (_ & _ & ? & ? & _); [lia|].
Qed.

Lemma second_running (t : State) (h : positive) :
  active (scheduler t) = [h] → second t = step t.
Proof. intros Ha. unfold Timer.second. by rewrite Ha. Qed.

Lemma second_idle (t : State) :
  active (scheduler t) = [] → second t = t.
Proof. intros Ha. unfold Timer.second. by rewrite Ha. Qed.

Lemma startTimer_twice (t : State) :
  Timer.startTimer (Timer.startTimer t) = Timer.startTimer t.
Proof. unfold Timer.startTimer. destruct (tick t) eqn:Hk; simpl; [by rewrite Hk|done]. Qed.

Lemma pauseTimer_twice (t : State) :
  Timer.pauseTimer (Timer.pauseTimer t) = Timer.pauseTimer t.
Proof. unfold Timer.pauseTimer. destruct (tick t) eqn:Hk; simpl; [done|by rewrite Hk]. Qed.

Lemma startTimer_one_callback (t : State) :
  one_callback t → one_callback (Timer.startTimer t).
Proof.
  unfold one_callback, Timer.startTimer.
  destruct (tick t) eqn:Hk; simpl; [by rewrite Hk|].
  by intros ->.
Qed.

Lemma pauseTimer_one_callback (t : State) :
  one_callback t → one_callback (Timer.pauseTimer t).
Proof.
  unfold one_callback, Timer.pauseTimer.
  destruct (tick t) as [h|] eqn:Hk; simpl; [|by rewrite Hk].
  intros ->. simpl. by rewrite Pos.eqb_refl.
Qed.

Lemma one_callback_ext (t t' : State) :
  tick t' = tick t → scheduler t' = scheduler t →
  one_callback t → one_callback t'.
Proof. unfold one_callback. by intros -> ->. Qed.

Lemma reachable_one_callback (t : State) :
  reachable t → one_callback t.
Proof.
  induction 1 as [f b label display|ev t Hreach IH]; [done|].
  destruct ev; simpl.
  - by apply startTimer_one_callback.
  - by apply pauseTimer_one_callback.
  - apply (one_callback_ext (Timer.pauseTimer t)); [done..|].
    by apply pauseTimer_one_callback.
  - by destruct (focusMin t).
  - by destruct (breakMin t).
  - by destruct (focusMin t).
  - by destruct (breakMin t).
  - pose proof IH as Hact. unfold one_callback in Hact.
    destruct (tick t) as [h|].
    + rewrite (second_running t h Hact).
      destruct (step_scheduler t) as [Ht Hs].
      by apply (one_callback_ext t).
    + by rewrite (second_idle t Hact).
Qed.

Hypothesis fmin_ok : Timer.minutes_within 5 90 fmin.
Hypothesis bmin_ok : Timer.minutes_within 1 30 bmin.

(** What [setTimerFromInputs] loads is not a number, or sixty times a number
    of minutes within the range of the phase. *)
Lemma duration_ok (m : Mode) (t : State) :
  duration m t = Js.NaN
  ∨ ∃ k, duration m t = Js.Int (k * 60)
         ∧ match m with focus => 5 ≤ k ≤ 90 | break => 1 ≤ k ≤ 30 end.
Proof.
  unfold Timer.duration.
  destruct m; [destruct (fmin_ok (focusMin t)) as [->|(k & -> & ?)]
              |destruct (bmin_ok (breakMin t)) as [->|(k & -> & ?)]];
    simpl; eauto.
Qed.

Lemma in_range_ext (t t' : State) :
  timerMode t' = timerMode t → remaining t' = remaining t →
  in_range t → in_range t'.
Proof. unfold Timer.in_range. by intros -> ->. Qed.

Lemma in_range_reloaded (t t' : State) :
  remaining t' = duration (timerMode t') t → in_range t'.
Proof.
  intros Hr. unfold Timer.in_range. rewrite Hr.
  destruct (duration_ok (timerMode t') t) as [->|(k & -> & Hk)]; [done|].
  unfold Timer.longest. destruct (timerMode t'); lia.
Qed.

Lemma setTimerFromInputs_in_range (t : State) :
  in_range (setTimerFromInputs t).
Proof. by apply (in_range_reloaded t). Qed.

Lemma step_in_range (t : State) :
  in_range t → in_range (step t).
Proof.
  intros Hin. pose proof Hin as Hin'. unfold Timer.in_range in Hin'.
  destruct (remaining t) as [|r] eqn:Hr.
  - destruct (step_NaN t Hr) as (? & Hr' & _).
    unfold Timer.in_range. by rewrite Hr'.
  - destruct (decide (1 < r)) as [Hlt|Hle].
    + destruct (step_counts_down t r Hr Hlt) as (Hm & Hr' & _).
      unfold Timer.in_range. rewrite Hm, Hr'. lia.
    + destruct (step_flips t r Hr) as (Hm & Hr' & _); [lia|].
      apply (in_range_reloaded t). by rewrite Hr', Hm.
Qed.

(** Every state the timer reaches has [remaining] in range, whatever the user
    typed and whether or not it was committed. *)
Lemma reachable_in_range (t : State) :
  reachable t → in_range t.
Proof.
  induction 1 as [f b label display|ev t Hreach IH].
  - apply setTimerFromInputs_in_range.
  - pose proof (reachable_one_callback t Hreach) as Hone.
    destruct ev; simpl.
    + apply (in_range_ext t); try done;
        unfold Timer.startTimer; by destruct (tick t).
    + apply (in_range_ext t); try done;
        unfold Timer.pauseTimer; by destruct (tick t).
    + apply setTimerFromInputs_in_range.
    + by destruct (focusMin t).
    + by destruct (breakMin t).
    + destruct (focusMin t); [apply setTimerFromInputs_in_range|done].
    + destruct (breakMin t); [apply setTimerFromInputs_in_range|done].
    + unfold Timer.one_callback in Hone. destruct (tick t) as [h|].
      * rewrite (second_running t h Hone). by apply step_in_range.
      * by rewrite (second_idle t Hone).
Qed.

End AutomatonFacts.

(** *** What the two scripts derive from the inputs *)

Lemma or_else_numeric (value d : string) (n : Z) :
  Js.parseInt value = Js.Int n → Js.or_else value d = value.
Proof. by destruct value. Qed.

Lemma Full_fmin_numeric (value : string) (n : Z) :
  Js.parseInt value = Js.Int n →
  Full.fmin (Some value) = Js.Int (Z.max 5 (Z.min 90 n)).
Proof.
  intros Hn. unfold Full.fmin. by rewrite (or_else_numeric _ _ n Hn), Hn.
Qed.

Lemma Full_bmin_numeric (value : string) (n : Z) :
  Js.parseInt value = Js.Int n →
  Full.bmin (Some value) = Js.Int (Z.max 1 (Z.min 30 n)).
Proof.
  intros Hn. unfold Full.bmin. by rewrite (or_else_numeric _ _ n Hn), Hn.
Qed.

Lemma Defensive_fmin_numeric (value : string) (n : Z) :
  Js.parseInt value = Js.Int n →
  Defensive.fmin (Some value) = Js.Int (if bool_decide (n < 5) then 25 else Z.min 90 n).
Proof.
  intros Hn. unfold Defensive.fmin. rewrite (or_else_numeric _ _ n Hn), Hn.
  unfold Js.truthy, Js.gt, Js.lt.
  repeat case_bool_decide; simpl; repeat case_bool_decide; f_equal; lia.
Qed.

Lemma Defensive_bmin_numeric (value : string) (n : Z) :
  Js.parseInt value = Js.Int n →
  Defensive.bmin (Some value) = Js.Int (if bool_decide (n < 1) then 5 else Z.min 30 n).
Proof.
  intros Hn. unfold Defensive.bmin. rewrite (or_else_numeric _ _ n Hn), Hn.
  unfold Js.truthy, Js.gt, Js.lt.
  repeat case_bool_decide; simpl; repeat case_bool_decide; f_equal; lia.
Qed.

(** In the defensive script the minutes are always numbers within the range. *)
Lemma Defensive_fmin_range (f : option string) :
  ∃ m, Defensive.fmin f = Js.Int m ∧ 5 ≤ m ≤ 90.
Proof.
  unfold Defensive.fmin.
  destruct f as [value|]; [|exists 25; split; [done|lia]].
  destruct (Js.parseInt (Js.or_else value "25")) as [|n]; simpl.
  - exists 25. split; [done|lia].
  - unfold Js.gt, Js.lt.
    repeat case_bool_decide; simpl; repeat case_bool_decide;
      eexists; (split; [reflexivity|lia]).
Qed.

Lemma Defensive_bmin_range (b : option string) :
  ∃ m, Defensive.bmin b = Js.Int m ∧ 1 ≤ m ≤ 30.
Proof.
  unfold Defensive.bmin.
  destruct b as [value|]; [|exists 5; split; [done|lia]].
  destruct (Js.parseInt (Js.or_else value "5")) as [|n]; simpl.
  - exists 5. split; [done|lia].
  - unfold Js.gt, Js.lt.
    repeat case_bool_decide; simpl; repeat case_bool_decide;
      eexists; (split; [reflexivity|lia]).
Qed.

(** In the defensive script an input that is not a number gives the default. *)
Lemma Defensive_defaults (value : string) :
  (Js.parseInt (Js.or_else value "25") = Js.NaN →
     Defensive.fmin (Some value) = Js.Int 25)
  ∧ (Js.parseInt (Js.or_else value "5") = Js.NaN →
     Defensive.bmin (Some value) = Js.Int 5).
Proof.
  unfold Defensive.fmin, Defensive.bmin. by split; intros ->.
Qed.

(** In the feature-complete script the minutes are not a number, or within the
    range. *)
Lemma Full_fmin_range (f : option string) :
  Full.fmin f = Js.NaN ∨ ∃ m, Full.fmin f = Js.Int m ∧ 5 ≤ m ≤ 90.
Proof.
  unfold Full.fmin.
  destruct f as [value|]; [|right; exists 25; split; [done|lia]].
  destruct (Js.parseInt (Js.or_else value "25")) as [|n]; simpl; [by left|].
  right. eexists. split; [reflexivity|lia].
Qed.

Lemma Full_bmin_range (b : option string) :
  Full.bmin b = Js.NaN ∨ ∃ m, Full.bmin b = Js.Int m ∧ 1 ≤ m ≤ 30.
Proof.
  unfold Full.bmin.
  destruct b as [value|]; [|right; exists 5; split; [done|lia]].
  destruct (Js.parseInt (Js.or_else value "5")) as [|n]; simpl; [by left|].
  right. eexists. split; [reflexivity|lia].
Qed.

Lemma Full_minutes_ok :
  minutes_within 5 90 Full.fmin ∧ minutes_within 1 30 Full.bmin.
Proof.
  split; intros el.
  - apply Full_fmin_range.
  - apply Full_bmin_range.
Qed.

Lemma Defensive_minutes_ok :
  minutes_within 5 90 Defensive.fmin ∧ minutes_within 1 30 Defensive.bmin.
Proof.
  split; intros el; right.
  - apply Defensive_fmin_range.
  - apply Defensive_bmin_range.
Qed.

(** In the feature-complete script every reachable state has [remaining] not
    a number or in range. *)
Lemma Full_reachable_in_range (t : State) :
  Full.reachable t → in_range t.
Proof.
  destruct Full_minutes_ok. by apply reachable_in_range.
Qed.

Lemma Defensive_duration_numeric (m : Mode) (t : State) :
  ∃ k, Defensive.duration m t = Js.Int (k * 60)
       ∧ match m with focus => 5 ≤ k ≤ 90 | break => 1 ≤ k ≤ 30 end.
Proof.
  unfold Defensive.duration, Timer.duration.
  destruct m;
    [destruct (Defensive_fmin_range (focusMin t)) as (k & -> & ?)
    |destruct (Defensive_bmin_range (breakMin t)) as (k & -> & ?)];
    exists k; by split.
Qed.

(** In the defensive script [remaining] is a number in every reachable
    state. *)
Lemma Defensive_reachable_numeric (t : State) :
  Defensive.reachable t → ∃ r, remaining t = Js.Int r.
Proof.
  induction 1 as [f b label display|ev t Hreach (r & Hr)].
  - destruct (Defensive_duration_numeric focus (script_loaded f b label display))
      as (k & Hk & _).
    exists (k * 60). exact Hk.
  - pose proof (reachable_one_callback _ _ _ t Hreach) as Hone.
    assert (∀ t', ∃ r', remaining (Defensive.setTimerFromInputs t') = Js.Int r')
      as Hset.
    { intros t'. destruct (Defensive_duration_numeric (timerMode t') t') as (k & Hk & _).
      exists (k * 60). exact Hk. }
    destruct ev; simpl.
    + exists r. unfold Timer.startTimer. by destruct (tick t).
    + exists r. unfold Timer.pauseTimer. by destruct (tick t).
    + apply Hset.
    + exists r. by destruct (focusMin t).
    + exists r. by destruct (breakMin t).
    + destruct (focusMin t); [apply Hset|by exists r].
    + destruct (breakMin t); [apply Hset|by exists r].
    + unfold Timer.one_callback in Hone. destruct (tick t) as [h|].
      * rewrite (second_running _ _ _ t h Hone).
        destruct (decide (1 < r)) as [Hlt|Hle].
        -- destruct (step_counts_down Defensive.fmt2 Defensive.fmin Defensive.bmin
                       t r Hr Hlt) as (_ & Hr' & _). eauto.
        -- destruct (step_flips Defensive.fmt2 Defensive.fmin Defensive.bmin t r Hr)
             as (_ & Hr' & _); [lia|].
           destruct (Defensive_duration_numeric (flip (timerMode t)) t) as (k & Hk & _).
           exists (k * 60). by rewrite Hr'.
      * rewrite (second_idle _ _ _ t Hone). by exists r.
Qed.

(** In the defensive script every reachable state has a whole number of
    seconds remaining, between 1 and the longest the current phase can
    last. *)
Lemma Defensive_reachable_in_range (t : State) :
  Defensive.reachable t →
  ∃ r, remaining t = Js.Int r ∧ 1 ≤ r ≤ longest (timerMode t).
Proof.
  intros Hreach. destruct Defensive_minutes_ok as [Hf Hb].
  pose proof (reachable_in_range _ _ _ Hf Hb t Hreach) as Hin.
  destruct (Defensive_reachable_numeric t Hreach) as (r & Hr).
  unfold in_range in Hin. rewrite Hr in Hin. by exists r.
Qed.

(** The second that passes on a running timer with one second left. *)
Lemma last_second (fmt2 : Js.num → string) (fmin bmin : option string → Js.num)
    (t : State) (h : positive) :
  remaining t = Js.Int 1 → tick t = Some h → active (scheduler t) = [h] →
  Timer.second fmt2 fmin bmin t = Timer.step fmt2 fmin bmin t
  ∧ timerMode (Timer.second fmt2 fmin bmin t) = flip (timerMode t)
  ∧ remaining (Timer.second fmt2 fmin bmin t)
    = Timer.duration fmin bmin (flip (timerMode t)) t
  ∧ tick (Timer.second fmt2 fmin bmin t) = Some h
  ∧ active (scheduler (Timer.second fmt2 fmin bmin t)) = [h]
  ∧ focusMin (Timer.second fmt2 fmin bmin t) = focusMin t
  ∧ breakMin (Timer.second fmt2 fmin bmin t) = breakMin t.
Proof.
  intros Hr Hk Ha. rewrite (second_running _ _ _ t h Ha).
  destruct (step_flips fmt2 fmin bmin t 1 Hr) as (Hm & Hr' & Hk' & Hs & Hf & Hb);
    [lia|].
  rewrite Hm, Hr', Hk', Hs, Hf, Hb. by split_and!.
Qed.

(** The second after it: the new phase has begun to count down. *)
Lemma second_after_reload (fmt2 : Js.num → string) (fmin bmin : option string → Js.num)
    (t : State) (h : positive) (k : Z) :
  remaining t = Js.Int (k * 60) → 1 ≤ k → active (scheduler t) = [h] →
  timerMode (Timer.second fmt2 fmin bmin t) = timerMode t
  ∧ remaining (Timer.second fmt2 fmin bmin t) = Js.Int (k * 60 - 1).
Proof.
  intros Hr Hk Ha. rewrite (second_running _ _ _ t h Ha).
  destruct (step_counts_down fmt2 fmin bmin t (k * 60) Hr) as (Hm & Hr' & _);
    [lia|].
  by rewrite Hm, Hr'.
Qed.

(** C3. A running timer with one second of focus left, on a page whose break
    input holds the decimal text of [b] minutes, [b] from 1 to 30: the second
    that passes runs [step] once, which flips the phase to break and loads
    [remaining] with [b * 60], the break duration configured at that moment.
    [tick] keeps its handle and that handle stays the one active interval, and
    the following second already counts the break down to [b * 60 - 1]: there
    is no pause at the boundary.  Symmetrically, from one second of break left
    and [f] minutes in the focus input, [f] from 5 to 90, to focus with
    [f * 60].  This holds in both scripts. *)
Theorem step_at_one_second_flips_phase (t : State) (h : positive) (f b : Z) :
  remaining t = Js.Int 1 → tick t = Some h → active (scheduler t) = [h] →
  (timerMode t = focus → breakMin t = Some (Js.to_string (Js.Int b)) → 1 ≤ b ≤ 30 →
     (Full.second t = Full.step t
      ∧ timerMode (Full.second t) = break
      ∧ remaining (Full.second t) = Js.Int (b * 60)
      ∧ tick (Full.second t) = Some h
      ∧ active (scheduler (Full.second t)) = [h]
      ∧ timerMode (Full.second (Full.second t)) = break
      ∧ remaining (Full.second (Full.second t)) = Js.Int (b * 60 - 1))
     ∧ (Defensive.second t = Defensive.step t
        ∧ timerMode (Defensive.second t) = break
        ∧ remaining (Defensive.second t) = Js.Int (b * 60)
        ∧ tick (Defensive.second t) = Some h
        ∧ active (scheduler (Defensive.second t)) = [h]
        ∧ timerMode (Defensive.second (Defensive.second t)) = break
        ∧ remaining (Defensive.second (Defensive.second t)) = Js.Int (b * 60 - 1)))
  ∧ (timerMode t = break → focusMin t = Some (Js.to_string (Js.Int f)) → 5 ≤ f ≤ 90 →
     (Full.second t = Full.step t
      ∧ timerMode (Full.second t) = focus
      ∧ remaining (Full.second t) = Js.Int (f * 60)
      ∧ tick (Full.second t) = Some h
      ∧ active (scheduler (Full.second t)) = [h]
      ∧ timerMode (Full.second (Full.second t)) = focus
      ∧ remaining (Full.second (Full.second t)) = Js.Int (f * 60 - 1))
     ∧ (Defensive.second t = Defensive.step t
        ∧ timerMode (Defensive.second t) = focus
        ∧ remaining (Defensive.second t) = Js.Int (f * 60)
        ∧ tick (Defensive.second t) = Some h
        ∧ active (scheduler (Defensive.second t)) = [h]
        ∧ timerMode (Defensive.second (Defensive.second t)) = focus
        ∧ remaining (Defensive.second (Defensive.second t)) = Js.Int (f * 60 - 1))).
Proof.
  intros Hr Hk Ha.
  destruct (last_second Full.fmt2 Full.fmin Full.bmin t h Hr Hk Ha)
    as (Hstep & Hm & Hr' & Hk' & Ha' & Hf & Hb).
  destruct (last_second Defensive.fmt2 Defensive.fmin Defensive.bmin t h Hr Hk Ha)
    as (Hstep_d & Hm_d & Hr_d & Hk_d & Ha_d & Hf_d & Hb_d).
  fold (Full.second t) in *. fold (Defensive.second t) in *.
  fold (Full.step t) in *. fold (Defensive.step t) in *.
  split; intros Hmode Hel Hrange; rewrite Hmode in *; cbn [flip] in *.
  - assert (remaining (Full.second t) = Js.Int (b * 60)) as Hload.
    { rewrite Hr'. unfold Timer.duration. rewrite Hel.
      rewrite (Full_bmin_numeric _ b (parseInt_to_string b)). simpl. f_equal. lia. }
    assert (remaining (Defensive.second t) = Js.Int (b * 60)) as Hload_d.
    { rewrite Hr_d. unfold Timer.duration. rewrite Hel.
      rewrite (Defensive_bmin_numeric _ b (parseInt_to_string b)).
      rewrite bool_decide_eq_false_2 by lia. simpl. f_equal. lia. }
    destruct (second_after_reload Full.fmt2 Full.fmin Full.bmin
                (Full.second t) h b Hload) as [Hm2 Hr2]; [lia|done|].
    destruct (second_after_reload Defensive.fmt2 Defensive.fmin Defensive.bmin
                (Defensive.second t) h b Hload_d) as [Hm2_d Hr2_d]; [lia|done|].
    fold (Full.second (Full.second t)) in *.
    fold (Defensive.second (Defensive.second t)) in *.
    split; split_and!; try done; congruence.
  - assert (remaining (Full.second t) = Js.Int (f * 60)) as Hload.
    { rewrite Hr'. unfold Timer.duration. rewrite Hel.
      rewrite (Full_fmin_numeric _ f (parseInt_to_string f)). simpl. f_equal. lia. }
    assert (remaining (Defensive.second t) = Js.Int (f * 60)) as Hload_d.
    { rewrite Hr_d. unfold Timer.duration. rewrite Hel.
      rewrite (Defensive_fmin_numeric _ f (parseInt_to_string f)).
      rewrite bool_decide_eq_false_2 by lia. simpl. f_equal. lia. }
    destruct (second_after_reload Full.fmt2 Full.fmin Full.bmin
                (Full.second t) h f Hload) as [Hm2 Hr2]; [lia|done|].
    destruct (second_after_reload Defensive.fmt2 Defensive.fmin Defensive.bmin
                (Defensive.second t) h f Hload_d) as [Hm2_d Hr2_d]; [lia|done|].
    fold (Full.second (Full.second t)) in *.
    fold (Defensive.second (Defensive.second t)) in *.
    split; split_and!; try done; congruence.
Qed.

Lemma step_at_one_second_flips_phase_witness :
  timerMode (Full.second last_second_of_focus) = break
  ∧ remaining (Full.second last_second_of_focus) = Js.Int 600
  ∧ remaining (Defensive.second last_second_of_focus) = Js.Int 600
  ∧ remaining (Full.second (Full.second last_second_of_focus)) = Js.Int 599.
Proof.
  destruct (step_at_one_second_flips_phase last_second_of_focus 1 50 10
              eq_refl eq_refl eq_refl) as [Hfocus _].
  destruct Hfocus as [(_ & Hm & Hr & _ & _ & _ & Hr2) (_ & _ & Hr_d & _)].
  - reflexivity.
  - reflexivity.
  - lia.
  - exact (conj Hm (conj Hr (conj Hr_d Hr2))).
Defined.

(** C4. The defensive [setTimerFromInputs] does not clamp input below the
    range to the lower bound, it replaces it by the default: with 3 in the
    focus input it sets 25 minutes and loads 1500 seconds, where the
    dashboard's description and the feature-complete script give 5 minutes and
    300 seconds; with 0 in the break input it sets 5 minutes, where the
    description and the feature-complete script give 1.  Above the range both scripts clamp: 999
    gives 90.  (Both scripts read the input with [parseInt], which stops at
    the first character that is no digit: the number 1e3, far above the
    range, is read as 1, and gives 5 minutes in the feature-complete script
    and 25 in the defensive one, not 90.) *)
Theorem Defensive_setTimerFromInputs_below_range :
  Defensive.fmin (Some "3") = Js.Int 25
  ∧ remaining (fresh_defensive "3" "5") = Js.Int 1500
  ∧ timerDisplay (fresh_defensive "3" "5") = Some "25:00"
  ∧ Defensive.bmin (Some "0") = Js.Int 5
  ∧ Full.fmin (Some "3") = Js.Int 5
  ∧ remaining (fresh_full "3" "5") = Js.Int 300
  ∧ Full.bmin (Some "0") = Js.Int 1
  ∧ Full.fmin (Some "999") = Js.Int 90
  ∧ Defensive.fmin (Some "999") = Js.Int 90
  ∧ Full.fmin (Some "1e3") = Js.Int 5
  ∧ Defensive.fmin (Some "1e3") = Js.Int 25.
Proof. split_and!; reflexivity. Qed.

(** C5. With text that is not a number in the focus input, the
    feature-complete script derives [NaN] minutes instead of the default 25:
    [remaining] becomes [NaN], the display shows [NaN:NaN], and the running
    timer neither counts down nor changes phase.  The defensive script, on the
    same input, falls back to 25 and 5 minutes. *)
Theorem Full_setTimerFromInputs_not_a_number :
  Js.parseInt "abc" = Js.NaN
  ∧ Full.fmin (Some "abc") = Js.NaN
  ∧ Full.bmin (Some "abc") = Js.NaN
  ∧ remaining (fresh_full "abc" "5") = Js.NaN
  ∧ timerDisplay (fresh_full "abc" "5") = Some "NaN:NaN"
  ∧ remaining (Full.step (Full.startTimer (fresh_full "abc" "5"))) = Js.NaN
  ∧ timerMode (Full.step (Full.startTimer (fresh_full "abc" "5"))) = focus
  ∧ Defensive.fmin (Some "abc") = Js.Int 25
  ∧ Defensive.bmin (Some "abc") = Js.Int 5
  ∧ remaining (fresh_defensive "abc" "5") = Js.Int 1500.
Proof. split_and!; reflexivity. Qed.

(** C7. A state the feature-complete timer reaches in which [remaining] is
    not an integer within the phase's duration: the page loads with 25 and 5,
    the user commits the text [abc] in the focus input, and [remaining] is
    [NaN]; started, the timer stays there second after second.  (The defensive
    script keeps [remaining] a number in range on every reachable state,
    [Defensive_reachable_in_range].) *)
Theorem Full_reachable_not_a_number :
  Full.reachable (Full.handle (FocusMinChange "abc") (fresh_full "25" "5"))
  ∧ remaining (Full.handle (FocusMinChange "abc") (fresh_full "25" "5")) = Js.NaN
  ∧ Full.duration focus (Full.handle (FocusMinChange "abc") (fresh_full "25" "5")) = Js.NaN
  ∧ remaining (Full.handle Second (Full.handle Second (Full.handle StartClick
       (Full.handle (FocusMinChange "abc") (fresh_full "25" "5"))))) = Js.NaN
  ∧ timerMode (Full.handle Second (Full.handle Second (Full.handle StartClick
       (Full.handle (FocusMinChange "abc") (fresh_full "25" "5"))))) = focus.
Proof.
  split_and!; try reflexivity.
  apply reachable_handle. apply reachable_loaded.
Qed.

(** C8. In every state either script reaches, the scheduler holds at most one
    interval, the one [tick] names.  [startTimer] on a running timer changes
    nothing, so after two calls one second runs [step] exactly once;
    [pauseTimer] leaves no interval active, and a second call changes
    nothing. *)
Theorem at_most_one_callback (t : State) :
  Full.reachable t ∨ Defensive.reachable t →
  (length (active (scheduler t)) ≤ 1)%nat
  ∧ active (scheduler t) = match tick t with Some h => [h] | None => [] end
  ∧ Full.startTimer (Full.startTimer t) = Full.startTimer t
  ∧ Defensive.startTimer (Defensive.startTimer t) = Defensive.startTimer t
  ∧ (∃ h, tick (Full.startTimer t) = Some h
          ∧ active (scheduler (Full.startTimer t)) = [h])
  ∧ Full.second (Full.startTimer (Full.startTimer t)) = Full.step (Full.startTimer t)
  ∧ Defensive.second (Defensive.startTimer (Defensive.startTimer t))
    = Defensive.step (Defensive.startTimer t)
  ∧ tick (Full.pauseTimer t) = None
  ∧ active (scheduler (Full.pauseTimer t)) = []
  ∧ Full.second (Full.pauseTimer t) = Full.pauseTimer t
  ∧ Full.pauseTimer (Full.pauseTimer t) = Full.pauseTimer t
  ∧ Defensive.pauseTimer (Defensive.pauseTimer t) = Defensive.pauseTimer t.
Proof.
  intros Hreach.
  assert (one_callback t) as Hone.
  { destruct Hreach as [Hr|Hr]; by apply reachable_one_callback in Hr. }
  pose proof (startTimer_one_callback t Hone) as Hstart.
  pose proof (pauseTimer_one_callback t Hone) as Hpause.
  assert (∃ h, tick (Timer.startTimer t) = Some h) as [h Hh].
  { unfold Timer.startTimer. destruct (tick t) eqn:Hk; simpl; eauto. }
  assert (tick (Timer.pauseTimer t) = None) as Hnone.
  { unfold Timer.pauseTimer. by destruct (tick t) eqn:Hk. }
  unfold one_callback in *. rewrite Hh in Hstart. rewrite Hnone in Hpause.
  unfold Full.startTimer, Defensive.startTimer, Full.pauseTimer,
    Defensive.pauseTimer, Full.second, Defensive.second.
  rewrite !startTimer_twice, !pauseTimer_twice.
  split_and!; try done.
  - rewrite Hone. destruct (tick t); simpl; lia.
  - by exists h.
  - by apply (second_running _ _ _ _ h).
  - by apply (second_running _ _ _ _ h).
  - by apply second_idle.
Qed.

Lemma at_most_one_callback_witness :
  Full.second (Full.startTimer (Full.startTimer (fresh_full "25" "5")))
  = Full.step (Full.startTimer (fresh_full "25" "5")).
Proof.
  pose proof (at_most_one_callback (fresh_full "25" "5")
                (or_introl (reachable_loaded _ _ _ _ _ _ _))) as H.
  exact (proj1 (proj2 (proj2 (proj2 (proj2 (proj2 H)))))).
Defined.

(** ** The list mutation protocol *)
Section ListFacts.
Context `{JsonTasks : Json (list Task)} `{JsonProjects : Json (list Project)}
        `{JsonHabits : Json (list Habit)}.

Lemma updateKPIs_eq (d : Date) (p : Full.Page) :
  Full.updateKPIs d p =
  Normal (Full.set_kpis (Full.todayISO d)
            (Js.to_string (Js.Int (Full.sum_minutes (stored_tasks (Full.localStorage p))))
               +:+ " min")
            (Js.to_string (Js.Int (Full.sum_minutes
               (List.filter task_done (stored_tasks (Full.localStorage p))))) +:+ " min")
            p).
Proof. unfold Full.updateKPIs. by rewrite Full_loadJSON_loaded. Qed.

Lemma renderTasks_eq (p : Full.Page) :
  Full.renderTasks p =
  Normal (match Full.taskList p with
          | Some _ => Full.set_taskList (task_list_of (Full.localStorage p)) p
          | None => p
          end).
Proof.
  unfold Full.renderTasks. destruct (Full.taskList p); [|done].
  by rewrite Full_loadJSON_loaded.
Qed.

Lemma renderProjects_eq (p : Full.Page) :
  Full.renderProjects p =
  Normal (match Full.projectsWrap p with
          | Some _ => Full.set_projectsWrap (projects_wrap_of (Full.localStorage p)) p
          | None => p
          end).
Proof.
  unfold Full.renderProjects. destruct (Full.projectsWrap p); [|done].
  by rewrite Full_loadJSON_loaded.
Qed.

Lemma renderHabits_eq (d : Date) (p : Full.Page) :
  Full.renderHabits d p =
  Normal (match Full.habitsWrap p with
          | Some _ => Full.set_habitsWrap (habits_wrap_of d (Full.localStorage p)) p
          | None => p
          end).
Proof.
  unfold Full.renderHabits. destruct (Full.habitsWrap p); [|done].
  by rewrite Full_loadJSON_loaded.
Qed.

(** After a save, the KPIs and the task list are rendered from the store the
    save left. *)
Lemma refresh_tasks (d : Date) (g : Global) (p : Full.Page) :
  Full.localStorage p = g →
  ∃ p', (q ← Full.updateKPIs d p; Full.renderTasks q) = Normal p'
        ∧ Full.localStorage p' = g
        ∧ Full.taskList p' = (λ _, task_list_of g) <$> Full.taskList p
        ∧ Full.taskInput p' = Full.taskInput p
        ∧ Full.projectsWrap p' = Full.projectsWrap p
        ∧ Full.projName p' = Full.projName p
        ∧ Full.habitsWrap p' = Full.habitsWrap p
        ∧ Full.habitName p' = Full.habitName p.
Proof.
  intros <-. rewrite updateKPIs_eq. simpl. rewrite renderTasks_eq. simpl.
  eexists. split; [done|].
  destruct (Full.taskList p) eqn:Htl; simpl; by rewrite ?Htl.
Qed.

Lemma loaded_with_accepts {V} `{Json V} (acc : string → string → bool)
    (g : Global) (key : string) (fallback : V) :
  Contract.loaded (with_accepts acc g) key fallback = Contract.loaded g key fallback.
Proof. by destruct g. Qed.

Lemma with_accepts_self (g : Global) :
  with_accepts (match g with
                | Available st => accepts st
                | Absent | Blocked => λ _ _, true
                end) g = g.
Proof. by destruct g as [| |[]]. Qed.

Lemma with_accepts_own (p : Full.Page) :
  Full.set_localStorage
    (with_accepts (match Full.localStorage p with
                   | Available st => accepts st
                   | Absent | Blocked => λ _ _, true
                   end) (Full.localStorage p)) p = p.
Proof. destruct p as [[| |[]] ?]; done. Qed.

(** A write of the text the key holds changes nothing, accepted or not. *)
Lemma saved_same_text (st : Storage) (key text : string) :
  items st !! key = Some text → saved (Available st) key text = Available st.
Proof.
  intros Hheld. unfold saved. destruct (accepts st key text); [|done].
  destruct st as [its acc]. simpl in *. by rewrite insert_id.
Qed.

(** After a save, the project list is rendered from the store the save
    left. *)
Lemma refresh_projects (g : Global) (p : Full.Page) :
  Full.localStorage p = g →
  ∃ p', Full.renderProjects p = Normal p'
        ∧ Full.localStorage p' = g
        ∧ Full.taskList p' = Full.taskList p
        ∧ Full.projectsWrap p' = (λ _, projects_wrap_of g) <$> Full.projectsWrap p
        ∧ Full.habitsWrap p' = Full.habitsWrap p.
Proof.
  intros <-. rewrite renderProjects_eq. eexists. split; [done|].
  destruct (Full.projectsWrap p) eqn:Hpw; simpl; by rewrite ?Hpw.
Qed.

Lemma refresh_habits (d : Date) (g : Global) (p : Full.Page) :
  Full.localStorage p = g →
  ∃ p', Full.renderHabits d p = Normal p'
        ∧ Full.localStorage p' = g
        ∧ Full.taskList p' = Full.taskList p
        ∧ Full.projectsWrap p' = Full.projectsWrap p
        ∧ Full.habitsWrap p' = (λ _, habits_wrap_of d g) <$> Full.habitsWrap p.
Proof.
  intros <-. rewrite renderHabits_eq. eexists. split; [done|].
  destruct (Full.habitsWrap p) eqn:Hhw; simpl; by rewrite ?Hhw.
Qed.

(** A list rendered again from an unchanged store shows what it showed. *)
Lemma tasks_again_shown (p p' : Full.Page) :
  tasks_rendered p →
  Full.localStorage p' = Full.localStorage p →
  Full.taskList p' = (λ _, task_list_of (Full.localStorage p')) <$> Full.taskList p →
  shown_tasks p' = shown_tasks p ∧ tasks_rendered p'.
Proof.
  intros Hshow Hg Htl. unfold shown_tasks, tasks_rendered. rewrite Htl, Hg.
  destruct (Full.taskList p) as [tl|] eqn:Hl; [|done].
  destruct (Hshow tl Hl) as [_ Hitems]. simpl. rewrite Hitems.
  split; [done|]. by intros ? [= <-].
Qed.

Lemma projects_again_shown (p p' : Full.Page) :
  projects_rendered p →
  Full.localStorage p' = Full.localStorage p →
  Full.projectsWrap p'
  = (λ _, projects_wrap_of (Full.localStorage p')) <$> Full.projectsWrap p →
  shown_projects p' = shown_projects p ∧ projects_rendered p'.
Proof.
  intros Hshow Hg Hpw. unfold shown_projects, projects_rendered. rewrite Hpw, Hg.
  destruct (Full.projectsWrap p) as [pw|] eqn:Hl; [|done].
  destruct (Hshow pw Hl) as [_ Hcards]. simpl. rewrite Hcards.
  rewrite <- list_fmap_compose.
  split; [done|]. intros ? [= <-]. simpl. by rewrite <- list_fmap_compose.
Qed.

Lemma habits_again_shown (d : Date) (p p' : Full.Page) :
  habits_rendered d p →
  Full.localStorage p' = Full.localStorage p →
  Full.habitsWrap p'
  = (λ _, habits_wrap_of d (Full.localStorage p')) <$> Full.habitsWrap p →
  shown_habits p' = shown_habits p ∧ habits_rendered d p'.
Proof.
  intros Hshow Hg Hhw. unfold shown_habits, habits_rendered. rewrite Hhw, Hg.
  destruct (Full.habitsWrap p) as [hw|] eqn:Hl; [|done].
  destruct (Hshow hw Hl) as [_ Hcards]. simpl. rewrite Hcards.
  split; [done|]. by intros ? [= <-].
Qed.

(** What an operation does is the same on every store with the items of the
    store of [p], whichever writes that store accepts: either it returns
    early and leaves the page, or it saves one text under its key, the same
    text on each of these stores, and renders its list from the store the save
    left. *)
Lemma run_uniform (d : Date) (op : Op) (p : Full.Page) :
  shows_stored d op p →
  ∃ effect : option string, ∀ acc,
    ∃ p', run d op (Full.set_localStorage (with_accepts acc (Full.localStorage p)) p)
          = Normal p'
      ∧ match effect with
        | None => p' = Full.set_localStorage (with_accepts acc (Full.localStorage p)) p
        | Some text =>
            Full.localStorage p'
            = saved (with_accepts acc (Full.localStorage p)) (key_of op) text
            ∧ Full.taskList p'
              = match op with
                | AddTask | ToggleTask _ | ClearDone | WipeAll =>
                    (λ _, task_list_of (Full.localStorage p')) <$> Full.taskList p
                | _ => Full.taskList p
                end
            ∧ Full.projectsWrap p'
              = match op with
                | AddProject | AddMilestone _ =>
                    (λ _, projects_wrap_of (Full.localStorage p')) <$> Full.projectsWrap p
                | _ => Full.projectsWrap p
                end
            ∧ Full.habitsWrap p'
              = match op with
                | AddHabit | HabitDone _ =>
                    (λ _, habits_wrap_of d (Full.localStorage p')) <$> Full.habitsWrap p
                | _ => Full.habitsWrap p
                end
        end.
Proof.
  intros Hshow.
  destruct op as [|idx| | | |idx| |idx]; simpl in Hshow; simpl.
  - (* addTask *)
    unfold Full.addTask. simpl.
    destruct (Full.taskInput p) as [value|]; [|by exists None; eauto].
    destruct (negb _); [by exists None; eauto|].
    eexists (Some _). intros acc.
    rewrite Full_loadJSON_loaded, loaded_with_accepts. simpl.
    rewrite Full_saveJSON_saved. simpl.
    edestruct (refresh_tasks d) as (p' & -> & Hg & Htl & _ & Hpw & _ & Hhw & _);
      [reflexivity|].
    exists p'. rewrite Hg. by split_and!.
  - (* the check box *)
    unfold Full.cb_change. simpl.
    destruct (Full.taskList p) as [tl|] eqn:Htl; [|by exists None; eauto].
    destruct (Full.tl_items tl !! idx) as [li|] eqn:Hli; [|by exists None; eauto].
    destruct (Hshow tl Htl) as [Hcap Hitems].
    assert (is_Some (Full.tl_tasks tl !! idx)) as [t Hidx].
    { rewrite Hitems in Hli. apply list_lookup_fmap_Some in Hli as (t & _ & Hli).
      apply lookup_take_Some in Hli as [Hli _]. rewrite Hcap. eauto. }
    rewrite Hidx.
    eexists (Some _). intros acc.
    rewrite Full_saveJSON_saved. simpl.
    edestruct (refresh_tasks d) as (p' & -> & Hg & Htl' & _ & Hpw & _ & Hhw & _);
      [reflexivity|].
    exists p'. rewrite Hg. simpl in Htl'. rewrite Htl in Htl'. by split_and!.
  - (* clear completed *)
    unfold Full.clearDoneBtn_click. simpl.
    eexists (Some _). intros acc.
    rewrite Full_loadJSON_loaded, loaded_with_accepts. simpl.
    rewrite Full_saveJSON_saved. simpl.
    edestruct (refresh_tasks d) as (p' & -> & Hg & Htl & _ & Hpw & _ & Hhw & _);
      [reflexivity|].
    exists p'. rewrite Hg. by split_and!.
  - (* wipe all *)
    unfold Full.wipeAllBtn_click. simpl.
    eexists (Some _). intros acc.
    rewrite Full_saveJSON_saved. simpl.
    edestruct (refresh_tasks d) as (p' & -> & Hg & Htl & _ & Hpw & _ & Hhw & _);
      [reflexivity|].
    exists p'. rewrite Hg. by split_and!.
  - (* addProject *)
    unfold Full.addProject. simpl.
    destruct (Full.projName p) as [value|]; [|by exists None; eauto].
    destruct (negb _); [by exists None; eauto|].
    eexists (Some _). intros acc.
    rewrite Full_loadJSON_loaded, loaded_with_accepts. simpl.
    rewrite Full_saveJSON_saved. simpl.
    edestruct refresh_projects as (p' & -> & Hg & Htl & Hpw & Hhw); [reflexivity|].
    exists p'. rewrite Hg. by split_and!.
  - (* the milestone button *)
    unfold Full.milestone_btn_click. simpl.
    destruct (Full.projectsWrap p) as [pw|] eqn:Hpw; [|by exists None; eauto].
    destruct (Full.pw_cards pw !! idx) as [card|] eqn:Hcard; [|by exists None; eauto].
    destruct (negb _); [by exists None; eauto|].
    destruct (Hshow pw Hpw) as [Hcap Hcards].
    assert (is_Some (Full.pw_projects pw !! idx)) as [pr Hidx].
    { assert ((Full.pc_h3 <$> Full.pw_cards pw) !! idx = Some (Full.pc_h3 card)) as Hl
        by (by rewrite list_lookup_fmap, Hcard).
      rewrite Hcards in Hl. apply list_lookup_fmap_Some in Hl as (pr & _ & Hl).
      rewrite Hcap. eauto. }
    rewrite Hidx.
    eexists (Some _). intros acc.
    rewrite Full_saveJSON_saved. simpl.
    edestruct refresh_projects as (p' & -> & Hg & Htl & Hpw' & Hhw); [reflexivity|].
    exists p'. rewrite Hg. simpl in Hpw'. rewrite Hpw in Hpw'. by split_and!.
  - (* addHabit *)
    unfold Full.addHabit. simpl.
    destruct (Full.habitName p) as [value|]; [|by exists None; eauto].
    destruct (negb _); [by exists None; eauto|].
    eexists (Some _). intros acc.
    rewrite Full_loadJSON_loaded, loaded_with_accepts. simpl.
    rewrite Full_saveJSON_saved. simpl.
    edestruct (refresh_habits d) as (p' & -> & Hg & Htl & Hpw & Hhw); [reflexivity|].
    exists p'. rewrite Hg. by split_and!.
  - (* the habit button *)
    unfold Full.habit_btn_click. simpl.
    destruct (Full.habitsWrap p) as [hw|] eqn:Hhw; [|by exists None; eauto].
    destruct (Full.hw_cards hw !! idx) as [card|] eqn:Hcard; [|by exists None; eauto].
    destruct (Hshow hw Hhw) as [Hday Hcards].
    assert (is_Some (Contract.loaded (Full.localStorage p) fd_habits [] !! idx))
      as [h Hidx].
    { rewrite Hcards in Hcard. apply list_lookup_fmap_Some in Hcard as (h & _ & Hl). eauto. }
    destruct (same_day (habit_lastDone h) (Full.hw_today hw)) eqn:Hsame.
    + exists None. intros acc. eexists. split; [|reflexivity].
      by rewrite Full_loadJSON_loaded, loaded_with_accepts; simpl; rewrite Hidx, Hsame.
    + eexists (Some _). intros acc.
      rewrite Full_loadJSON_loaded, loaded_with_accepts. simpl. rewrite Hidx, Hsame.
      rewrite Full_saveJSON_saved. simpl.
      edestruct (refresh_habits d) as (p' & -> & Hg & Htl & Hpw & Hhw'); [reflexivity|].
      exists p'. rewrite Hg. simpl in Hhw'. rewrite Hhw in Hhw'. by split_and!.
Qed.

(** C1. When the store drops the write of a list-mutating operation, that is,
    when it refuses the text the operation writes (other texts it may
    accept), the operation still ends normally, the store is as it was, and
    every list the page shows is the one it showed before: the render that
    follows the dropped save builds the list from what [loadJSON] returns,
    not from the array the operation changed in memory.  The page is one whose
    store holds a collection, or nothing, under the key of the operation, and
    whose list of that domain showed the stored collection. *)
Theorem dropped_write_changes_nothing (d : Date) (op : Op) (p : Full.Page) :
  holds_for op (Full.localStorage p) →
  shows_stored d op p →
  (∀ st text, Full.localStorage p = Available st →
     written d op p = Some text → accepts st (key_of op) text = false) →
  ∃ p', run d op p = Normal p'
        ∧ Full.localStorage p' = Full.localStorage p
        ∧ shown_tasks p' = shown_tasks p
        ∧ shown_projects p' = shown_projects p
        ∧ shown_habits p' = shown_habits p
        ∧ shows_stored d op p'.
Proof.
  intros _ Hshow Hfail.
  destruct (run_uniform d op p Hshow) as [effect Heffect].
  destruct (Heffect (match Full.localStorage p with
                     | Available st => accepts st
                     | Absent | Blocked => λ _ _, true
                     end)) as (p' & Hrun & Hshape).
  rewrite with_accepts_own in Hrun. rewrite ?with_accepts_own in Hshape.
  rewrite ?with_accepts_self in Hshape.
  exists p'. split; [done|].
  destruct effect as [text|]; [|by subst p'].
  assert (saved (Full.localStorage p) (key_of op) text = Full.localStorage p) as Hsame.
  { destruct (Full.localStorage p) as [| |st] eqn:Hg; [done..|].
    destruct (Heffect (λ _ _, true)) as (pa & Hruna & Hga & _).
    specialize (Hfail st text eq_refl). unfold written in Hfail.
    rewrite Hg, Hruna, Hga in Hfail. simpl in Hfail.
    rewrite lookup_insert_eq in Hfail.
    destruct (decide (Some text = items st !! key_of op)) as [Hheld|_].
    - by apply saved_same_text.
    - unfold saved. by rewrite (Hfail eq_refl). }
  destruct Hshape as (Hg' & Htl & Hpw & Hhw).
  rewrite Hsame in Hg'. split; [done|].
  unfold shown_projects, shown_habits.
  destruct op as [|idx| | | |idx| |idx]; simpl in Hshow, Htl, Hpw, Hhw; simpl.
  1-4: destruct (tasks_again_shown p p' Hshow Hg' Htl) as [-> ?];
       by rewrite Hpw, Hhw.
  1-2: destruct (projects_again_shown p p' Hshow Hg' Hpw) as [Hsh ?];
       unfold shown_tasks, shown_projects in *; by rewrite Htl, Hsh, Hhw.
  all: destruct (habits_again_shown d p p' Hshow Hg' Hhw) as [Hsh ?];
       unfold shown_tasks, shown_habits in *; by rewrite Htl, Hpw, Hsh.
Qed.

(** On a page whose habit list was rendered on the current day, the button of
    a habit whose stored [lastDone] is that day does nothing: the handler
    returns before it writes or renders. *)
Lemma habit_btn_click_rendered_today
    (d : Date) (idx : nat) (p : Full.Page) (hw : Full.HabitsWrap) (h : Habit) :
  Full.habitsWrap p = Some hw →
  Full.hw_today hw = Full.todayISO d →
  stored_habits (Full.localStorage p) !! idx = Some h →
  habit_lastDone h = Some (Full.todayISO d) →
  Full.habit_btn_click d idx p = Normal p.
Proof.
  intros Hhw Hday Hidx Hlast. unfold Full.habit_btn_click.
  rewrite Hhw. destruct (Full.hw_cards hw !! idx); [|done].
  rewrite Full_loadJSON_loaded. simpl.
  unfold stored_habits in Hidx. rewrite Hidx, Hlast, Hday.
  unfold same_day. by rewrite bool_decide_eq_true_2.
Qed.

Lemma same_day_false (lastDone : option string) (today : string) :
  lastDone ≠ Some today → same_day lastDone today = false.
Proof.
  intros Hne. destruct lastDone as [day'|]; simpl; [|done].
  apply bool_decide_eq_false_2. congruence.
Qed.

(** Two clicks on one day, on a store that takes the write and a codec that
    reads back what it wrote: the first click sets [lastDone] to the day and
    adds one to the streak, the second changes nothing. *)
Lemma done_today_twice
    (d : Date) (idx : nat) (p : Full.Page) (st : Storage)
    (hw : Full.HabitsWrap) (h : Habit) (hs' : list Habit) :
  Full.localStorage p = Available st →
  Full.habitsWrap p = Some hw →
  Full.hw_today hw = Full.todayISO d →
  is_Some (Full.hw_cards hw !! idx) →
  stored_habits (Available st) !! idx = Some h →
  habit_lastDone h ≠ Some (Full.todayISO d) →
  hs' = <[idx := Full.mark_done (Full.todayISO d) h]> (stored_habits (Available st)) →
  accepts st fd_habits (JSON_stringify hs') = true →
  JSON_parse (JSON_stringify hs') = Some hs' →
  ∃ p1, Full.habit_btn_click d idx p = Normal p1
        ∧ stored_habits (Full.localStorage p1) !! idx
          = Some (Full.mark_done (Full.todayISO d) h)
        ∧ Full.habit_btn_click d idx p1 = Normal p1.
Proof.
  intros Hg Hhw Hday [card Hcard] Hidx Hne Hhs' Hacc Hround.
  assert (idx < length (stored_habits (Available st)))%nat as Hlt
    by (by apply lookup_lt_Some in Hidx).
  set (g' := Available {| items := <[fd_habits := JSON_stringify hs']> (items st);
                          accepts := accepts st |}).
  assert (stored_habits g' = hs') as Hstored.
  { unfold stored_habits, loaded, stored_value, g'. simpl.
    by rewrite lookup_insert_eq, Hround. }
  assert (hs' !! idx = Some (Full.mark_done (Full.todayISO d) h)) as Hidx'.
  { rewrite Hhs'. by apply list_lookup_insert_eq. }
  exists (Full.set_habitsWrap (habits_wrap_of d g') (Full.set_localStorage g' p)).
  split_and!.
  - unfold Full.habit_btn_click. rewrite Hhw, Hcard, Full_loadJSON_loaded, Hg. simpl.
    unfold stored_habits in Hidx. rewrite Hidx, Hday, (same_day_false _ _ Hne).
    unfold stored_habits in Hhs'. rewrite <- Hhs'.
    rewrite Full_saveJSON_saved. simpl. rewrite Hacc. simpl.
    rewrite renderHabits_eq. simpl. by rewrite Hhw.
  - simpl. by rewrite Hstored.
  - unfold Full.habit_btn_click. simpl. rewrite Hstored.
    rewrite list_lookup_fmap, Hidx'. simpl.
    rewrite Full_loadJSON_loaded. simpl.
    unfold stored_habits in Hstored. rewrite Hstored, Hidx'. simpl.
    by rewrite bool_decide_eq_true_2.
Qed.

Lemma foldl_minutes (a : Z) (tasks : list Task) :
  foldl (λ a t, a + num_or (task_minutes t) 0) a tasks = a + Full.sum_minutes tasks.
Proof.
  unfold Full.sum_minutes. revert a.
  induction tasks as [|t tasks IH]; intros a; simpl; [lia|].
  rewrite (IH (a + _)), (IH (0 + _)). lia.
Qed.

Lemma sum_minutes_app (l1 l2 : list Task) :
  Full.sum_minutes (l1 ++ l2) = Full.sum_minutes l1 + Full.sum_minutes l2.
Proof.
  unfold Full.sum_minutes at 1. rewrite foldl_app.
  fold (Full.sum_minutes l1). apply foldl_minutes.
Qed.

Lemma sum_minutes_total (tasks : list Task) :
  Full.sum_minutes tasks = total_minutes tasks.
Proof.
  induction tasks as [|t tasks IH]; [done|].
  change (t :: tasks) with ([t] ++ tasks). rewrite sum_minutes_app, IH.
  unfold Full.sum_minutes. simpl. unfold counted, num_or.
  destruct (task_minutes t) as [m|]; simpl; [|done].
  case_bool_decide; lia.
Qed.


Lemma task_item_row (t : Task) : Full.task_item t = row_of t.
Proof.
  unfold Full.task_item, row_of, num_or. f_equal.
  destruct (task_minutes t) as [m|]; [|done]. by case_bool_decide.
Qed.

Lemma task_items_rows (tasks : list Task) :
  Full.task_item <$> tasks = row_of <$> tasks.
Proof. apply list_fmap_ext. intros _ t _. apply task_item_row. Qed.


Lemma blank_trim_start (value : string) :
  blank value = true → Js.trim_start value = EmptyString.
Proof.
  induction value as [|c value IH]; simpl; [done|].
  intros [Hc Hrest]%andb_prop. rewrite Hc. auto.
Qed.

Lemma blank_trim (value : string) :
  blank value = true → Js.trim (Js.or_else value EmptyString) = EmptyString.
Proof.
  intros Hblank. unfold Js.or_else.
  destruct (Js.nonempty value); [|done].
  unfold Js.trim. by rewrite blank_trim_start.
Qed.

(** C10. An [add] whose input holds nothing but white space returns before it
    reads the store: the page, store included, is what it was. *)
Theorem add_blank_changes_nothing (d : Date) (p : Full.Page) :
  (∀ value, Full.taskInput p = Some value → blank value = true →
     Full.addTask d p = Normal p)
  ∧ (∀ value, Full.projName p = Some value → blank value = true →
     Full.addProject p = Normal p)
  ∧ (∀ value, Full.habitName p = Some value → blank value = true →
     Full.addHabit d p = Normal p).
Proof.
  split_and!; intros value Hin Hblank.
  - unfold Full.addTask. by rewrite Hin, blank_trim.
  - unfold Full.addProject. by rewrite Hin, blank_trim.
  - unfold Full.addHabit. by rewrite Hin, blank_trim.
Qed.

End ListFacts.

(** ** The theorems at work on a concrete page *)

Example todayISO_day : Full.todayISO day = "2026-01-05".
Proof. reflexivity. Qed.

Example rendered_page_shows :
  shown_tasks (rendered_page (store true))
  = Some [ {| Full.cb_checked := false; Full.sp_text := "A"; Full.small_text := "25 min" |};
           {| Full.cb_checked := true; Full.sp_text := "B"; Full.small_text := "10 min" |};
           {| Full.cb_checked := false; Full.sp_text := "C"; Full.small_text := "15 min" |} ]
  ∧ Full.plannedMinutes (rendered_page (store true)) = Some "50 min"
  ∧ Full.completedMinutes (rendered_page (store true)) = Some "10 min"
  ∧ Full.todayDate (rendered_page (store true)) = Some "2026-01-05".
Proof. vm_compute. done. Qed.

Lemma rendered_page_from_store (writable : bool) :
  @rendered_from_store tasks_codec projects_codec habits_codec day
    (rendered_page (store writable)).
Proof.
  unfold rendered_from_store.
  split_and!; intros ? [= <-]; split; vm_compute; reflexivity.
Qed.

(** The page [loaded_page] builds shows what its store holds. *)
Lemma loaded_page_rendered (d : Date) (st : Storage) :
  Full.localStorage (loaded_page d st) = Available st
  ∧ @tasks_rendered tasks_json (loaded_page d st)
  ∧ @projects_rendered projects_json (loaded_page d st)
  ∧ @habits_rendered habits_json d (loaded_page d st).
Proof.
  unfold loaded_page, Full.DOMContentLoaded_lists.
  rewrite updateKPIs_eq. simpl. rewrite renderTasks_eq. simpl.
  rewrite renderProjects_eq. simpl. rewrite renderHabits_eq. simpl.
  unfold tasks_rendered, projects_rendered, habits_rendered. simpl.
  split_and!; [done|by intros ? [= <-]| |by intros ? [= <-]].
  intros ? [= <-]. simpl. split; [done|]. by rewrite <- list_fmap_compose.
Qed.

Lemma store_of_holds_collections (tasks : list Task) (projects : list Project)
    (habits : list Habit) :
  @holds_collections tasks_json projects_json habits_json
    (Available (store_of tasks projects habits)).
Proof.
  unfold holds_collections, holds_collection, store_of. simpl.
  rewrite lookup_insert_eq.
  rewrite lookup_insert_ne, lookup_insert_eq by done.
  rewrite !lookup_insert_ne, lookup_insert_eq by done.
  split_and!; right; rewrite numeral_round_trip; by eexists.
Qed.

Lemma dropped_write_changes_nothing_witness :
  ∃ p', @run tasks_json projects_json habits_json day AddTask
          (Full.set_taskInput "Buy milk"
             (loaded_page day (full_store four_tasks [] []))) = Normal p'
        ∧ Full.localStorage p' = Available (full_store four_tasks [] [])
        ∧ shown_tasks p' = shown_tasks (loaded_page day (full_store four_tasks [] [])).
Proof.
  destruct (@dropped_write_changes_nothing tasks_json projects_json habits_json
              day AddTask
              (Full.set_taskInput "Buy milk"
                 (loaded_page day (full_store four_tasks [] []))))
    as (p' & Hrun & Hg & Hshown & _).
  - simpl. rewrite (proj1 (loaded_page_rendered day (full_store four_tasks [] []))).
    exact (proj1 (store_of_holds_collections four_tasks [] [])).
  - exact (proj1 (proj2 (loaded_page_rendered day (full_store four_tasks [] [])))).
  - intros st text Hst Hw.
    assert (st = full_store four_tasks [] []) as ->.
    { pose proof (proj1 (loaded_page_rendered day (full_store four_tasks [] []))) as Hl.
      simpl in Hst. congruence. }
    vm_compute in Hw. injection Hw as <-. by vm_compute.
  - exists p'. split_and!; [exact Hrun| |exact Hshown].
    rewrite Hg. exact (proj1 (loaded_page_rendered day (full_store four_tasks [] []))).
Defined.

(** C6. Two clicks on "Done today" on one calendar day that both count.  The
    handler compares [lastDone] with the day its rendering pass captured, not
    with the day of the click.  A page loaded on 2026-01-05 and still open on
    2026-01-06, with the habit Run never done: the first click on 2026-01-06
    stores streak 1 and [lastDone] 2026-01-05, and the second click on that
    day stores streak 2.  And on that stale page, once the store holds Run as
    done on 2026-01-06 (the current day) with streak 1, a click on 2026-01-06
    raises the streak to 2 and sets [lastDone] back to 2026-01-05. *)
Theorem done_today_twice_counts_twice :
  Full.todayISO day = "2026-01-05"
  ∧ Full.todayISO next_day = "2026-01-06"
  ∧ (∃ p1 p2,
       @Full.habit_btn_click habits_json next_day 1
         (loaded_page day (store_of [] [] two_habits)) = Normal p1
       ∧ @stored_habits habits_json (Full.localStorage p1) !! 1%nat
         = Some {| habit_name := "Run"; habit_streak := Some 1;
                   habit_lastDone := Some "2026-01-05" |}
       ∧ @Full.habit_btn_click habits_json next_day 1 p1 = Normal p2
       ∧ @stored_habits habits_json (Full.localStorage p2) !! 1%nat
         = Some {| habit_name := "Run"; habit_streak := Some 2;
                   habit_lastDone := Some "2026-01-06" |})
  ∧ (@stored_habits habits_json (Available (store_of [] [] two_habits_next_day)) !! 1%nat
     = Some {| habit_name := "Run"; habit_streak := Some 1;
               habit_lastDone := Some "2026-01-06" |}
     ∧ ∃ p3,
         @Full.habit_btn_click habits_json next_day 1
           (Full.set_localStorage (Available (store_of [] [] two_habits_next_day))
              (loaded_page day (store_of [] [] two_habits))) = Normal p3
         ∧ @stored_habits habits_json (Full.localStorage p3) !! 1%nat
           = Some {| habit_name := "Run"; habit_streak := Some 2;
                     habit_lastDone := Some "2026-01-05" |}).
Proof.
  split; [reflexivity|]. split; [reflexivity|]. split.
  - eexists _, _. split_and!; vm_compute; reflexivity.
  - split; [vm_compute; reflexivity|].
    eexists. split; vm_compute; reflexivity.
Qed.


Example add_blank_at_work :
  @Full.addTask tasks_codec day
    (Full.set_taskInput "   " (rendered_page (store true)))
  = Normal (Full.set_taskInput "   " (rendered_page (store true))).
Proof. vm_compute. reflexivity. Qed.

Example wipe_all_then_read :
  ∃ p', @Full.wipeAllBtn_click tasks_codec day (rendered_page (store true)) = Normal p'
        ∧ @stored_tasks tasks_codec (Full.localStorage p') = []
        ∧ shown_tasks p' = Some [].
Proof. eexists. split; [vm_compute; reflexivity|]. split; vm_compute; reflexivity. Qed.

Example toggle_on_a_store_that_drops_writes :
  ∃ p', @Full.cb_change tasks_codec day 0 (rendered_page (store false)) = Normal p'
        ∧ shown_tasks p' = shown_tasks (rendered_page (store false))
        ∧ Full.localStorage p' = store false.
Proof. eexists. split; [vm_compute; reflexivity|]. split; vm_compute; reflexivity. Qed.

Example done_today_twice_at_work :
  ∃ p1, @Full.habit_btn_click habits_codec day 1 (rendered_page (store true)) = Normal p1
        ∧ @stored_habits habits_codec (Full.localStorage p1) = two_habits_done
        ∧ @Full.habit_btn_click habits_codec day 1 p1 = Normal p1.
Proof.
  destruct (@done_today_twice habits_codec day 1 (rendered_page (store true))
              {| items := <[fd_tasks := "[A,B,C,D]"]> (<[fd_habits := "[Read,Run]"]> ∅);
                 accepts := λ _ _, true |}
              (@habits_wrap_of habits_codec day (store true))
              {| habit_name := "Run"; habit_streak := Some 0; habit_lastDone := None |}
              two_habits_done)
    as (p1 & Hfirst & _ & Hsecond); try (vm_compute; reflexivity).
  - by eexists.
  - discriminate.
  - exists p1. split; [done|]. split; [|done].
    vm_compute in Hfirst. injection Hfirst as <-. vm_compute. reflexivity.
Qed.

(** * Further properties of the scripts *)



(** X1. What [saveJSON] stored, [loadJSON] returns: when the store accepts the
    write and the codec reads back the text it wrote for [value], a load of
    the same key yields [value], in both scripts, whatever was stored there
    before; a load of any other key yields what it yielded before the save. *)
Theorem save_then_load {V W : Type} `{Json V} `{Json W}
    (st : Storage) (key other : string) (value fallback : V) (fallback' : W) :
  accepts st key (JSON_stringify value) = true →
  JSON_parse (JSON_stringify value) = Some value →
  key ≠ other →
  ∃ g', Full.saveJSON (Available st) key value = Normal g'
        ∧ Defensive.saveJSON (Available st) key value = Normal g'
        ∧ Full.loadJSON g' key fallback = Normal value
        ∧ Defensive.loadJSON g' key fallback = Normal value
        ∧ Full.loadJSON g' other fallback' = Full.loadJSON (Available st) other fallback'
        ∧ Defensive.loadJSON g' other fallback'
          = Defensive.loadJSON (Available st) other fallback'.
Proof.
  intros Hacc Hround Hne.
  exists (saved (Available st) key (JSON_stringify value)).
  rewrite Full_saveJSON_saved, Defensive_saveJSON_saved.
  rewrite !Full_loadJSON_loaded, !Defensive_loadJSON_loaded.
  rewrite (loaded_saved st key value fallback Hacc Hround).
  rewrite (loaded_saved_other (Available st) key other _ fallback' Hne).
  done.
Qed.

Lemma save_then_load_witness :
  ∃ g', @Full.saveJSON _ tasks_json (Available (store_of [] [] two_habits))
          fd_tasks four_tasks = Normal g'
        ∧ @Full.loadJSON _ tasks_json g' fd_tasks [] = Normal four_tasks
        ∧ @Full.loadJSON _ habits_json g' fd_habits []
          = @Full.loadJSON _ habits_json (Available (store_of [] [] two_habits))
              fd_habits [].
Proof.
  destruct (@save_then_load _ _ tasks_json habits_json
              (store_of [] [] two_habits) fd_tasks fd_habits four_tasks [] [])
    as (g' & Hsave & _ & Hload & _ & Hother & _).
  - reflexivity.
  - apply numeral_round_trip.
  - discriminate.
  - exists g'. split_and!; [exact Hsave|exact Hload|exact Hother].
Defined.

(** ** The lists show what the store holds *)
Section ListInvariant.
Context `{JsonTasks : Json (list Task)} `{JsonProjects : Json (list Project)}
        `{JsonHabits : Json (list Habit)}.

(** A write under one domain's key leaves the other domains' collections. *)
Lemma stored_frame (g : Global) (text : string) :
  (stored_projects (saved g fd_tasks text) = stored_projects g
   ∧ stored_habits (saved g fd_tasks text) = stored_habits g)
  ∧ (stored_tasks (saved g fd_projects text) = stored_tasks g
     ∧ stored_habits (saved g fd_projects text) = stored_habits g)
  ∧ (stored_tasks (saved g fd_habits text) = stored_tasks g
     ∧ stored_projects (saved g fd_habits text) = stored_projects g).
Proof.
  unfold stored_tasks, stored_projects, stored_habits.
  split_and!; by apply loaded_saved_other.
Qed.

Lemma rendered_after_tasks (d : Date) (p p' : Full.Page) (text : string) :
  rendered_from_store d p →
  Full.localStorage p' = saved (Full.localStorage p) fd_tasks text →
  Full.taskList p'
    = (λ _, task_list_of (Full.localStorage p')) <$> Full.taskList p →
  Full.projectsWrap p' = Full.projectsWrap p →
  Full.habitsWrap p' = Full.habitsWrap p →
  rendered_from_store d p'.
Proof.
  intros (_ & Hp & Hh) Hg Ht' Hp' Hh'.
  destruct (stored_frame (Full.localStorage p) text) as ((Hfp & Hfh) & _).
  unfold rendered_from_store. rewrite Hp', Hh', Ht'. split_and!.
  - destruct (Full.taskList p); [|done]. by intros ? [= <-].
  - intros pw Hpw. rewrite Hg, Hfp. by apply Hp.
  - intros hw Hhw. rewrite Hg, Hfh. by apply Hh.
Qed.

Lemma rendered_after_projects (d : Date) (p p' : Full.Page) (text : string) :
  rendered_from_store d p →
  Full.localStorage p' = saved (Full.localStorage p) fd_projects text →
  Full.taskList p' = Full.taskList p →
  Full.projectsWrap p'
    = (λ _, projects_wrap_of (Full.localStorage p')) <$> Full.projectsWrap p →
  Full.habitsWrap p' = Full.habitsWrap p →
  rendered_from_store d p'.
Proof.
  intros (Ht & _ & Hh) Hg Ht' Hp' Hh'.
  destruct (stored_frame (Full.localStorage p) text) as (_ & (Hft & Hfh) & _).
  unfold rendered_from_store. rewrite Hp', Hh', Ht'. split_and!.
  - intros tl Htl. rewrite Hg, Hft. by apply Ht.
  - destruct (Full.projectsWrap p); [|done]. intros ? [= <-]. simpl.
    split; [done|]. by rewrite <- list_fmap_compose.
  - intros hw Hhw. rewrite Hg, Hfh. by apply Hh.
Qed.

Lemma rendered_after_habits (d : Date) (p p' : Full.Page) (text : string) :
  rendered_from_store d p →
  Full.localStorage p' = saved (Full.localStorage p) fd_habits text →
  Full.taskList p' = Full.taskList p →
  Full.projectsWrap p' = Full.projectsWrap p →
  Full.habitsWrap p'
    = (λ _, habits_wrap_of d (Full.localStorage p')) <$> Full.habitsWrap p →
  rendered_from_store d p'.
Proof.
  intros (Ht & Hp & _) Hg Ht' Hp' Hh'.
  destruct (stored_frame (Full.localStorage p) text) as (_ & _ & (Hft & Hfp)).
  unfold rendered_from_store. rewrite Hp', Hh', Ht'. split_and!.
  - intros tl Htl. rewrite Hg, Hft. by apply Ht.
  - intros pw Hpw. rewrite Hg, Hfp. by apply Hp.
  - destruct (Full.habitsWrap p); [|done]. by intros ? [= <-].
Qed.

(** X2. On a page whose store holds, under each of the three keys, a
    collection or nothing (or that has no usable store at all), the list part
    of the [DOMContentLoaded] handler ends normally and writes nothing, and it
    leaves every list the page has showing the stored collection, whatever the
    page showed before: the task items are the first three stored tasks, the
    project cards and the habit cards are the stored projects and habits, and
    the handlers hold those collections and the day. *)
Theorem DOMContentLoaded_renders_the_store (d : Date) (p : Full.Page) :
  holds_collections (Full.localStorage p) →
  ∃ p', Full.DOMContentLoaded_lists d p = Normal p'
        ∧ Full.localStorage p' = Full.localStorage p
        ∧ rendered_from_store d p'
        ∧ shown_tasks p'
          = (λ _, Full.task_item <$> take 3 (stored_tasks (Full.localStorage p)))
              <$> Full.taskList p
        ∧ shown_projects p'
          = (λ _, project_name <$> stored_projects (Full.localStorage p))
              <$> Full.projectsWrap p
        ∧ shown_habits p'
          = (λ _, Full.habit_card (Full.todayISO d)
                    <$> stored_habits (Full.localStorage p))
              <$> Full.habitsWrap p.
Proof.
  intros _. unfold Full.DOMContentLoaded_lists.
  rewrite updateKPIs_eq. simpl. rewrite renderTasks_eq. simpl.
  rewrite renderProjects_eq. simpl. rewrite renderHabits_eq.
  eexists. split; [reflexivity|].
  unfold rendered_from_store, shown_tasks, shown_projects, shown_habits.
  destruct (Full.taskList p) eqn:Ht, (Full.projectsWrap p) eqn:Hp,
    (Full.habitsWrap p) eqn:Hh; simpl; rewrite ?Ht, ?Hp, ?Hh; simpl;
    rewrite ?Ht, ?Hp, ?Hh; simpl;
    (split_and!; rewrite ?Ht, ?Hp, ?Hh; simpl;
     first [ done
           | by intros ? [= <-]
           | by intros ? [=]
           | intros ? [= <-]; simpl; split; [done|]; by rewrite <- list_fmap_compose
           | by rewrite <- list_fmap_compose ]).
Qed.

Local Ltac stays := eexists; split; [reflexivity|split; [done|by left]].

Local Ltac tasks_again d p text :=
  rewrite Full_saveJSON_saved; simpl;
  let p' := fresh "p'" in
  edestruct (refresh_tasks d) as (p' & -> & Hg & Htl' & _ & Hpw' & _ & Hhw' & _);
  [reflexivity|];
  exists p'; split; [reflexivity|]; split;
  [ apply (rendered_after_tasks d p p' text);
    [done|exact Hg|by rewrite Htl', Hg|done..]
  | right; exists text; exact Hg ].

Local Ltac projects_again d p text :=
  rewrite Full_saveJSON_saved; simpl;
  let p' := fresh "p'" in
  edestruct refresh_projects as (p' & -> & Hg & Htl' & Hpw' & Hhw');
  [reflexivity|];
  exists p'; split; [reflexivity|]; split;
  [ apply (rendered_after_projects d p p' text);
    [done|exact Hg|done|by rewrite Hpw', Hg|done]
  | right; exists text; exact Hg ].

Local Ltac habits_again d p text :=
  rewrite Full_saveJSON_saved; simpl;
  let p' := fresh "p'" in
  edestruct (refresh_habits d) as (p' & -> & Hg & Htl' & Hpw' & Hhw');
  [reflexivity|];
  exists p'; split; [reflexivity|]; split;
  [ apply (rendered_after_habits d p p' text);
    [done|exact Hg|done|done|by rewrite Hhw', Hg]
  | right; exists text; exact Hg ].

(** X3. On a page whose store holds a collection or nothing under each key
    and whose lists show those collections, every list operation ends
    normally, and afterwards the lists again show what the store holds,
    whether the write was accepted or dropped: the operation either left the
    store, or wrote one text under its own key, and the list of that key was
    rendered from the store after the write. *)
Theorem operations_keep_lists_in_step (d : Date) (op : Op) (p : Full.Page) :
  holds_collections (Full.localStorage p) →
  rendered_from_store d p →
  ∃ p', run d op p = Normal p'
        ∧ rendered_from_store d p'
        ∧ (Full.localStorage p' = Full.localStorage p
           ∨ ∃ text, Full.localStorage p'
                     = saved (Full.localStorage p) (key_of op) text).
Proof.
  intros _ Hsync. pose proof Hsync as (Ht & Hp & Hh).
  destruct op as [|idx| | | |idx| |idx]; simpl.
  - unfold Full.addTask.
    destruct (Full.taskInput p) as [value|]; [|stays].
    destruct (negb _); [stays|].
    rewrite Full_loadJSON_loaded. simpl.
    match goal with |- context [Full.saveJSON _ _ ?v] =>
      tasks_again d p (JSON_stringify v) end.
  - unfold Full.cb_change.
    destruct (Full.taskList p) as [tl|] eqn:Htl; [|stays].
    destruct (Full.tl_items tl !! idx) as [li|] eqn:Hli; [|stays].
    destruct (Ht tl eq_refl) as [Hcap Hitems].
    assert (is_Some (Full.tl_tasks tl !! idx)) as [t Hidx].
    { rewrite Hitems in Hli. apply list_lookup_fmap_Some in Hli as (t & _ & Hli).
      apply lookup_take_Some in Hli as [Hli _]. rewrite Hcap. eauto. }
    rewrite Hidx.
    match goal with |- context [Full.saveJSON _ _ ?v] =>
      tasks_again d p (JSON_stringify v) end.
  - unfold Full.clearDoneBtn_click. rewrite Full_loadJSON_loaded. simpl.
    match goal with |- context [Full.saveJSON _ _ ?v] =>
      tasks_again d p (JSON_stringify v) end.
  - unfold Full.wipeAllBtn_click.
    match goal with |- context [Full.saveJSON _ _ ?v] =>
      tasks_again d p (JSON_stringify v) end.
  - unfold Full.addProject.
    destruct (Full.projName p) as [value|]; [|stays].
    destruct (negb _); [stays|].
    rewrite Full_loadJSON_loaded. simpl.
    match goal with |- context [Full.saveJSON _ _ ?v] =>
      projects_again d p (JSON_stringify v) end.
  - unfold Full.milestone_btn_click.
    destruct (Full.projectsWrap p) as [pw|] eqn:Hpw; [|stays].
    destruct (Full.pw_cards pw !! idx) as [card|] eqn:Hcard; [|stays].
    destruct (negb _); [stays|].
    destruct (Hp pw eq_refl) as [Hcap Hcards].
    assert (is_Some (Full.pw_projects pw !! idx)) as [pr Hidx].
    { assert ((Full.pc_h3 <$> Full.pw_cards pw) !! idx = Some (Full.pc_h3 card)) as Hl
        by (by rewrite list_lookup_fmap, Hcard).
      rewrite Hcards in Hl. apply list_lookup_fmap_Some in Hl as (pr & _ & Hl).
      rewrite Hcap. eauto. }
    rewrite Hidx.
    match goal with |- context [Full.saveJSON _ _ ?v] =>
      projects_again d p (JSON_stringify v) end.
  - unfold Full.addHabit.
    destruct (Full.habitName p) as [value|]; [|stays].
    destruct (negb _); [stays|].
    rewrite Full_loadJSON_loaded. simpl.
    match goal with |- context [Full.saveJSON _ _ ?v] =>
      habits_again d p (JSON_stringify v) end.
  - unfold Full.habit_btn_click.
    destruct (Full.habitsWrap p) as [hw|] eqn:Hhw; [|stays].
    destruct (Full.hw_cards hw !! idx) as [card|] eqn:Hcard; [|stays].
    rewrite Full_loadJSON_loaded. simpl.
    destruct (Hh hw eq_refl) as [Hday Hcards].
    assert (is_Some (Contract.loaded (Full.localStorage p) fd_habits [] !! idx))
      as [h Hidx].
    { rewrite Hcards in Hcard.
      apply list_lookup_fmap_Some in Hcard as (h & _ & Hl). eauto. }
    rewrite Hidx.
    destruct (same_day _ _); [stays|].
    match goal with |- context [Full.saveJSON _ _ ?v] =>
      habits_again d p (JSON_stringify v) end.
Qed.

End ListInvariant.

(** ** Trimmed text *)

Lemma trim_start_empty_blank (s : string) :
  Js.trim_start s = EmptyString → blank s = true.
Proof.
  induction s as [|c s IH]; simpl; [done|].
  destruct (Js.is_white c); [auto|discriminate].
Qed.

Lemma trim_start_head (s : string) (c : ascii) (rest : string) :
  Js.trim_start s = String c rest → Js.is_white c = false.
Proof.
  induction s as [|c' s IH]; simpl; [discriminate|].
  destruct (Js.is_white c') eqn:Hc; [auto|]. by intros [= <- _].
Qed.

Lemma rev_app_empty (a b : string) :
  String.rev_app a b = EmptyString → a = EmptyString ∧ b = EmptyString.
Proof.
  revert b. induction a as [|c a IH]; intros b; simpl; [done|].
  intros Hrev. by destruct (IH _ Hrev).
Qed.

Lemma blank_rev_app (a b : string) :
  blank (String.rev_app a b) = blank a && blank b.
Proof.
  revert b. induction a as [|c a IH]; intros b; simpl; [done|].
  rewrite IH. simpl. by destruct (Js.is_white c), (blank a), (blank b).
Qed.

(** [s.trim()] is empty exactly when [s] holds nothing but white space. *)
Lemma trim_empty_iff_blank (s : string) :
  Js.trim s = EmptyString ↔ blank s = true.
Proof.
  split.
  - unfold Js.trim, Js.trim_end, String.rev. intros Hrev.
    apply rev_app_empty in Hrev as [Hrev _].
    apply trim_start_empty_blank in Hrev.
    rewrite blank_rev_app, andb_true_r in Hrev.
    destruct (Js.trim_start s) as [|c rest] eqn:Hs.
    + by apply trim_start_empty_blank.
    + apply trim_start_head in Hs. simpl in Hrev. by rewrite Hs in Hrev.
  - intros Hblank. unfold Js.trim. by rewrite blank_trim_start.
Qed.

Lemma or_else_empty (s : string) : Js.or_else s EmptyString = s.
Proof. by destruct s. Qed.

Lemma not_blank_trim_nonempty (value : string) :
  blank value = false →
  Js.nonempty (Js.trim (Js.or_else value EmptyString)) = true.
Proof.
  intros Hblank. rewrite or_else_empty.
  destruct (Js.trim value) eqn:Htrim; [|done].
  apply trim_empty_iff_blank in Htrim. congruence.
Qed.

Lemma append_assoc (a b c : string) : (a +:+ b) +:+ c = a +:+ (b +:+ c).
Proof.
  induction a as [|x a IH]; [done|].
  change (String x ((a +:+ b) +:+ c) = String x (a +:+ (b +:+ c))). by rewrite IH.
Qed.

Lemma append_empty_r (a : string) : a +:+ EmptyString = a.
Proof.
  induction a as [|x a IH]; [done|].
  change (String x (a +:+ EmptyString) = String x a). by rewrite IH.
Qed.

Lemma rev_app_append (a b z : string) :
  String.rev_app (a +:+ b) z = String.rev_app b (String.rev_app a z).
Proof.
  revert z. induction a as [|x a IH]; intros z; [done|].
  change (String.rev_app (a +:+ b) (String x z)
          = String.rev_app b (String.rev_app a (String x z))).
  apply IH.
Qed.

Lemma rev_app_rev_app (a b c : string) :
  String.rev_app (String.rev_app a b) c = String.rev_app b (a +:+ c).
Proof.
  revert b c. induction a as [|x a IH]; intros b c; [done|].
  simpl. by rewrite IH.
Qed.

Lemma rev_rev (a : string) : String.rev (String.rev a) = a.
Proof.
  unfold String.rev. rewrite rev_app_rev_app. simpl. apply append_empty_r.
Qed.

Lemma rev_app_tail (a b : string) :
  String.rev_app a b = String.rev a +:+ b.
Proof.
  unfold String.rev. revert b.
  induction a as [|x a IH]; intros b; [done|].
  simpl. rewrite (IH (String x b)), (IH (String x EmptyString)).
  by rewrite append_assoc.
Qed.

Lemma trim_start_idempotent (s : string) :
  Js.trim_start (Js.trim_start s) = Js.trim_start s.
Proof.
  induction s as [|c s IH]; simpl; [done|].
  destruct (Js.is_white c) eqn:Hc; [done|]. simpl. by rewrite Hc.
Qed.

Lemma trim_start_before_black (x : string) (c : ascii) :
  Js.is_white c = false →
  Js.trim_start (x +:+ String c EmptyString)
  = Js.trim_start x +:+ String c EmptyString.
Proof.
  intros Hc. induction x as [|y x IH].
  - simpl. by rewrite Hc.
  - change (Js.trim_start (String y (x +:+ String c EmptyString))
            = Js.trim_start (String y x) +:+ String c EmptyString).
    simpl. by destruct (Js.is_white y).
Qed.

(** The trimmed text is empty, or begins and ends with a character that is
    not white space: trimming it again, at either end, changes nothing. *)
Lemma trim_trimmed (s : string) :
  Js.trim_start (Js.trim s) = Js.trim s
  ∧ Js.trim_end (Js.trim s) = Js.trim s
  ∧ Js.trim (Js.trim s) = Js.trim s.
Proof.
  assert (Js.trim_start (Js.trim s) = Js.trim s
          ∧ Js.trim_end (Js.trim s) = Js.trim s) as [Hstart Hend].
  { unfold Js.trim at 1 3 4. unfold Js.trim.
    destruct (Js.trim_start s) as [|c r] eqn:Hs; [done|].
    pose proof (trim_start_head _ _ _ Hs) as Hc.
    unfold Js.trim_end.
    assert (String.rev (String c r) = String.rev r +:+ String c EmptyString) as ->
      by (unfold String.rev at 1; simpl; apply rev_app_tail).
    rewrite (trim_start_before_black _ c Hc).
    set (w := Js.trim_start (String.rev r)).
    assert (String.rev (w +:+ String c EmptyString) = String c (String.rev w)) as Hrev
      by (unfold String.rev; by rewrite rev_app_append).
    rewrite Hrev. split.
    - simpl. by rewrite Hc.
    - rewrite <- Hrev at 1. rewrite rev_rev.
      rewrite (trim_start_before_black _ c Hc). unfold w.
      by rewrite trim_start_idempotent. }
  split_and!; [done..|]. unfold Js.trim at 1. by rewrite Hstart.
Qed.

(** ** What the task operations do to the store and the page *)
Section TaskEffects.
Context `{JsonTasks : Json (list Task)}.

(** [updateKPIs(); renderTasks()] on a page: the KPI texts and the task list
    are computed from the stored tasks, everything else stays. *)
Lemma kpis_and_tasks (d : Date) (q : Full.Page) :
  ∃ p', (q' ← Full.updateKPIs d q; Full.renderTasks q') = Normal p'
        ∧ Full.localStorage p' = Full.localStorage q
        ∧ Full.taskList p'
          = (λ _, task_list_of (Full.localStorage q)) <$> Full.taskList q
        ∧ Full.plannedMinutes p'
          = Full.set_text
              (Js.to_string (Js.Int (Full.sum_minutes (stored_tasks (Full.localStorage q))))
                 +:+ " min") (Full.plannedMinutes q)
        ∧ Full.completedMinutes p'
          = Full.set_text
              (Js.to_string (Js.Int (Full.sum_minutes
                 (List.filter task_done (stored_tasks (Full.localStorage q)))))
                 +:+ " min") (Full.completedMinutes q)
        ∧ Full.taskInput p' = Full.taskInput q
        ∧ Full.projectsWrap p' = Full.projectsWrap q
        ∧ Full.habitsWrap p' = Full.habitsWrap q.
Proof.
  rewrite updateKPIs_eq. simpl. rewrite renderTasks_eq. simpl.
  eexists. split; [done|].
  destruct (Full.taskList q) eqn:Htl; simpl; by rewrite ?Htl.
Qed.

Lemma stored_tasks_saved (st : Storage) (tasks : list Task) :
  accepts st fd_tasks (JSON_stringify tasks) = true →
  JSON_parse (JSON_stringify tasks) = Some tasks →
  stored_tasks (saved (Available st) fd_tasks (JSON_stringify tasks)) = tasks.
Proof. intros Hacc Hround. by apply loaded_saved. Qed.

(** X4. [addTask] with text that is not blank, on a store that holds the
    task collection or nothing and takes the write, a codec that reads it
    back, and minutes that add up within the exact range of the script's
    numbers: the new task is stored in front of the old ones, not done, with
    25 minutes and the trimmed text (which is not empty and neither begins nor
    ends with white space); the input is cleared, the list shows the first
    three tasks of the new collection, and the planned minutes are those of
    the old tasks plus 25. *)
Theorem addTask_stores_in_front
    (d : Date) (p : Full.Page) (st : Storage) (value : string) (new : Task) :
  Full.localStorage p = Available st →
  holds_collection (V := list Task) (Available st) fd_tasks →
  Full.taskInput p = Some value →
  blank value = false →
  new = {| task_text := Js.trim value; task_done := false; task_minutes := Some 25 |} →
  in_exact_range (new :: stored_tasks (Available st)) →
  accepts st fd_tasks (JSON_stringify (new :: stored_tasks (Available st))) = true →
  JSON_parse (JSON_stringify (new :: stored_tasks (Available st)))
    = Some (new :: stored_tasks (Available st)) →
  ∃ p', Full.addTask d p = Normal p'
        ∧ stored_tasks (Full.localStorage p') = new :: stored_tasks (Available st)
        ∧ Js.nonempty (task_text new) = true
        ∧ Js.trim (task_text new) = task_text new
        ∧ Full.taskInput p' = Some EmptyString
        ∧ shown_tasks p'
          = (λ _, row_of <$> take 3 (new :: stored_tasks (Available st)))
              <$> Full.taskList p
        ∧ Full.plannedMinutes p'
          = Full.set_text
              (pretty (total_minutes (stored_tasks (Available st)) + 25) +:+ " min")
              (Full.plannedMinutes p).
Proof.
  intros Hg _ Hin Hblank Hnew _ Hacc Hround.
  pose proof (not_blank_trim_nonempty value Hblank) as Hne.
  unfold Full.addTask. rewrite Hin, Hne. simpl.
  rewrite Full_loadJSON_loaded, Hg. simpl.
  rewrite or_else_empty in *. rewrite <- Hnew.
  fold (stored_tasks (Available st)).
  rewrite Full_saveJSON_saved.
  pose proof (stored_tasks_saved st _ Hacc Hround) as Hstored.
  set (g' := saved _ _ _) in *. clearbody g'. simpl.
  edestruct (kpis_and_tasks d) as (p' & -> & Hg' & Htl & Hplan & _ & Hinp & _).
  exists p'. split; [done|]. simpl in Hg', Htl, Hplan, Hinp.
  rewrite Hg', ?Hstored in *.
  split_and!; try done.
  - by rewrite Hnew.
  - rewrite Hnew. simpl. apply trim_trimmed.
  - unfold shown_tasks. rewrite Htl. unfold task_list_of. rewrite ?Hstored.
    destruct (Full.taskList p); [|done]. simpl. do 2 f_equal.
    + apply task_item_row.
    + apply task_items_rows.
  - rewrite Hplan, sum_minutes_total. do 2 f_equal. simpl.
    rewrite Hnew. unfold counted. simpl. f_equal. lia.
Qed.

(** X5. The clear button, on a store that holds the task collection or
    nothing and takes the write, a codec that reads it back, and minutes that
    add up within the exact range of the script's numbers: the stored tasks
    are the old ones that were not done, in their old order; none of them is
    done, the completed minutes read 0, and the planned minutes read the
    minutes of all old tasks less those of the old tasks that were done. *)
Theorem clearDone_keeps_the_open_tasks
    (d : Date) (p : Full.Page) (st : Storage) (kept : list Task) :
  Full.localStorage p = Available st →
  holds_collection (V := list Task) (Available st) fd_tasks →
  in_exact_range (stored_tasks (Available st)) →
  kept = List.filter (λ t, negb (task_done t)) (stored_tasks (Available st)) →
  accepts st fd_tasks (JSON_stringify kept) = true →
  JSON_parse (JSON_stringify kept) = Some kept →
  ∃ p', Full.clearDoneBtn_click d p = Normal p'
        ∧ stored_tasks (Full.localStorage p') = kept
        ∧ Forall (λ t, task_done t = false) (stored_tasks (Full.localStorage p'))
        ∧ shown_tasks p' = (λ _, row_of <$> take 3 kept) <$> Full.taskList p
        ∧ Full.completedMinutes p' = Full.set_text "0 min" (Full.completedMinutes p)
        ∧ Full.plannedMinutes p'
          = Full.set_text
              (pretty (total_minutes (stored_tasks (Available st))
                       - total_minutes (List.filter task_done
                                          (stored_tasks (Available st))))
                 +:+ " min")
              (Full.plannedMinutes p).
Proof.
  intros Hg _ _ Hkept Hacc Hround.
  unfold Full.clearDoneBtn_click.
  rewrite Full_loadJSON_loaded, Hg. simpl.
  fold (stored_tasks (Available st)). rewrite <- Hkept.
  rewrite Full_saveJSON_saved.
  pose proof (stored_tasks_saved st _ Hacc Hround) as Hstored.
  set (g' := saved _ _ _) in *. clearbody g'. simpl.
  edestruct (kpis_and_tasks d) as (p' & -> & Hg' & Htl & Hplan & Hdone & _).
  exists p'. split; [done|]. simpl in Hg', Htl, Hplan, Hdone.
  rewrite Hg', ?Hstored in *.
  assert (Forall (λ t, task_done t = false) kept) as Hopen.
  { rewrite Hkept. apply Forall_forall. intros t Ht.
    apply list_elem_of_In, filter_In in Ht as [_ Ht]. by destruct (task_done t). }
  assert (List.filter task_done kept = []) as Hnone.
  { clear -Hopen. induction Hopen as [|t l Ht _ IH]; simpl; [done|]. by rewrite Ht. }
  split_and!; try done.
  - unfold shown_tasks. rewrite <- (task_items_rows (take 3 kept)), Htl.
    simpl. unfold task_list_of. rewrite ?Hstored.
    by destruct (Full.taskList p).
  - rewrite Hdone, ?Hstored, Hnone. by destruct (Full.completedMinutes p).
  - rewrite Hplan, sum_minutes_total. do 3 f_equal.
    rewrite Hkept. clear. induction (stored_tasks (Available st)) as [|t l IH];
      simpl; [done|].
    destruct (task_done t); simpl; lia.
Qed.

End TaskEffects.

Section MoreTaskEffects.
Context `{JsonTasks : Json (list Task)}.


(** The [change] handler on a store that takes the write: it stores the array
    its rendering pass captured, with the flag at [idx] flipped, and renders
    the list from the store. *)
Lemma cb_change_written
    (d : Date) (idx : nat) (p : Full.Page) (st : Storage)
    (tl : Full.TaskList) (t : Task) (new : list Task) :
  Full.localStorage p = Available st →
  Full.taskList p = Some tl →
  Full.tl_items tl = Full.task_item <$> take 3 (Full.tl_tasks tl) →
  (idx < 3)%nat →
  Full.tl_tasks tl !! idx = Some t →
  new = <[idx := Full.set_done (negb (task_done t)) t]> (Full.tl_tasks tl) →
  accepts st fd_tasks (JSON_stringify new) = true →
  JSON_parse (JSON_stringify new) = Some new →
  ∃ p', Full.cb_change d idx p = Normal p'
        ∧ Full.localStorage p'
          = Available {| items := <[fd_tasks := JSON_stringify new]> (items st);
                         accepts := accepts st |}
        ∧ stored_tasks (Full.localStorage p') = new
        ∧ Full.taskList p'
          = Some {| Full.tl_tasks := new;
                    Full.tl_items := Full.task_item <$> take 3 new |}.
Proof.
  intros Hg Htl Hitems Hlt Hidx Hnew Hacc Hround.
  unfold Full.cb_change. rewrite Htl, Hitems, list_lookup_fmap.
  rewrite lookup_take_lt, Hidx by done. simpl. rewrite <- Hnew.
  rewrite Hg, Full_saveJSON_saved.
  pose proof (stored_tasks_saved st _ Hacc Hround) as Hstored.
  assert (saved (Available st) fd_tasks (JSON_stringify new)
          = Available {| items := <[fd_tasks := JSON_stringify new]> (items st);
                         accepts := accepts st |}) as Hsaved
    by (simpl; by rewrite Hacc).
  rewrite Hsaved in *.
  set (g' := Available _) in *. clearbody g'. simpl.
  edestruct (kpis_and_tasks d) as (p' & -> & Hg' & Htl' & _).
  exists p'. split; [done|]. simpl in Hg', Htl'. rewrite Htl in Htl'.
  rewrite Hg', Htl'. unfold task_list_of. by rewrite Hstored.
Qed.

(** X7. A click on one of the three check boxes, on a page that shows the
    stored tasks and a store that takes the write: the stored collection
    keeps its length and every task but the one at that position; that task
    keeps its text and minutes and has its flag flipped, and its box shows the
    new flag. *)
Theorem cb_change_flips_one_task
    (d : Date) (idx : nat) (p : Full.Page) (st : Storage)
    (tl : Full.TaskList) (t : Task) (new : list Task) :
  Full.localStorage p = Available st →
  Full.taskList p = Some tl →
  Full.tl_tasks tl = stored_tasks (Available st) →
  Full.tl_items tl = Full.task_item <$> take 3 (stored_tasks (Available st)) →
  (idx < 3)%nat →
  stored_tasks (Available st) !! idx = Some t →
  new = <[idx := Full.set_done (negb (task_done t)) t]> (stored_tasks (Available st)) →
  accepts st fd_tasks (JSON_stringify new) = true →
  JSON_parse (JSON_stringify new) = Some new →
  ∃ p' t', Full.cb_change d idx p = Normal p'
        ∧ length (stored_tasks (Full.localStorage p'))
          = length (stored_tasks (Available st))
        ∧ (∀ j, j ≠ idx →
             stored_tasks (Full.localStorage p') !! j = stored_tasks (Available st) !! j)
        ∧ stored_tasks (Full.localStorage p') !! idx = Some t'
        ∧ task_text t' = task_text t
        ∧ task_minutes t' = task_minutes t
        ∧ task_done t' = negb (task_done t)
        ∧ (∀ items, shown_tasks p' = Some items →
             Full.cb_checked <$> items !! idx = Some (negb (task_done t))).
Proof.
  intros Hg Htl Hcap Hitems Hlt Hidx Hnew Hacc Hround.
  rewrite <- Hcap in Hitems, Hidx, Hnew.
  destruct (cb_change_written d idx p st tl t new)
    as (p' & Hrun & _ & Hstored & Htl'); try done.
  exists p', (Full.set_done (negb (task_done t)) t).
  rewrite Hstored, <- Hcap, Hnew.
  assert (idx < length (Full.tl_tasks tl))%nat as Hin
    by (by apply lookup_lt_Some in Hidx).
  split_and!; try done.
  - by rewrite length_insert.
  - intros j Hj. by rewrite list_lookup_insert_ne.
  - by rewrite list_lookup_insert_eq.
  - unfold shown_tasks. rewrite Htl'. intros items [= <-].
    rewrite list_lookup_fmap, lookup_take_lt by done.
    rewrite Hnew, list_lookup_insert_eq by done. done.
Qed.

(** X8. Two clicks on the same check box, on a store that takes both writes
    and a codec that reads both texts back: the stored collection is again
    what it was before the first click. *)
Theorem cb_change_twice_restores
    (d : Date) (idx : nat) (p : Full.Page) (st : Storage)
    (tl : Full.TaskList) (t : Task) (old new : list Task) :
  Full.localStorage p = Available st →
  Full.taskList p = Some tl →
  Full.tl_tasks tl = old →
  Full.tl_items tl = Full.task_item <$> take 3 old →
  (idx < 3)%nat →
  old !! idx = Some t →
  new = <[idx := Full.set_done (negb (task_done t)) t]> old →
  (∀ tasks, tasks = old ∨ tasks = new →
     accepts st fd_tasks (JSON_stringify tasks) = true
     ∧ JSON_parse (JSON_stringify tasks) = Some tasks) →
  ∃ p' p'', Full.cb_change d idx p = Normal p'
        ∧ stored_tasks (Full.localStorage p') = new
        ∧ Full.cb_change d idx p' = Normal p''
        ∧ stored_tasks (Full.localStorage p'') = old
        ∧ shown_tasks p'' = Some (Full.task_item <$> take 3 old).
Proof.
  intros Hg Htl Hcap Hitems Hlt Hidx Hnew Hcodec.
  destruct (Hcodec old) as [Hacc_old Hround_old]; [by left|].
  destruct (Hcodec new) as [Hacc_new Hround_new]; [by right|].
  rewrite <- Hcap in Hitems, Hidx, Hnew.
  destruct (cb_change_written d idx p st tl t new)
    as (p' & Hrun & Hg' & Hstored & Htl'); try done.
  assert (idx < length old)%nat as Hin
    by (rewrite <- Hcap; by apply lookup_lt_Some in Hidx).
  assert (<[idx := Full.set_done (negb (task_done (Full.set_done (negb (task_done t)) t)))
                     (Full.set_done (negb (task_done t)) t)]> new = old) as Hback.
  { rewrite Hnew, list_insert_insert_eq, Hcap. apply list_insert_id.
    rewrite <- Hcap, Hidx. f_equal. destruct t as [? [] ?]; done. }
  destruct (cb_change_written d idx p' _ _ (Full.set_done (negb (task_done t)) t) old
              Hg' Htl')
    as (p'' & Hrun' & _ & Hstored' & Htl''); try done.
  - simpl. rewrite Hnew, Hcap. by apply list_lookup_insert_eq.
  - exists p', p''. split_and!; try done.
    unfold shown_tasks. by rewrite Htl''.
Qed.

End MoreTaskEffects.

(** ** The KPIs *)

Lemma sum_minutes_cons (t : Task) (tasks : list Task) :
  Full.sum_minutes (t :: tasks) = num_or (task_minutes t) 0 + Full.sum_minutes tasks.
Proof.
  change (t :: tasks) with ([t] ++ tasks). rewrite sum_minutes_app.
  unfold Full.sum_minutes at 1. simpl. lia.
Qed.

Lemma sum_minutes_split (tasks : list Task) :
  Full.sum_minutes tasks
  = Full.sum_minutes (List.filter task_done tasks)
    + Full.sum_minutes (List.filter (λ t, negb (task_done t)) tasks).
Proof.
  induction tasks as [|t tasks IH]; [done|].
  simpl. destruct (task_done t); simpl; rewrite !sum_minutes_cons; lia.
Qed.

(** X9. On a store that holds the task collection, or nothing, with minutes
    that add up within the exact range of the script's numbers, the two KPIs
    of [updateKPIs] are the minutes of all stored tasks and of the stored
    tasks that are done, and they add up: the planned minutes are the
    completed minutes plus the minutes of the tasks that are not done; with no
    task done the completed minutes are 0.  [updateKPIs] writes nothing and
    leaves the list. *)
Theorem updateKPIs_planned_is_completed_plus_open
    `{Json (list Task)} (d : Date) (p : Full.Page) :
  holds_collection (V := list Task) (Full.localStorage p) fd_tasks →
  in_exact_range (stored_tasks (Full.localStorage p)) →
  ∃ q planned completed,
    Full.updateKPIs d p = Normal q
    ∧ Full.plannedMinutes q
      = Full.set_text (pretty planned +:+ " min") (Full.plannedMinutes p)
    ∧ Full.completedMinutes q
      = Full.set_text (pretty completed +:+ " min") (Full.completedMinutes p)
    ∧ planned = total_minutes (stored_tasks (Full.localStorage p))
    ∧ completed
      = total_minutes (List.filter task_done (stored_tasks (Full.localStorage p)))
    ∧ planned
      = completed
        + total_minutes (List.filter (λ t, negb (task_done t))
            (stored_tasks (Full.localStorage p)))
    ∧ (Forall (λ t, task_done t = false) (stored_tasks (Full.localStorage p)) →
       completed = 0)
    ∧ Full.localStorage q = Full.localStorage p
    ∧ Full.taskList q = Full.taskList p.
Proof.
  intros _ _. rewrite updateKPIs_eq. eexists _, _, _. split; [done|].
  rewrite !sum_minutes_total.
  split_and!; try done.
  - rewrite <- !sum_minutes_total. apply sum_minutes_split.
  - intros Hopen. induction Hopen as [|t l Ht _ IH]; simpl; [done|]. by rewrite Ht.
Qed.

Lemma updateKPIs_planned_is_completed_plus_open_witness :
  ∃ q, @Full.updateKPIs tasks_json day (loaded_page day (store_of four_tasks [] []))
       = Normal q
       ∧ Full.plannedMinutes q = Some "50 min"
       ∧ Full.completedMinutes q = Some "10 min".
Proof.
  destruct (@updateKPIs_planned_is_completed_plus_open tasks_json day
              (loaded_page day (store_of four_tasks [] [])))
    as (q & planned & completed & Hrun & Hplanned & Hdone & -> & -> & _).
  - vm_compute. right. by eexists.
  - by vm_compute.
  - exists q. split_and!; [exact Hrun| |].
    + rewrite Hplanned. by vm_compute.
    + rewrite Hdone. by vm_compute.
Defined.

(** X10. A task whose minutes are missing or 0 is shown as a 25-minute task,
    yet [updateKPIs] counts nothing for it: with such a task in front, the
    planned and the completed minutes are those of the other tasks. *)
Theorem task_without_minutes_shown_as_25_counted_as_0 (t : Task) (tasks : list Task) :
  task_minutes t = None ∨ task_minutes t = Some 0 →
  Full.small_text (Full.task_item t) = "25 min"
  ∧ Full.sum_minutes (t :: tasks) = Full.sum_minutes tasks
  ∧ Full.sum_minutes (List.filter task_done (t :: tasks))
    = Full.sum_minutes (List.filter task_done tasks).
Proof.
  intros Hmin.
  assert (num_or (task_minutes t) 0 = 0 ∧ num_or (task_minutes t) 25 = 25)
    as [Hzero Hshown] by (by destruct Hmin as [-> | ->]).
  split_and!.
  - unfold Full.task_item. simpl. by rewrite Hshown.
  - rewrite sum_minutes_cons. lia.
  - simpl. destruct (task_done t); [|done]. rewrite sum_minutes_cons. lia.
Qed.

Lemma task_without_minutes_witness :
  Full.small_text
    (Full.task_item {| task_text := "D"; task_done := true; task_minutes := None |})
  = "25 min"
  ∧ Full.sum_minutes four_tasks = 50.
Proof.
  destruct (task_without_minutes_shown_as_25_counted_as_0
              {| task_text := "D"; task_done := true; task_minutes := None |}
              [] (or_introl eq_refl)) as (Hshown & _).
  split; [exact Hshown|reflexivity].
Defined.

(** The loop of the defensive [updateKPIs] computes the two sums of the
    feature-complete one. *)
Lemma kpi_rounds (tasks : list Task) (planned done : Z) :
  foldl Defensive.kpi_round (planned, done) tasks
  = (planned + Full.sum_minutes tasks,
     done + Full.sum_minutes (List.filter task_done tasks)).
Proof.
  revert planned done. induction tasks as [|t tasks IH]; intros planned done.
  - simpl. f_equal; unfold Full.sum_minutes; simpl; lia.
  - cbn [foldl].
    destruct (Defensive.kpi_round (planned, done) t) as [planned' done'] eqn:Hround.
    rewrite IH. unfold Defensive.kpi_round in Hround. simpl in *.
    injection Hround as <- <-.
    destruct (task_done t); simpl; rewrite !sum_minutes_cons; f_equal; lia.
Qed.

(** ** Two-digit text *)

Lemma pretty_N_go_length (x : N) :
  ∀ s, (String.length s ≤ String.length (pretty_N_go x s))%nat
       ∧ ((0 < x)%N → (String.length s < String.length (pretty_N_go x s))%nat).
Proof.
  induction (N.lt_wf_0 x) as [x _ IH]. intros s.
  destruct (decide (0 < x)%N) as [Hpos|Hzero].
  - rewrite pretty_N_go_step by done.
    destruct (IH (x `div` 10)%N) with (s := String (pretty_N_char (x `mod` 10)) s)
      as [Hle _]; [by apply N.div_lt|].
    simpl in Hle. split; [lia|]. intros _. lia.
  - assert (x = 0%N) as -> by lia. rewrite pretty_N_go_0. split; [done|]. lia.
Qed.

Lemma pretty_length_from_ten (n : Z) :
  10 ≤ n → (2 ≤ String.length (pretty n))%nat.
Proof.
  intros Hn. destruct n as [|p|p]; [lia| |lia].
  unfold pretty, pretty_Z, pretty, pretty_positive, pretty, pretty_N.
  rewrite decide_False by done.
  rewrite pretty_N_go_step by done.
  destruct (pretty_N_go_length (N.pos p `div` 10)
              (String (pretty_N_char (N.pos p `mod` 10)) EmptyString)) as [_ Hlt].
  simpl in Hlt. apply Hlt. apply N.div_str_pos. lia.
Qed.

Lemma pretty_length_below_hundred (n : Z) :
  10 ≤ n ≤ 99 → String.length (pretty n) = 2%nat.
Proof.
  intros Hn. destruct n as [|p|p]; [lia| |lia].
  unfold pretty, pretty_Z, pretty, pretty_positive, pretty, pretty_N.
  rewrite decide_False by done.
  assert (0 < N.pos p `div` 10 < 10)%N as [Hpos Hsmall].
  { split; [apply N.div_str_pos; lia|]. apply N.Div0.div_lt_upper_bound. lia. }
  rewrite pretty_N_go_step by done.
  rewrite pretty_N_go_step by done.
  rewrite (N.div_small _ 10) by done. by rewrite pretty_N_go_0.
Qed.

Lemma pretty_digit (n : Z) :
  0 ≤ n < 10 →
  ∃ c, pretty n = String c EmptyString ∧ Js.digit c = Some n.
Proof.
  intros Hn.
  assert (n = 0 ∨ n = 1 ∨ n = 2 ∨ n = 3 ∨ n = 4 ∨ n = 5 ∨ n = 6 ∨ n = 7
          ∨ n = 8 ∨ n = 9) as Hcases by lia.
  repeat destruct Hcases as [->|Hcases]; [..|subst]; by eexists.
Qed.

Lemma padStart2_long (s : string) :
  (2 ≤ String.length s)%nat → Js.padStart2 s = s.
Proof.
  intros Hlen. unfold Js.padStart2.
  by replace (2 - String.length s)%nat with 0%nat by lia.
Qed.

Lemma Full_fmt2_nonnegative (n : Z) :
  0 ≤ n →
  Full.fmt2 (Js.Int n) = (if bool_decide (n < 10) then "0" else EmptyString) +:+ pretty n.
Proof.
  intros Hn. unfold Full.fmt2. simpl. case_bool_decide.
  - destruct (pretty_digit n) as (c & -> & _); [lia|done].
  - rewrite padStart2_long; [done|]. apply pretty_length_from_ten. lia.
Qed.

Lemma Defensive_fmt2_nonnegative (n : Z) :
  0 ≤ n →
  Defensive.fmt2 (Js.Int n)
  = (if bool_decide (n < 10) then "0" else EmptyString) +:+ pretty n.
Proof.
  intros Hn. unfold Defensive.fmt2, Js.truthy.
  case_bool_decide as Hzero; simpl; [by subst|done].
Qed.

(** X11. On every whole number from 0 to 2^53, the range in which the
    script's numbers are exact and print in plain decimal, the [fmt2] of the
    two scripts agree; the text has two characters up to 99, and [parseInt]
    reads the number back from it.  On [NaN] they differ: the feature-complete
    script writes [NaN], the defensive one [00]. *)
Theorem fmt2_two_digits (n : Z) :
  0 ≤ n ≤ 2 ^ 53 →
  Defensive.fmt2 (Js.Int n) = Full.fmt2 (Js.Int n)
  ∧ Js.parseInt (Full.fmt2 (Js.Int n)) = Js.Int n
  ∧ (n ≤ 99 → String.length (Full.fmt2 (Js.Int n)) = 2%nat)
  ∧ Full.fmt2 Js.NaN = "NaN"
  ∧ Defensive.fmt2 Js.NaN = "00".
Proof.
  intros [Hn _].
  rewrite Defensive_fmt2_nonnegative, Full_fmt2_nonnegative by done.
  split_and!; try done.
  - case_bool_decide.
    + destruct (pretty_digit n) as (c & -> & Hc); [lia|].
      change (Js.parseInt ("0" +:+ String c EmptyString))
        with (Js.Int (Js.digits_from 0 (String c EmptyString))).
      simpl. rewrite Hc. f_equal; lia.
    + apply (parseInt_to_string n).
  - intros Hsmall. case_bool_decide.
    + by destruct (pretty_digit n) as (c & -> & _); [lia|].
    + apply pretty_length_below_hundred. lia.
Qed.

Lemma fmt2_two_digits_witness :
  Defensive.fmt2 (Js.Int 7) = Full.fmt2 (Js.Int 7)
  ∧ Js.parseInt (Full.fmt2 (Js.Int 7)) = Js.Int 7.
Proof.
  destruct (fmt2_two_digits 7) as (Hagree & Hparse & _); [lia|].
  exact (conj Hagree Hparse).
Defined.

Lemma todayISO_agree (d : Date) :
  0 ≤ month d + 1 → 0 ≤ date d →
  Defensive.todayISO d = Full.todayISO d.
Proof.
  intros Hm Hd. unfold Defensive.todayISO, Full.todayISO.
  by rewrite !Defensive_fmt2_nonnegative, !Full_fmt2_nonnegative.
Qed.

(** X12. On a page whose store holds the task collection, or nothing (or
    that has no usable store), the defensive [updateKPIs], with its loop, and
    the feature-complete one, with [reduce] and [filter], end in the same
    page, at every clock reading whose month and day are not negative. *)
Theorem updateKPIs_agree `{Json (list Task)} (d : Date) (p : Full.Page) :
  holds_collection (V := list Task) (Full.localStorage p) fd_tasks →
  0 ≤ month d + 1 → 0 ≤ date d →
  Defensive.updateKPIs d p = Full.updateKPIs d p.
Proof.
  intros _ Hm Hd. unfold Defensive.updateKPIs.
  rewrite Defensive_loadJSON_loaded, updateKPIs_eq. simpl.
  rewrite kpi_rounds, (todayISO_agree d Hm Hd). done.
Qed.

Lemma updateKPIs_agree_witness :
  @Defensive.updateKPIs tasks_json day (loaded_page day (store_of four_tasks [] []))
  = @Full.updateKPIs tasks_json day (loaded_page day (store_of four_tasks [] [])).
Proof.
  apply (@updateKPIs_agree tasks_json day); [|simpl; lia..].
  vm_compute. right. by eexists.
Defined.

(** ** More on the timer *)
Section TimerRuns.
Variable fmt2 : Js.num → string.
Variables fmin bmin : option string → Js.num.

Local Abbreviation renderTimer := (Timer.renderTimer fmt2).
Local Abbreviation setTimerFromInputs := (Timer.setTimerFromInputs fmt2 fmin bmin).
Local Abbreviation step := (Timer.step fmt2 fmin bmin).
Local Abbreviation second := (Timer.second fmt2 fmin bmin).
Local Abbreviation resetTimer := (Timer.resetTimer fmt2 fmin bmin).
Local Abbreviation handle := (Timer.handle fmt2 fmin bmin).
Local Abbreviation reachable := (Timer.reachable fmt2 fmin bmin).
Local Abbreviation duration := (Timer.duration fmin bmin).

Lemma renderTimer_shows (t : State) : shows fmt2 (renderTimer t).
Proof.
  unfold shows, Timer.renderTimer. simpl.
  split; [destruct (timerLabel t)|destruct (timerDisplay t)]; by intros ? [= <-].
Qed.

Lemma step_renders (t : State) : ∃ x, step t = renderTimer x.
Proof. unfold Timer.step. simpl. destruct (Js.strict_eq _ _); by eexists. Qed.

Lemma shows_ext (t t' : State) :
  timerMode t' = timerMode t → remaining t' = remaining t →
  timerLabel t' = timerLabel t → timerDisplay t' = timerDisplay t →
  shows fmt2 t → shows fmt2 t'.
Proof. unfold shows. by intros -> -> -> ->. Qed.

Lemma reachable_shows (t : State) : reachable t → shows fmt2 t.
Proof.
  induction 1 as [f b label display|ev t Hreach IH].
  - apply renderTimer_shows.
  - pose proof (reachable_one_callback _ _ _ t Hreach) as Hone.
    destruct ev; simpl.
    + apply (shows_ext t); try done; unfold Timer.startTimer; by destruct (tick t).
    + apply (shows_ext t); try done; unfold Timer.pauseTimer; by destruct (tick t).
    + apply renderTimer_shows.
    + by destruct (focusMin t).
    + by destruct (breakMin t).
    + destruct (focusMin t); [apply renderTimer_shows|done].
    + destruct (breakMin t); [apply renderTimer_shows|done].
    + unfold one_callback in Hone. destruct (tick t) as [h|].
      * rewrite (second_running _ _ _ t h Hone).
        destruct (step_renders t) as [x ->]. apply renderTimer_shows.
      * by rewrite (second_idle _ _ _ t Hone).
Qed.

(** While more than [n] seconds remain, [n] seconds take [n] off and leave the
    phase, the interval and the inputs. *)
Lemma seconds_count_down (t : State) (h : positive) (r : Z) (n : nat) :
  remaining t = Js.Int r → active (scheduler t) = [h] → Z.of_nat n < r →
  timerMode (seconds second n t) = timerMode t
  ∧ remaining (seconds second n t) = Js.Int (r - Z.of_nat n)
  ∧ tick (seconds second n t) = tick t
  ∧ scheduler (seconds second n t) = scheduler t
  ∧ focusMin (seconds second n t) = focusMin t
  ∧ breakMin (seconds second n t) = breakMin t.
Proof.
  intros Hr Ha. induction n as [|n IH]; intros Hlt.
  - simpl. rewrite Hr. split_and!; try done. f_equal. lia.
  - destruct IH as (Hm & Hr' & Hk & Hs & Hf & Hb); [lia|].
    unfold seconds in *. simpl.
    rewrite (second_running _ _ _ _ h) by (by rewrite Hs).
    destruct (step_counts_down fmt2 fmin bmin _ _ Hr')
      as (Hm' & Hr'' & Hk' & Hs' & Hf' & Hb'); [lia|].
    rewrite Hm', Hr'', Hk', Hs', Hf', Hb'. split_and!; try done. f_equal. lia.
Qed.

(** After exactly as many seconds as remain, the phase has flipped once and
    [remaining] holds the duration of the new phase. *)
Lemma seconds_reach_the_flip (t : State) (h : positive) (r : Z) :
  remaining t = Js.Int r → 1 ≤ r → active (scheduler t) = [h] →
  timerMode (seconds second (Z.to_nat r) t) = flip (timerMode t)
  ∧ remaining (seconds second (Z.to_nat r) t) = duration (flip (timerMode t)) t
  ∧ tick (seconds second (Z.to_nat r) t) = tick t
  ∧ scheduler (seconds second (Z.to_nat r) t) = scheduler t.
Proof.
  intros Hr Hpos Ha.
  assert (Z.to_nat r = S (Z.to_nat (r - 1))) as -> by lia.
  destruct (seconds_count_down t h r (Z.to_nat (r - 1)) Hr Ha)
    as (Hm & Hr' & Hk & Hs & Hf & Hb); [lia|].
  unfold seconds in *. simpl.
  rewrite (second_running _ _ _ _ h) by (by rewrite Hs).
  destruct (step_flips fmt2 fmin bmin _ _ Hr')
    as (Hm' & Hr'' & Hk' & Hs' & _); [lia|].
  rewrite Hm', Hr'', Hk', Hs', Hm. split_and!; try done.
  unfold Timer.duration. by rewrite Hf, Hb.
Qed.

(** A paused timer does not move, however many seconds pass. *)
Lemma seconds_idle (t : State) (n : nat) :
  active (scheduler t) = [] → seconds second n t = t.
Proof.
  intros Ha. induction n as [|n IH]; [done|].
  unfold seconds in *. simpl. rewrite IH. by apply second_idle.
Qed.

Lemma setTimerFromInputs_twice (t : State) :
  setTimerFromInputs (setTimerFromInputs t) = setTimerFromInputs t.
Proof.
  unfold Timer.setTimerFromInputs, Timer.renderTimer, set_texts, set_remaining.
  simpl. by destruct (timerLabel t), (timerDisplay t), (timerMode t).
Qed.

End TimerRuns.

Lemma length_append (a b : string) :
  String.length (a +:+ b) = (String.length a + String.length b)%nat.
Proof.
  induction a as [|x a IH]; [done|].
  change (S (String.length (a +:+ b)) = S (String.length a + String.length b)).
  by rewrite IH.
Qed.

Lemma Defensive_fmt2_length (n : Z) :
  0 ≤ n ≤ 99 → String.length (Defensive.fmt2 (Js.Int n)) = 2%nat.
Proof.
  intros Hn. rewrite Defensive_fmt2_nonnegative by lia. case_bool_decide.
  - by destruct (pretty_digit n) as (c & -> & _); [lia|].
  - apply pretty_length_below_hundred. lia.
Qed.

(** X13. In every state either script reaches, the label and the display,
    where the page has them, read the current phase and the current
    [remaining] as [renderTimer] formats them.  In the defensive script the
    display then always has five characters, two digits of minutes, a colon
    and two digits of seconds, and [remaining] never exceeds 5400. *)
Theorem display_follows_the_timer (t : State) :
  (Full.reachable t → shows Full.fmt2 t)
  ∧ (Defensive.reachable t →
     shows Defensive.fmt2 t
     ∧ ∃ r, remaining t = Js.Int r ∧ 1 ≤ r ≤ 5400
            ∧ ∀ display, timerDisplay t = Some display →
                display = Defensive.fmt2 (Js.Int (r `div` 60)) +:+ ":" +:+
                          Defensive.fmt2 (Js.Int (r `rem` 60))
                ∧ String.length display = 5%nat).
Proof.
  split; intros Hreach;
    [exact (reachable_shows Full.fmt2 Full.fmin Full.bmin t Hreach)|].
  pose proof (reachable_shows Defensive.fmt2 Defensive.fmin Defensive.bmin t Hreach)
    as Hshows.
  split; [done|].
  destruct (Defensive_reachable_in_range t Hreach) as (r & Hr & Hrange).
  assert (longest (timerMode t) ≤ 5400) as Hlongest
    by (unfold longest; destruct (timerMode t); lia).
  exists r. split_and!; [done|lia|lia|].
  intros display Hdisplay. destruct Hshows as [_ Hshows].
  rewrite (Hshows display Hdisplay), Hr. simpl. split; [done|].
  assert (0 ≤ r `div` 60 ≤ 99) as Hmin
    by (split; [apply Z.div_pos; lia|apply Z.div_le_upper_bound; lia]).
  assert (0 ≤ r `rem` 60 ≤ 99) as Hsec
    by (pose proof (Z.rem_bound_pos r 60); lia).
  rewrite !length_append, !Defensive_fmt2_length by done. done.
Qed.

(** X14. A phase lasts exactly the seconds that remain: on a running timer
    with [r] seconds left, each of the first [r - 1] seconds takes one second
    off and leaves the phase, and the [r]-th second flips the phase and loads
    the duration configured for the new phase, with the interval still
    running.  This holds in both scripts. *)
Theorem phase_lasts_its_seconds (t : State) (h : positive) (r : Z) :
  remaining t = Js.Int r → 1 ≤ r → active (scheduler t) = [h] →
  ((∀ n, Z.of_nat n < r →
      timerMode (seconds Full.second n t) = timerMode t
      ∧ remaining (seconds Full.second n t) = Js.Int (r - Z.of_nat n))
   ∧ timerMode (seconds Full.second (Z.to_nat r) t) = flip (timerMode t)
   ∧ remaining (seconds Full.second (Z.to_nat r) t)
     = Full.duration (flip (timerMode t)) t
   ∧ active (scheduler (seconds Full.second (Z.to_nat r) t)) = [h])
  ∧ ((∀ n, Z.of_nat n < r →
      timerMode (seconds Defensive.second n t) = timerMode t
      ∧ remaining (seconds Defensive.second n t) = Js.Int (r - Z.of_nat n))
   ∧ timerMode (seconds Defensive.second (Z.to_nat r) t) = flip (timerMode t)
   ∧ remaining (seconds Defensive.second (Z.to_nat r) t)
     = Defensive.duration (flip (timerMode t)) t
   ∧ active (scheduler (seconds Defensive.second (Z.to_nat r) t)) = [h]).
Proof.
  intros Hr Hpos Ha. split.
  - destruct (seconds_reach_the_flip Full.fmt2 Full.fmin Full.bmin t h r Hr Hpos Ha)
      as (Hm & Hr' & _ & Hs).
    split_and!; try done.
    + intros n Hn.
      by destruct (seconds_count_down Full.fmt2 Full.fmin Full.bmin t h r n Hr Ha Hn)
        as (? & ? & _).
    + unfold Full.second. by rewrite Hs.
  - destruct (seconds_reach_the_flip Defensive.fmt2 Defensive.fmin Defensive.bmin
                t h r Hr Hpos Ha) as (Hm & Hr' & _ & Hs).
    split_and!; try done.
    + intros n Hn.
      by destruct (seconds_count_down Defensive.fmt2 Defensive.fmin Defensive.bmin
                     t h r n Hr Ha Hn) as (? & ? & _).
    + unfold Defensive.second. by rewrite Hs.
Qed.

Lemma phase_lasts_its_seconds_witness :
  timerMode (seconds Defensive.second 1500
               (Defensive.startTimer (fresh_defensive "25" "5"))) = break
  ∧ remaining (seconds Defensive.second 1500
                 (Defensive.startTimer (fresh_defensive "25" "5"))) = Js.Int 300.
Proof.
  destruct (phase_lasts_its_seconds
              (Defensive.startTimer (fresh_defensive "25" "5")) 1 1500
              eq_refl ltac:(lia) eq_refl) as [_ (_ & Hmode & Hrem & _)].
  exact (conj Hmode Hrem).
Defined.

(** X15. Pausing keeps the phase and the seconds that remain and stops the
    count: in every reachable state, however many seconds pass after
    [pauseTimer], nothing changes; [startTimer] then resumes from the same
    phase and the same [remaining], with one interval, and the next second
    runs [step] once. *)
Theorem pause_holds_and_start_resumes (t : State) (n : nat) :
  Full.reachable t ∨ Defensive.reachable t →
  timerMode (Full.pauseTimer t) = timerMode t
  ∧ remaining (Full.pauseTimer t) = remaining t
  ∧ seconds Full.second n (Full.pauseTimer t) = Full.pauseTimer t
  ∧ seconds Defensive.second n (Defensive.pauseTimer t) = Defensive.pauseTimer t
  ∧ timerMode (Full.startTimer (Full.pauseTimer t)) = timerMode t
  ∧ remaining (Full.startTimer (Full.pauseTimer t)) = remaining t
  ∧ (∃ h, active (scheduler (Full.startTimer (Full.pauseTimer t))) = [h])
  ∧ Full.second (Full.startTimer (Full.pauseTimer t))
    = Full.step (Full.startTimer (Full.pauseTimer t))
  ∧ Defensive.second (Defensive.startTimer (Defensive.pauseTimer t))
    = Defensive.step (Defensive.startTimer (Defensive.pauseTimer t)).
Proof.
  intros Hreach.
  assert (one_callback t) as Hone.
  { destruct Hreach as [Hr|Hr]; by apply reachable_one_callback in Hr. }
  pose proof (pauseTimer_one_callback t Hone) as Hpause.
  assert (tick (Timer.pauseTimer t) = None) as Hnone
    by (unfold Timer.pauseTimer; by destruct (tick t) eqn:Hk).
  unfold one_callback in Hpause. rewrite Hnone in Hpause.
  assert (timerMode (Timer.pauseTimer t) = timerMode t
          ∧ remaining (Timer.pauseTimer t) = remaining t) as [Hm Hr]
    by (unfold Timer.pauseTimer; by destruct (tick t) eqn:Hk).
  assert (∃ h, active (scheduler (Timer.startTimer (Timer.pauseTimer t))) = [h]
               ∧ timerMode (Timer.startTimer (Timer.pauseTimer t)) = timerMode t
               ∧ remaining (Timer.startTimer (Timer.pauseTimer t)) = remaining t)
    as (h & Hh & Hm' & Hr').
  { unfold Timer.startTimer. rewrite Hnone. simpl. rewrite Hpause. by eexists. }
  unfold Full.pauseTimer, Defensive.pauseTimer, Full.startTimer,
    Defensive.startTimer, Full.second, Defensive.second.
  split_and!; try done.
  - by apply seconds_idle.
  - by apply seconds_idle.
  - by exists h.
  - by apply (second_running _ _ _ _ h).
  - by apply (second_running _ _ _ _ h).
Qed.

Lemma pause_holds_and_start_resumes_witness :
  seconds Full.second 10 (Full.pauseTimer (Full.startTimer (fresh_full "25" "5")))
  = Full.pauseTimer (Full.startTimer (fresh_full "25" "5")).
Proof.
  pose proof (pause_holds_and_start_resumes
                (Full.startTimer (fresh_full "25" "5")) 10
                (or_introl (reachable_handle _ _ _ StartClick _
                              (reachable_loaded _ _ _ _ _ _ _)))) as H.
  exact (proj1 (proj2 (proj2 H))).
Defined.

(** X16. [resetTimer], in every reachable state: the interval is cleared and
    [tick] is null, the phase is the one it was, [remaining] is the duration
    configured for that phase; seconds that pass afterwards change nothing,
    and a second reset changes nothing. *)
Theorem resetTimer_stops_and_reloads (t : State) (n : nat) :
  Full.reachable t ∨ Defensive.reachable t →
  (tick (Full.resetTimer t) = None
   ∧ active (scheduler (Full.resetTimer t)) = []
   ∧ timerMode (Full.resetTimer t) = timerMode t
   ∧ remaining (Full.resetTimer t) = Full.duration (timerMode t) t
   ∧ seconds Full.second n (Full.resetTimer t) = Full.resetTimer t
   ∧ Full.resetTimer (Full.resetTimer t) = Full.resetTimer t)
  ∧ (tick (Defensive.resetTimer t) = None
     ∧ active (scheduler (Defensive.resetTimer t)) = []
     ∧ timerMode (Defensive.resetTimer t) = timerMode t
     ∧ remaining (Defensive.resetTimer t) = Defensive.duration (timerMode t) t
     ∧ seconds Defensive.second n (Defensive.resetTimer t) = Defensive.resetTimer t
     ∧ Defensive.resetTimer (Defensive.resetTimer t) = Defensive.resetTimer t).
Proof.
  intros Hreach.
  assert (one_callback t) as Hone.
  { destruct Hreach as [Hr|Hr]; by apply reachable_one_callback in Hr. }
  pose proof (pauseTimer_one_callback t Hone) as Hpause.
  assert (tick (Timer.pauseTimer t) = None
          ∧ timerMode (Timer.pauseTimer t) = timerMode t
          ∧ focusMin (Timer.pauseTimer t) = focusMin t
          ∧ breakMin (Timer.pauseTimer t) = breakMin t) as (Hnone & Hm & Hf & Hb)
    by (unfold Timer.pauseTimer; by destruct (tick t) eqn:Hk).
  unfold one_callback in Hpause. rewrite Hnone in Hpause.
  unfold Full.resetTimer, Defensive.resetTimer, Timer.resetTimer,
    Full.second, Defensive.second, Full.duration, Defensive.duration.
  split; split_and!; try done.
  - simpl. unfold Timer.duration. by rewrite Hm, Hf, Hb.
  - by apply seconds_idle.
  - unfold Timer.pauseTimer at 1. simpl. rewrite Hnone.
    apply setTimerFromInputs_twice.
  - simpl. unfold Timer.duration. by rewrite Hm, Hf, Hb.
  - by apply seconds_idle.
  - unfold Timer.pauseTimer at 1. simpl. rewrite Hnone.
    apply setTimerFromInputs_twice.
Qed.

Lemma resetTimer_stops_and_reloads_witness :
  tick (Defensive.resetTimer (Defensive.startTimer (fresh_defensive "25" "5"))) = None
  ∧ remaining (Defensive.resetTimer (Defensive.startTimer (fresh_defensive "25" "5")))
    = Defensive.duration focus (Defensive.startTimer (fresh_defensive "25" "5")).
Proof.
  destruct (resetTimer_stops_and_reloads
              (Defensive.startTimer (fresh_defensive "25" "5")) 0
              (or_intror (reachable_handle _ _ _ StartClick _
                            (reachable_loaded _ _ _ _ _ _ _))))
    as [_ (Htick & _ & _ & Hrem & _)].
  exact (conj Htick Hrem).
Defined.

(** X17. In every state the defensive script reaches, whatever was typed into
    the inputs and whether or not it was committed, [remaining] is a whole
    number of seconds, at least 1 and at most the longest the current phase
    can last, 5400 for focus and 1800 for break: it is never [NaN] and never
    0.  And whenever [setTimerFromInputs] runs there, it loads sixty times a
    number of minutes within the range of the phase, 5 to 90 for focus and 1
    to 30 for break. *)
Theorem Defensive_remaining_within_phase (t : State) :
  Defensive.reachable t →
  (∃ r, remaining t = Js.Int r
        ∧ 1 ≤ r ≤ match timerMode t with focus => 5400 | break => 1800 end)
  ∧ ∃ m, remaining (Defensive.setTimerFromInputs t) = Js.Int (60 * m)
         ∧ match timerMode t with
           | focus => 5 ≤ m ≤ 90
           | break => 1 ≤ m ≤ 30
           end.
Proof.
  intros Hreach. split.
  - destruct (Defensive_reachable_in_range t Hreach) as (r & Hr & Hrange).
    exists r. split; [done|]. unfold longest in Hrange.
    destruct (timerMode t); lia.
  - destruct (Defensive_duration_numeric (timerMode t) t) as (m & Hm & Hrange).
    exists m. split; [|done].
    change (remaining (Defensive.setTimerFromInputs t))
      with (Defensive.duration (timerMode t) t).
    rewrite Hm. f_equal. lia.
Qed.

Lemma Defensive_remaining_within_phase_witness :
  ∃ r, remaining (Defensive.handle Second (Defensive.handle StartClick
         (Defensive.handle (FocusMinInput "5") (fresh_defensive "25" "5"))))
       = Js.Int r ∧ 1 ≤ r ≤ 5400.
Proof.
  destruct (Defensive_remaining_within_phase
              (Defensive.handle Second (Defensive.handle StartClick
                 (Defensive.handle (FocusMinInput "5") (fresh_defensive "25" "5"))))
              (reachable_handle _ _ _ _ _ (reachable_handle _ _ _ _ _
                 (reachable_handle _ _ _ _ _ (reachable_loaded _ _ _ _ _ _ _)))))
    as [(r & Hr & Hrange) _].
  exists r. exact (conj Hr Hrange).
Defined.

(** X18. In every state the feature-complete script reaches, whatever was
    typed into the inputs and whether or not it was committed, [remaining] is
    [NaN] or a whole number of seconds between 1 and the longest the current
    phase can last.  [setTimerFromInputs] loads [NaN] exactly when the input
    of the current phase holds text that [parseInt] cannot read (a bad value
    in the input of the other phase does no harm until the phase flips), and
    once [remaining] is [NaN] a [step] leaves it [NaN] and leaves the
    phase. *)
Theorem Full_remaining_not_a_number_iff (t : State) :
  Full.reachable t →
  (remaining t = Js.NaN
   ∨ ∃ r, remaining t = Js.Int r
          ∧ 1 ≤ r ≤ match timerMode t with focus => 5400 | break => 1800 end)
  ∧ (remaining (Full.setTimerFromInputs t) = Js.NaN ↔
     ∃ value, match timerMode t with
              | focus => focusMin t = Some value
                         ∧ Js.parseInt (Js.or_else value "25") = Js.NaN
              | break => breakMin t = Some value
                         ∧ Js.parseInt (Js.or_else value "5") = Js.NaN
              end)
  ∧ (remaining t = Js.NaN →
     remaining (Full.step t) = Js.NaN ∧ timerMode (Full.step t) = timerMode t).
Proof.
  intros Hreach. pose proof (Full_reachable_in_range t Hreach) as Hin.
  unfold in_range, longest in Hin.
  split_and!.
  - destruct (remaining t) as [|r]; [by left|].
    right. exists r. split; [done|]. destruct (timerMode t); lia.
  - change (remaining (Full.setTimerFromInputs t))
      with (Full.duration (timerMode t) t).
    unfold Full.duration, Timer.duration, Full.fmin, Full.bmin.
    destruct (timerMode t).
    + destruct (focusMin t) as [value|]; simpl.
      * destruct (Js.parseInt (Js.or_else value "25")) eqn:Hparse; simpl.
        -- split; [intros _; by exists value|done].
        -- split; [done|]. by intros (v & [= <-] & Hv); rewrite Hv in Hparse.
      * split; [done|]. by intros (v & ? & _).
    + destruct (breakMin t) as [value|]; simpl.
      * destruct (Js.parseInt (Js.or_else value "5")) eqn:Hparse; simpl.
        -- split; [intros _; by exists value|done].
        -- split; [done|]. by intros (v & [= <-] & Hv); rewrite Hv in Hparse.
      * split; [done|]. by intros (v & ? & _).
  - intros Hnan.
    by destruct (step_NaN Full.fmt2 Full.fmin Full.bmin t Hnan) as (? & ? & _).
Qed.

Lemma Full_remaining_not_a_number_iff_witness :
  remaining (Full.handle (FocusMinInput "abc") (fresh_full "25" "5")) = Js.NaN
  ∨ ∃ r, remaining (Full.handle (FocusMinInput "abc") (fresh_full "25" "5")) = Js.Int r
         ∧ 1 ≤ r ≤ 5400.
Proof.
  destruct (Full_remaining_not_a_number_iff
              (Full.handle (FocusMinInput "abc") (fresh_full "25" "5"))
              (reachable_handle _ _ _ _ _ (reachable_loaded _ _ _ _ _ _ _)))
    as (Hrange & _).
  exact Hrange.
Defined.

(** X19. Committing the decimal text of a number of minutes within the range
    sets exactly that many minutes, in both scripts: 5 to 90 in the focus
    input during the focus phase, 1 to 30 in the break input during the break
    phase, load [remaining] with sixty times the number and leave the phase
    and the interval as they were. *)
Theorem typed_minutes_are_taken (t : State) (n : Z) (old : string) :
  (timerMode t = focus → focusMin t = Some old → 5 ≤ n ≤ 90 →
     remaining (Full.handle (FocusMinChange (Js.to_string (Js.Int n))) t)
       = Js.Int (60 * n)
     ∧ remaining (Defensive.handle (FocusMinChange (Js.to_string (Js.Int n))) t)
       = Js.Int (60 * n)
     ∧ timerMode (Full.handle (FocusMinChange (Js.to_string (Js.Int n))) t) = focus
     ∧ tick (Full.handle (FocusMinChange (Js.to_string (Js.Int n))) t) = tick t)
  ∧ (timerMode t = break → breakMin t = Some old → 1 ≤ n ≤ 30 →
     remaining (Full.handle (BreakMinChange (Js.to_string (Js.Int n))) t)
       = Js.Int (60 * n)
     ∧ remaining (Defensive.handle (BreakMinChange (Js.to_string (Js.Int n))) t)
       = Js.Int (60 * n)
     ∧ timerMode (Full.handle (BreakMinChange (Js.to_string (Js.Int n))) t) = break
     ∧ tick (Full.handle (BreakMinChange (Js.to_string (Js.Int n))) t) = tick t).
Proof.
  split; intros Hmode Hel Hn.
  - unfold Full.handle, Defensive.handle, Timer.handle. rewrite Hel.
    change (remaining (Timer.setTimerFromInputs ?f ?a ?b ?u))
      with (Timer.duration a b (timerMode u) u).
    unfold Timer.duration, set_focusMin. cbn [focusMin timerMode tick].
    rewrite Hmode.
    rewrite (Full_fmin_numeric _ n (parseInt_to_string n)).
    rewrite (Defensive_fmin_numeric _ n (parseInt_to_string n)).
    rewrite bool_decide_eq_false_2 by lia. simpl.
    split_and!; try done; f_equal; lia.
  - unfold Full.handle, Defensive.handle, Timer.handle. rewrite Hel.
    change (remaining (Timer.setTimerFromInputs ?f ?a ?b ?u))
      with (Timer.duration a b (timerMode u) u).
    unfold Timer.duration, set_breakMin. cbn [breakMin timerMode tick].
    rewrite Hmode.
    rewrite (Full_bmin_numeric _ n (parseInt_to_string n)).
    rewrite (Defensive_bmin_numeric _ n (parseInt_to_string n)).
    rewrite bool_decide_eq_false_2 by lia. simpl.
    split_and!; try done; f_equal; lia.
Qed.

(** ** What the habit and project operations do *)
Section HabitEffects.
Context `{JsonHabits : Json (list Habit)}.

Lemma stored_habits_saved (st : Storage) (habits : list Habit) :
  accepts st fd_habits (JSON_stringify habits) = true →
  JSON_parse (JSON_stringify habits) = Some habits →
  stored_habits (saved (Available st) fd_habits (JSON_stringify habits)) = habits.
Proof. intros Hacc Hround. by apply loaded_saved. Qed.

(** The habit button on a store that takes the write, for a habit whose
    [lastDone] is not the day the rendering pass captured: it stores the
    collection with that day and one more on the streak at [idx], and renders
    the list on the day of the click. *)
Lemma habit_btn_click_written
    (d : Date) (idx : nat) (p : Full.Page) (st : Storage)
    (hw : Full.HabitsWrap) (h : Habit) (new : list Habit) :
  Full.localStorage p = Available st →
  Full.habitsWrap p = Some hw →
  is_Some (Full.hw_cards hw !! idx) →
  stored_habits (Available st) !! idx = Some h →
  habit_lastDone h ≠ Some (Full.hw_today hw) →
  new = <[idx := Full.mark_done (Full.hw_today hw) h]> (stored_habits (Available st)) →
  accepts st fd_habits (JSON_stringify new) = true →
  JSON_parse (JSON_stringify new) = Some new →
  ∃ p', Full.habit_btn_click d idx p = Normal p'
        ∧ Full.localStorage p'
          = Available {| items := <[fd_habits := JSON_stringify new]> (items st);
                         accepts := accepts st |}
        ∧ stored_habits (Full.localStorage p') = new
        ∧ Full.habitsWrap p'
          = Some {| Full.hw_today := Full.todayISO d;
                    Full.hw_cards := Full.habit_card (Full.todayISO d) <$> new |}.
Proof.
  intros Hg Hhw [card Hcard] Hidx Hne Hnew Hacc Hround.
  unfold Full.habit_btn_click.
  rewrite Hhw, Hcard, Full_loadJSON_loaded, Hg. simpl.
  unfold stored_habits in Hidx, Hnew. rewrite Hidx, (same_day_false _ _ Hne).
  rewrite <- Hnew, Full_saveJSON_saved.
  pose proof (stored_habits_saved st _ Hacc Hround) as Hstored.
  assert (saved (Available st) fd_habits (JSON_stringify new)
          = Available {| items := <[fd_habits := JSON_stringify new]> (items st);
                         accepts := accepts st |}) as Hsaved
    by (simpl; by rewrite Hacc).
  rewrite Hsaved in *.
  set (g' := Available _) in *. clearbody g'. simpl.
  rewrite renderHabits_eq. simpl. rewrite Hhw.
  eexists. split; [done|]. simpl. unfold habits_wrap_of. by rewrite Hstored.
Qed.

(** X20. The first click of the day on a habit button, on a page rendered
    that day and a store that takes the write: the habit at that position
    keeps its name, has one more on its streak (a missing streak counting as
    0) and that day as [lastDone]; every other habit is as it was, and the
    button of the habit now reads "Done today" with the check mark. *)
Theorem habit_btn_click_counts_the_day
    (d : Date) (idx : nat) (p : Full.Page) (st : Storage)
    (hw : Full.HabitsWrap) (h : Habit) (new : list Habit) :
  Full.localStorage p = Available st →
  Full.habitsWrap p = Some hw →
  Full.hw_today hw = Full.todayISO d →
  is_Some (Full.hw_cards hw !! idx) →
  stored_habits (Available st) !! idx = Some h →
  habit_lastDone h ≠ Some (Full.todayISO d) →
  new = <[idx := Full.mark_done (Full.todayISO d) h]> (stored_habits (Available st)) →
  accepts st fd_habits (JSON_stringify new) = true →
  JSON_parse (JSON_stringify new) = Some new →
  ∃ p' h', Full.habit_btn_click d idx p = Normal p'
        ∧ length (stored_habits (Full.localStorage p'))
          = length (stored_habits (Available st))
        ∧ (∀ j, j ≠ idx →
             stored_habits (Full.localStorage p') !! j
             = stored_habits (Available st) !! j)
        ∧ stored_habits (Full.localStorage p') !! idx = Some h'
        ∧ habit_name h' = habit_name h
        ∧ habit_streak h' = Some (num_or (habit_streak h) 0 + 1)
        ∧ habit_lastDone h' = Some (Full.todayISO d)
        ∧ (∀ cards, shown_habits p' = Some cards →
             Full.hc_btn_text <$> cards !! idx = Some "Done today ✓"
             ∧ Full.hc_btn_class <$> cards !! idx = Some "secondary").
Proof.
  intros Hg Hhw Hday Hcard Hidx Hne Hnew Hacc Hround.
  rewrite <- Hday in Hne, Hnew.
  destruct (habit_btn_click_written d idx p st hw h new)
    as (p' & Hrun & _ & Hstored & Hhw'); try done.
  exists p', (Full.mark_done (Full.hw_today hw) h).
  assert (idx < length (stored_habits (Available st)))%nat as Hin
    by (by apply lookup_lt_Some in Hidx).
  rewrite Hstored, Hnew, Hday.
  split_and!; try done.
  - by rewrite length_insert.
  - intros j Hj. by rewrite list_lookup_insert_ne.
  - by rewrite list_lookup_insert_eq.
  - unfold shown_habits. rewrite Hhw'. intros cards [= <-].
    rewrite list_lookup_fmap, Hnew, Hday, list_lookup_insert_eq by done. simpl.
    unfold Full.habit_card, same_day. simpl.
    by rewrite bool_decide_eq_true_2.
Qed.

(** X21. The habit handler records the day its list was rendered, not the day
    of the click.  On a page rendered on one day and clicked on another, for a
    habit not yet done on either: the first click stores the earlier day as
    [lastDone], the list rendered after it still offers "Done today" without
    the check mark, and a second click on the same day adds to the streak
    again, two in all. *)
Theorem habit_btn_click_on_a_stale_page
    (d0 d1 : Date) (idx : nat) (p : Full.Page) (st : Storage)
    (hw : Full.HabitsWrap) (h : Habit) (first second : list Habit) :
  Full.localStorage p = Available st →
  Full.habitsWrap p = Some hw →
  Full.hw_today hw = Full.todayISO d0 →
  Full.todayISO d0 ≠ Full.todayISO d1 →
  is_Some (Full.hw_cards hw !! idx) →
  stored_habits (Available st) !! idx = Some h →
  habit_lastDone h ≠ Some (Full.todayISO d0) →
  first = <[idx := Full.mark_done (Full.todayISO d0) h]> (stored_habits (Available st)) →
  second = <[idx := Full.mark_done (Full.todayISO d1)
                      (Full.mark_done (Full.todayISO d0) h)]> first →
  (∀ habits, habits = first ∨ habits = second →
     accepts st fd_habits (JSON_stringify habits) = true
     ∧ JSON_parse (JSON_stringify habits) = Some habits) →
  ∃ p' p'' h' h'',
    Full.habit_btn_click d1 idx p = Normal p'
    ∧ stored_habits (Full.localStorage p') !! idx = Some h'
    ∧ habit_lastDone h' = Some (Full.todayISO d0)
    ∧ (∀ cards, shown_habits p' = Some cards →
         Full.hc_btn_text <$> cards !! idx = Some "Done today")
    ∧ Full.habit_btn_click d1 idx p' = Normal p''
    ∧ stored_habits (Full.localStorage p'') !! idx = Some h''
    ∧ habit_lastDone h'' = Some (Full.todayISO d1)
    ∧ habit_streak h'' = Some (num_or (habit_streak h) 0 + 2).
Proof.
  intros Hg Hhw Hday Hdays Hcard Hidx Hne Hfirst Hsecond Hcodec.
  destruct (Hcodec first) as [Hacc1 Hround1]; [by left|].
  destruct (Hcodec second) as [Hacc2 Hround2]; [by right|].
  rewrite <- Hday in Hne, Hfirst.
  destruct (habit_btn_click_written d1 idx p st hw h first)
    as (p' & Hrun & Hg' & Hstored & Hhw'); try done.
  assert (idx < length (stored_habits (Available st)))%nat as Hin
    by (by apply lookup_lt_Some in Hidx).
  assert (first !! idx = Some (Full.mark_done (Full.todayISO d0) h)) as Hidx'
    by (rewrite Hfirst, Hday; by apply list_lookup_insert_eq).
  destruct (habit_btn_click_written d1 idx p' _ _
              (Full.mark_done (Full.todayISO d0) h) second Hg' Hhw')
    as (p'' & Hrun' & _ & Hstored' & _); simpl; try done.
  - rewrite list_lookup_fmap, Hidx'. by eexists.
  - by rewrite <- Hg', Hstored.
  - congruence.
  - by rewrite <- Hg', Hstored.
  - exists p', p'', (Full.mark_done (Full.todayISO d0) h),
      (Full.mark_done (Full.todayISO d1) (Full.mark_done (Full.todayISO d0) h)).
    rewrite Hstored, Hstored'.
    split_and!; try done.
    + unfold shown_habits. rewrite Hhw'. intros cards [= <-].
      rewrite list_lookup_fmap, Hidx'. simpl.
      unfold Full.habit_card, same_day. simpl.
      by rewrite bool_decide_eq_false_2.
    + rewrite Hsecond. apply list_lookup_insert_eq.
      by rewrite Hfirst, length_insert.
    + simpl. f_equal. unfold num_or.
      destruct (habit_streak h); repeat case_bool_decide; lia.
Qed.

End HabitEffects.

Section AddHabit.
Context `{JsonHabits : Json (list Habit)}.


End AddHabit.

(** ** What the project operations do *)
Section ProjectEffects.
Context `{JsonProjects : Json (list Project)}.

Lemma stored_projects_saved (st : Storage) (projects : list Project) :
  accepts st fd_projects (JSON_stringify projects) = true →
  JSON_parse (JSON_stringify projects) = Some projects →
  stored_projects (saved (Available st) fd_projects (JSON_stringify projects))
  = projects.
Proof. intros Hacc Hround. by apply loaded_saved. Qed.


(** X24. The milestone button of the card at [idx], with text that is not
    blank, on a store that takes the write and a codec that reads it back.
    The handler does not read the store: it stores the array its rendering
    pass captured, whatever the store holds by then, with the new milestone,
    not done and under the trimmed text, in front of the milestones of the
    project at [idx] (a project without a list of milestones gets a list of
    that one); every other project and every heading is as captured, and
    every milestone input is empty again. *)
Theorem milestone_btn_click_puts_in_front
    (idx : nat) (p : Full.Page) (st : Storage) (pw : Full.ProjectsWrap)
    (card : Full.ProjectCard) (pr : Project) (m : Milestone) (new : list Project) :
  Full.localStorage p = Available st →
  Full.projectsWrap p = Some pw →
  Full.pw_cards pw !! idx = Some card →
  Full.pw_projects pw !! idx = Some pr →
  blank (Full.pc_inp card) = false →
  m = {| milestone_text := Js.trim (Full.pc_inp card); milestone_done := false |} →
  new = <[idx := Full.unshift_milestone (milestone_text m) pr]> (Full.pw_projects pw) →
  accepts st fd_projects (JSON_stringify new) = true →
  JSON_parse (JSON_stringify new) = Some new →
  ∃ p' pr', Full.milestone_btn_click idx p = Normal p'
        ∧ length (stored_projects (Full.localStorage p'))
          = length (Full.pw_projects pw)
        ∧ (∀ j, j ≠ idx →
             stored_projects (Full.localStorage p') !! j = Full.pw_projects pw !! j)
        ∧ stored_projects (Full.localStorage p') !! idx = Some pr'
        ∧ project_name pr' = project_name pr
        ∧ project_milestones pr' = Some (m :: list_or (project_milestones pr))
        ∧ shown_projects p' = Some (project_name <$> Full.pw_projects pw)
        ∧ (∀ pw', Full.projectsWrap p' = Some pw' →
             Forall (λ c, Full.pc_inp c = EmptyString) (Full.pw_cards pw')).
Proof.
  intros Hg Hpw Hcard Hidx Hblank Hm Hnew Hacc Hround.
  pose proof (not_blank_trim_nonempty _ Hblank) as Hne.
  unfold Full.milestone_btn_click. rewrite Hpw, Hcard, Hne, Hidx. simpl.
  rewrite or_else_empty in *.
  assert (milestone_text m = Js.trim (Full.pc_inp card)) as Htxt by (by rewrite Hm).
  rewrite <- Htxt, <- Hnew.
  rewrite Hg, Full_saveJSON_saved.
  pose proof (stored_projects_saved st _ Hacc Hround) as Hstored.
  set (g' := saved _ _ _) in *. clearbody g'. simpl.
  rewrite renderProjects_eq. simpl. rewrite Hpw.
  exists (Full.set_projectsWrap (projects_wrap_of g') (Full.set_localStorage g' p)),
    (Full.unshift_milestone (milestone_text m) pr).
  assert (idx < length (Full.pw_projects pw))%nat as Hin
    by (by apply lookup_lt_Some in Hidx).
  simpl. rewrite Hstored.
  split_and!; try done.
  - by rewrite Hnew, length_insert.
  - intros j Hj. by rewrite Hnew, list_lookup_insert_ne.
  - by rewrite Hnew, list_lookup_insert_eq.
  - simpl. by rewrite Hm.
  - unfold shown_projects. simpl. unfold projects_wrap_of. rewrite Hstored. simpl.
    f_equal. rewrite <- list_fmap_compose, Hnew, list_fmap_insert. simpl.
    apply list_insert_id. by rewrite list_lookup_fmap, Hidx.
  - intros pw' [= <-]. simpl. apply Forall_fmap. by apply Forall_true.
Qed.

End ProjectEffects.

(** ** The click counter of the home page *)

Lemma jsBtn_clicks (n : nat) (text : string) :
  Home.clicks (Nat.iter n Home.jsBtn_click (Home.started true (Some text)))
  = Z.of_nat n
  ∧ Home.jsBtn (Nat.iter n Home.jsBtn_click (Home.started true (Some text))) = true
  ∧ is_Some (Home.jsOut (Nat.iter n Home.jsBtn_click (Home.started true (Some text)))).
Proof.
  induction n as [|n (IHc & IHb & [out IHo])]; [by split_and!; eauto|].
  rewrite Nat.iter_succ. unfold Home.jsBtn_click at 1 3 5.
  rewrite IHb, IHo, IHc. simpl. split_and!; eauto. lia.
Qed.

(** X25. The counter of the home page: after one or more clicks on the button
    (up to 2^53 of them, as far as the script's numbers count exactly) the
    output reads "Clicked n time(s)" with the count of the clicks so far in
    decimal, whatever it read before; on a page that lacks the button or the
    output element no handler was installed and nothing ever changes. *)
Theorem jsBtn_counts_the_clicks (n : nat) (btn : bool) (out : option string) :
  (0 < n)%nat →
  Z.of_nat n ≤ 2 ^ 53 →
  (∀ text, btn = true → out = Some text →
     Home.jsOut (Nat.iter n Home.jsBtn_click (Home.started btn out))
     = Some ("Clicked " +:+ pretty (Z.of_nat n) +:+ " time(s)"))
  ∧ (btn = false ∨ out = None →
     Nat.iter n Home.jsBtn_click (Home.started btn out) = Home.started btn out).
Proof.
  intros Hn _. split.
  - intros text -> ->. destruct n as [|n]; [lia|].
    destruct (jsBtn_clicks n text) as (Hc & Hb & [old Ho]).
    rewrite Nat.iter_succ. unfold Home.jsBtn_click at 1.
    rewrite Hb, Ho, Hc. simpl. do 3 f_equal.
    unfold Js.to_string.
    replace (Z.of_nat n + 1) with (Z.of_nat (S n)) by lia. done.
  - intros Hmissing. clear Hn. induction n as [|n IH]; [done|].
    rewrite Nat.iter_succ, IH. unfold Home.jsBtn_click, Home.started. simpl.
    destruct Hmissing as [-> | ->]; [done|]. by destruct btn.
Qed.

(** ** The theorems of this part at concrete pages

    The pages are loaded from a store that accepts every write, under the
    codec that loses nothing. *)

Lemma DOMContentLoaded_renders_the_store_witness :
  ∃ p', @Full.DOMContentLoaded_lists tasks_json projects_json habits_json day
          (page (Available (store_of four_tasks two_projects two_habits))) = Normal p'
        ∧ shown_projects p' = Some ["Thesis"; "Garden"].
Proof.
  destruct (@DOMContentLoaded_renders_the_store tasks_json projects_json habits_json
              day (page (Available (store_of four_tasks two_projects two_habits)))
              (store_of_holds_collections four_tasks two_projects two_habits))
    as (p' & Hrun & _ & _ & _ & Hprojects & _).
  exists p'. split; [exact Hrun|]. rewrite Hprojects. by vm_compute.
Defined.

Lemma operations_keep_lists_in_step_witness :
  ∃ p', @run tasks_json projects_json habits_json day (HabitDone 1)
          (loaded_page day (store_of four_tasks two_projects two_habits)) = Normal p'
        ∧ @rendered_from_store tasks_json projects_json habits_json day p'.
Proof.
  destruct (@operations_keep_lists_in_step tasks_json projects_json habits_json
              day (HabitDone 1)
              (loaded_page day (store_of four_tasks two_projects two_habits)))
    as (p' & Hrun & Hsync & _).
  - rewrite (proj1 (loaded_page_rendered day
                      (store_of four_tasks two_projects two_habits))).
    apply store_of_holds_collections.
  - exact (proj2 (loaded_page_rendered day
                    (store_of four_tasks two_projects two_habits))).
  - exists p'. split; [exact Hrun|exact Hsync].
Defined.

Lemma store_of_holds_tasks (tasks : list Task) (projects : list Project)
    (habits : list Habit) :
  @holds_collection _ tasks_json (Available (store_of tasks projects habits)) fd_tasks.
Proof. exact (proj1 (store_of_holds_collections tasks projects habits)). Qed.

Lemma addTask_stores_in_front_witness :
  ∃ p', @Full.addTask tasks_json day
          (Full.set_taskInput "  Buy milk "
             (loaded_page day (store_of four_tasks [] []))) = Normal p'
        ∧ @stored_tasks tasks_json (Full.localStorage p')
          = {| task_text := "Buy milk"; task_done := false; task_minutes := Some 25 |}
              :: four_tasks
        ∧ Full.taskInput p' = Some EmptyString
        ∧ Full.plannedMinutes p' = Some "75 min".
Proof.
  edestruct (@addTask_stores_in_front tasks_json day
              (Full.set_taskInput "  Buy milk "
                 (loaded_page day (store_of four_tasks [] [])))
              (store_of four_tasks [] []) "  Buy milk ")
    as (p' & Hrun & Hstored & _ & _ & Hin & _ & Hplanned).
  - by vm_compute.
  - apply store_of_holds_tasks.
  - reflexivity.
  - reflexivity.
  - reflexivity.
  - by vm_compute.
  - reflexivity.
  - apply numeral_round_trip.
  - exists p'. split_and!; [exact Hrun| |exact Hin|].
    + rewrite Hstored. by vm_compute.
    + rewrite Hplanned. by vm_compute.
Defined.

Lemma clearDone_keeps_the_open_tasks_witness :
  ∃ p', @Full.clearDoneBtn_click tasks_json day
          (loaded_page day (store_of four_tasks [] [])) = Normal p'
        ∧ (task_text <$> @stored_tasks tasks_json (Full.localStorage p')) = ["A"; "C"]
        ∧ Full.plannedMinutes p' = Some "40 min".
Proof.
  edestruct (@clearDone_keeps_the_open_tasks tasks_json day
              (loaded_page day (store_of four_tasks [] []))
              (store_of four_tasks [] []))
    as (p' & Hrun & Hstored & _ & _ & _ & Hplanned).
  - by vm_compute.
  - apply store_of_holds_tasks.
  - by vm_compute.
  - reflexivity.
  - reflexivity.
  - apply numeral_round_trip.
  - exists p'. split_and!; [exact Hrun| |].
    + rewrite Hstored. by vm_compute.
    + rewrite Hplanned. by vm_compute.
Defined.


Lemma cb_change_flips_one_task_witness :
  ∃ p' t', @Full.cb_change tasks_json day 1
             (loaded_page day (store_of four_tasks [] [])) = Normal p'
        ∧ @stored_tasks tasks_json (Full.localStorage p') !! 1%nat = Some t'
        ∧ task_text t' = "B"
        ∧ task_done t' = false.
Proof.
  edestruct (@cb_change_flips_one_task tasks_json day 1
              (loaded_page day (store_of four_tasks [] []))
              (store_of four_tasks [] [])
              (@task_list_of tasks_json (Available (store_of four_tasks [] [])))
              {| task_text := "B"; task_done := true; task_minutes := Some 10 |})
    as (p' & t' & Hrun & _ & _ & Hidx & Htext & _ & Hdone & _).
  - by vm_compute.
  - by vm_compute.
  - reflexivity.
  - reflexivity.
  - lia.
  - by vm_compute.
  - reflexivity.
  - reflexivity.
  - apply numeral_round_trip.
  - exists p', t'. split_and!; [exact Hrun|exact Hidx|exact Htext|exact Hdone].
Defined.

Lemma cb_change_twice_restores_witness :
  ∃ p' p'', @Full.cb_change tasks_json day 1
              (loaded_page day (store_of four_tasks [] [])) = Normal p'
        ∧ @Full.cb_change tasks_json day 1 p' = Normal p''
        ∧ @stored_tasks tasks_json (Full.localStorage p'') = four_tasks.
Proof.
  edestruct (@cb_change_twice_restores tasks_json day 1
              (loaded_page day (store_of four_tasks [] []))
              (store_of four_tasks [] [])
              {| Full.tl_tasks := four_tasks;
                 Full.tl_items := Full.task_item <$> take 3 four_tasks |}
              {| task_text := "B"; task_done := true; task_minutes := Some 10 |}
              four_tasks)
    as (p' & p'' & Hrun & _ & Hrun' & Hstored & _).
  - by vm_compute.
  - by vm_compute.
  - reflexivity.
  - reflexivity.
  - lia.
  - reflexivity.
  - reflexivity.
  - intros tasks _. split; [reflexivity|apply numeral_round_trip].
  - exists p', p''. split_and!; [exact Hrun|exact Hrun'|exact Hstored].
Defined.

Lemma habit_btn_click_counts_the_day_witness :
  ∃ p' h', @Full.habit_btn_click habits_json day 1
             (loaded_page day (store_of [] [] two_habits)) = Normal p'
        ∧ @stored_habits habits_json (Full.localStorage p') !! 1%nat = Some h'
        ∧ habit_streak h' = Some 1
        ∧ habit_lastDone h' = Some "2026-01-05".
Proof.
  edestruct (@habit_btn_click_counts_the_day habits_json day 1
              (loaded_page day (store_of [] [] two_habits))
              (store_of [] [] two_habits)
              (@habits_wrap_of habits_json day (Available (store_of [] [] two_habits)))
              {| habit_name := "Run"; habit_streak := Some 0; habit_lastDone := None |})
    as (p' & h' & Hrun & _ & _ & Hidx & _ & Hstreak & Hlast & _).
  - by vm_compute.
  - by vm_compute.
  - reflexivity.
  - vm_compute. by eexists.
  - by vm_compute.
  - discriminate.
  - reflexivity.
  - reflexivity.
  - apply numeral_round_trip.
  - exists p', h'. split_and!; [exact Hrun|exact Hidx|exact Hstreak|exact Hlast].
Defined.

Lemma habit_btn_click_on_a_stale_page_witness :
  ∃ p' p'' h'', @Full.habit_btn_click habits_json next_day 1
                  (loaded_page day (store_of [] [] two_habits)) = Normal p'
        ∧ @Full.habit_btn_click habits_json next_day 1 p' = Normal p''
        ∧ @stored_habits habits_json (Full.localStorage p'') !! 1%nat = Some h''
        ∧ habit_streak h'' = Some 2.
Proof.
  edestruct (@habit_btn_click_on_a_stale_page habits_json day next_day 1
              (loaded_page day (store_of [] [] two_habits))
              (store_of [] [] two_habits)
              (@habits_wrap_of habits_json day (Available (store_of [] [] two_habits)))
              {| habit_name := "Run"; habit_streak := Some 0; habit_lastDone := None |})
    as (p' & p'' & h' & h'' & Hrun & _ & _ & _ & Hrun' & Hidx & _ & Hstreak).
  - by vm_compute.
  - by vm_compute.
  - reflexivity.
  - by vm_compute.
  - vm_compute. by eexists.
  - by vm_compute.
  - discriminate.
  - reflexivity.
  - reflexivity.
  - intros habits _. split; [reflexivity|apply numeral_round_trip].
  - exists p', p'', h''. split_and!; [exact Hrun|exact Hrun'|exact Hidx|exact Hstreak].
Defined.



Lemma milestone_btn_click_puts_in_front_witness :
  ∃ p' pr', @Full.milestone_btn_click projects_json 1
              (type_milestone 1 " Dig the beds "
                 (loaded_page day (store_of [] two_projects []))) = Normal p'
        ∧ @stored_projects projects_json (Full.localStorage p') !! 1%nat = Some pr'
        ∧ project_name pr' = "Garden"
        ∧ project_milestones pr'
          = Some [ {| milestone_text := "Dig the beds"; milestone_done := false |} ].
Proof.
  edestruct (@milestone_btn_click_puts_in_front projects_json 1
              (type_milestone 1 " Dig the beds "
                 (loaded_page day (store_of [] two_projects [])))
              (store_of [] two_projects [])
              {| Full.pw_projects := two_projects;
                 Full.pw_cards :=
                   [ {| Full.pc_h3 := "Thesis"; Full.pc_inp := EmptyString |};
                     {| Full.pc_h3 := "Garden"; Full.pc_inp := " Dig the beds " |} ] |}
              {| Full.pc_h3 := "Garden"; Full.pc_inp := " Dig the beds " |}
              {| project_name := "Garden"; project_milestones := None |})
    as (p' & pr' & Hrun & _ & _ & Hidx & Hname & Hms & _).
  - by vm_compute.
  - by vm_compute.
  - reflexivity.
  - reflexivity.
  - reflexivity.
  - reflexivity.
  - reflexivity.
  - reflexivity.
  - apply numeral_round_trip.
  - exists p', pr'. split_and!; [exact Hrun|exact Hidx|exact Hname|].
    rewrite Hms. by vm_compute.
Defined.

Lemma jsBtn_counts_the_clicks_witness :
  Home.jsOut (Nat.iter 3 Home.jsBtn_click (Home.started true (Some EmptyString)))
  = Some "Clicked 3 time(s)".
Proof.
  destruct (jsBtn_counts_the_clicks 3 true (Some EmptyString)) as [Hout _].
  - lia.
  - lia.
  - exact (Hout EmptyString eq_refl eq_refl).
Defined.

Lemma display_follows_the_timer_witness :
  shows Defensive.fmt2 (Defensive.handle StartClick (fresh_defensive "50" "10"))
  ∧ ∃ r, remaining (Defensive.handle StartClick (fresh_defensive "50" "10")) = Js.Int r
         ∧ 1 ≤ r ≤ 5400.
Proof.
  destruct (display_follows_the_timer
              (Defensive.handle StartClick (fresh_defensive "50" "10")))
    as [_ Hdefensive].
  destruct (Hdefensive (reachable_handle _ _ _ _ _ (reachable_loaded _ _ _ _ _ _ _)))
    as (Hshows & r & Hr & Hrange & _).
  split; [exact Hshows|]. exists r. exact (conj Hr Hrange).
Defined.

Lemma typed_minutes_are_taken_witness :
  remaining (Full.handle (FocusMinChange "45") (fresh_full "25" "5")) = Js.Int 2700
  ∧ remaining (Defensive.handle (FocusMinChange "45") (fresh_full "25" "5"))
    = Js.Int 2700.
Proof.
  destruct (typed_minutes_are_taken (fresh_full "25" "5") 45 "25") as [Hfocus _].
  destruct Hfocus as (Hfull & Hdefensive & _).
  - reflexivity.
  - reflexivity.
  - lia.
  - split; [exact Hfull|exact Hdefensive].
Defined.
